(* ===== verification/_CoqProject ===== *)
-Q . S2P
Prelude.v
Session.v
Clock.v
Store.v
Ledger.v
Referral.v
Workflow.v
Config.v
Leaderboard.v
Callback.v
System.v
