(* ===== verification/Prelude.v ===== *)
(** * A verification development for the Mini-Bot reward backend

    The program is the single Python file [src/main.py]: a FastAPI
    service and a Telegram bot, run as two threads of one process
    (lines 541-547) on one SQLite database.  Users earn coins by
    watching ads ([ad_watched]), by a once-a-day claim ([daily_claim]),
    by referring new users ([bot_start] with a referrer argument) and
    by having a task proof approved ([submit_proof], then
    [review_submission] by an administrator or a verifier).  Three ads
    in a row turn on a two-hour boost that doubles task rewards.  Every
    WebApp handler authenticates its caller with a Telegram [init_data]
    token ([verify_init_data]).

    ** Layout: one file per component, in dependency order

    - [Prelude] (this file): [http_error] (FastAPI's [HTTPException]),
      [result], the state-and-error monad [txn] of a handler on the
      database with its notations in [bot_scope] ([x <- c ;; k],
      [c ;;; k]), the Python helpers [py_or] ([a or b]) and [py_in],
      the hint databases [minibot] and [minibot_rw], the tactics
      ([case_if], [decide_prop], [zlia], ...) and the monad laws.
    - [Session] (lines 102-118): [verify_init_data] and the
      [parse_qsl(strict_parsing=True)] it calls, [dict()], the sorted
      check string, and the [user] decoding.  SHA-256, HMAC and
      [json.loads] are library calls: the classes [Crypto] and
      [JsonDecoder], and every theorem holds for every instance.
    - [Clock]: [datetime.utcnow()] as microseconds since the epoch, the
      proleptic Gregorian calendar, [date().isoformat()],
      [isoformat()] and [fromisoformat] on the strings the code writes.
    - [Store] (lines 55-98 and the prologue of every handler): the five
      tables of [migrate] as stdpp [gmap]s and a [gset], the upload
      directory, the [env] a handler reads, [INSERT OR IGNORE] and
      [UPDATE] on [users], and [request_user] ([verify_init_data],
      then [int(user.get("id"))]).
    - [Ledger]: [ad_watched] (203-238), [daily_claim] (421-441),
      [balance] (185-200) and the boost test; the abstract one-row
      specification [ad_effect] / [daily_effect] they refine.
    - [Referral]: [bot_start] (444-474) and its statements
      [bot_start_db].
    - [Workflow]: [webapp_check_join], [submit_proof],
      [review_submission] (split into the read phase [review_plan] and
      the write phase [review_apply]) and the four administrator
      handlers (158-170, 240-393).
    - [Config] (25-47, 121-137): the environment variables,
      [ADMIN_IDS] parsing, [is_member_of_channel] over the Telegram
      call, and [request_env], the [env] of the configured process.
    - [Leaderboard]: the read-only [get_tasks], [leaderboards],
      [get_submissions] and [serve_upload], with [ORDER BY ... DESC]
      as a stable sort of the storage order and [LIMIT]/[OFFSET].
    - [Callback] (476-529): the bot's menu buttons; [back] writes;
      [leaderboards] sends its text as Markdown, which Telegram may
      refuse (the oracle [markdown_ok] of [env]).
    - [System]: [handle] dispatches a [request] to its handler, [step]
      runs it (a failed request leaves the store unchanged: no
      [commit]), [run] serves a list of requests one after the other,
      [reachable] is the step relation's reachable stores, and
      [reviews_interleaved] runs the read phases of two reviews before
      their write phases.

    State is passed explicitly: a handler is a [txn db A], that is
    [db -> result (db * A)], and its statements are functions
    [db -> db] composed in the order of the code.

    ** What the theorems show

    - The whole service (System): the store invariant (balances, ad
      counts and streaks in range, positive task rewards, submission ids
      below the [AUTOINCREMENT] counter with the submitter's row, no
      self-referral) holds in every reachable store, by rule induction
      over [reachable] with one preservation lemma per handler; along a
      serial run a submission is closed at most once and stays as its
      review left it, and the daily bonus is paid at most once per user
      and UTC day (one induction, [count_run_at_most_once], for both);
      a staff approval closes a pending submission (progress).
    - Refinement: [ad_watched] and [daily_claim] implement the abstract
      one-row operations of spec section 4.2.
    - Sessions: a signed token verifies and yields its fields in any
      order; a missing or wrong [hash] is refused.
    - Functional and error behaviour of every handler: the boost
      arithmetic, referral payments, review payments, the 403 of the
      privileged handlers, the leaderboards' ranking (descending, ties
      by id) and pagination bounds, the agreement of the bot's [coins]
      button with [/balance], the [ADMIN_IDS] round trip, and a
      membership test that fails closed.
    - Findings proved as theorems: two reviews whose read phases
      interleave pay twice ([review_race]; this needs two worker
      processes on one database, since one process runs the
      [async def] handler, which has no [await], to its end); the
      referral bonus is paid
      on every [/start] that carries the referrer; a blank [BOT_TOKEN]
      lets anyone forge sessions; the membership call is never awaited,
      so nobody is a member ([Config.unawaited_membership]); the [back]
      button inserts a row and raises; two proofs in one second share one file; a deleted task
      pays 0; the check string is ambiguous.

    - The theorems with a hypothesis [is_member e uid = true] (the ad
      and submission theorems) hold for any membership oracle.  With
      the call as line 133 writes it, no user is ever a member
      ([Config.unawaited_membership]), so in the program as written
      they describe the code paths a working membership call would
      reach.

    ** Bounds and fuel

    The loops of the code are structural recursions on a list or a
    string, except [str.strip()] ([Workflow.lstrip_fuel],
    [Workflow.rstrip_fuel]), whose rounds drop one white-space code
    point of one to three bytes: the length of the text is enough fuel,
    and any larger fuel gives the same text
    ([Workflow.lstrip_fuel_enough], [Workflow.rstrip_fuel_enough]).  Instants are microseconds in [Z];
    [datetime] raises past year 9999 and the code's [+ timedelta] does
    too ([in_rangeb]); the round trips of [Clock] hold on that range.
    The calendar lemmas are checked by evaluation over one 400-year
    cycle ([cycle_all]), which covers every day since the calendar
    repeats every 146097 days.  SQLite's 64-bit integers are [Z]: an
    overflow needs more than 9.2e18 coins.

    ** Not modelled

    Text is UTF-8 bytes.  [str.isdigit] and [int] are read on ASCII
    digits only ([Referral.isdigit], used for the [/start] argument and
    [ADMIN_IDS]): Python also accepts non-ASCII digits, which the model
    does not decode; the theorems on the [/start] argument assume an
    ASCII word where this matters ([Referral.ascii_word]).  The
    [try/except] of [bot_start] around the referral statements, which
    only an id past SQLite's 64-bit range reaches, is left out.  For
    [get_submissions], SQLite's order of submissions with equal
    timestamps is unspecified; the model takes storage order.
    Telegram's own refusals of an edit (a text equal to the current
    one) change no store and are left out; its refusal of the
    [leaderboards] Markdown text is the oracle [markdown_ok].

    The wording and keyboards of the bot's messages (the model keeps
    what a message shows, and the [leaderboards] text byte for byte),
    [index.html], logging, [get_db], [migrate]'s
    I/O and process start-up ([run_bot], [uvicorn.run]) are
    user-interface or I/O code with no effect on the store.  The
    Telegram [get_chat_member] call, SHA-256, HMAC and [json.loads] are
    library calls, taken as parameters.  Concurrency is modelled as the
    serial order SQLite's write lock gives handlers whose first
    statement writes, and for [review_submission], whose reads precede
    its first write, as the interleaving [reviews_interleaved]. *)

From stdpp Require Export base gmap list strings pretty sorting.
From Stdlib Require Export ZArith String Ascii Lia.

Declare Scope bot_scope.
Delimit Scope bot_scope with bot.

(** ** Errors and results

    [HTTPException(status_code, detail)] of FastAPI; an uncaught Python
    exception inside a handler is a 500. *)

Inductive http_error : Type :=
  | HTTPException (status_code : Z) (detail : string).

Definition internal_error : http_error :=
  HTTPException 500 "Internal Server Error".

Inductive result (A : Type) : Type :=
  | Ok (a : A)
  | Err (e : http_error).
Arguments Ok {A} a.
Arguments Err {A} e.

Definition result_bind {A B} (r : result A) (k : A -> result B) : result B :=
  match r with Ok a => k a | Err e => Err e end.

(** ** The transaction monad

    A handler reads and writes one database connection and may raise.
    A raise before [con.commit()] discards every write of the handler,
    so an error carries no state: the store it leaves is the one it
    started from. *)

Definition txn (S A : Type) : Type := S -> result (S * A).

Definition tret {S A} (a : A) : txn S A := fun s => Ok (s, a).

Definition tbind {S A B} (m : txn S A) (k : A -> txn S B) : txn S B :=
  fun s => match m s with Ok (s', a) => k a s' | Err e => Err e end.

Definition traise {S A} (e : http_error) : txn S A := fun _ => Err e.

Definition tget {S} : txn S S := fun s => Ok (s, s).

Definition tmodify {S} (f : S -> S) : txn S unit := fun s => Ok (f s, tt).

(** Restore a state read before: [con.close()] without [con.commit()]. *)
Definition tput {S} (s : S) : txn S unit := fun _ => Ok (s, tt).

Definition tlift {S A} (r : result A) : txn S A :=
  fun s => match r with Ok a => Ok (s, a) | Err e => Err e end.

(** Requests served one after the other on one store; the first error
    stops the sequence. *)
Fixpoint txn_seq {S A} (ms : list (txn S A)) (s : S) : result (S * list A) :=
  match ms with
  | [] => Ok (s, [])
  | m :: ms' =>
      match m s with
      | Ok (s', a) =>
          match txn_seq ms' s' with
          | Ok (s'', l) => Ok (s'', a :: l)
          | Err e => Err e
          end
      | Err e => Err e
      end
  end.

Notation "x <- c1 ;; c2" := (tbind c1 (fun x => c2))
  (at level 100, c1 at next level, right associativity) : bot_scope.
Notation "c1 ;;; c2" := (tbind c1 (fun _ => c2))
  (at level 100, right associativity) : bot_scope.

Open Scope bot_scope.

(** ** Python helpers *)

(** [a or b]: a string is falsy when it is missing ([None]) or empty. *)
Definition py_or (a : option string) (b : string) : string :=
  match a with
  | Some s => if String.eqb s "" then b else s
  | None => b
  end.

(** [x in xs] on a Python list of integers. *)
Definition py_in (x : Z) (xs : list Z) : bool := bool_decide (x ∈ xs).

(** [str.replace(old, new)] for one-character [old]: every occurrence. *)
Fixpoint str_replace_char (old : ascii) (nw : string) (s : string) : string :=
  match s with
  | EmptyString => EmptyString
  | String c s' =>
      ((if Ascii.eqb c old then nw else String c EmptyString) ++ str_replace_char old nw s')%string
  end.

(** [c in s] *)
Fixpoint has_char (c : ascii) (s : string) : bool :=
  match s with
  | EmptyString => false
  | String c' s' => Ascii.eqb c' c || has_char c s'
  end.

(** ** Automation *)

Create HintDb minibot discriminated.
Create Rewrite HintDb minibot_rw.

(** A test that holds selects its branch. *)
Lemma if_true {A} (b : bool) (x y : A) : b = true -> (if b then x else y) = x.
Proof. by intros ->. Qed.

Lemma if_false {A} (b : bool) (x y : A) : b = false -> (if b then x else y) = y.
Proof. by intros ->. Qed.

Lemma if_same {A} (b : bool) (x : A) : (if b then x else x) = x.
Proof. by destruct b. Qed.

Section TxnLemmas.
Context {S : Type}.

Lemma tbind_ok {A B} (m : txn S A) (k : A -> txn S B) s s' a :
  m s = Ok (s', a) -> tbind m k s = k a s'.
Proof. unfold tbind. by intros ->. Qed.

Lemma tbind_err {A B} (m : txn S A) (k : A -> txn S B) s e :
  m s = Err e -> tbind m k s = Err e.
Proof. unfold tbind. by intros ->. Qed.

Lemma tbind_ret_l {A B} (a : A) (k : A -> txn S B) s :
  tbind (tret a) k s = k a s.
Proof. reflexivity. Qed.

Lemma tbind_ret_r {A} (m : txn S A) s : tbind m tret s = m s.
Proof. unfold tbind, tret. by destruct (m s) as [[]|]. Qed.

Lemma tbind_assoc {A B C} (m : txn S A) (k : A -> txn S B) (h : B -> txn S C) s :
  tbind (tbind m k) h s = tbind m (fun a => tbind (k a) h) s.
Proof. unfold tbind. by destruct (m s) as [[]|]. Qed.

Lemma tbind_tmodify {B} (f : S -> S) (k : unit -> txn S B) s :
  tbind (tmodify f) k s = k tt (f s).
Proof. reflexivity. Qed.

Lemma tbind_tget {B} (k : S -> txn S B) s : tbind tget k s = k s s.
Proof. reflexivity. Qed.

Lemma tbind_tput {B} (s0 : S) (k : unit -> txn S B) s : tbind (tput s0) k s = k tt s0.
Proof. reflexivity. Qed.

Lemma tbind_traise {A B} e (k : A -> txn S B) s : tbind (traise e) k s = Err e.
Proof. reflexivity. Qed.

Lemma tbind_tlift_ok {A B} (r : result A) a (k : A -> txn S B) s :
  r = Ok a -> tbind (tlift r) k s = k a s.
Proof. by intros ->. Qed.

Lemma tbind_tlift_err {A B} (r : result A) e (k : A -> txn S B) s :
  r = Err e -> tbind (tlift r) k s = Err e.
Proof. by intros ->. Qed.

(** An invariant of the state is kept by a bind when each part keeps it. *)
Lemma tbind_preserves {A B} (P : S -> Prop) (m : txn S A) (k : A -> txn S B) :
  (forall s s' a, P s -> m s = Ok (s', a) -> P s') ->
  (forall a s s' b, P s -> k a s = Ok (s', b) -> P s') ->
  forall s s' b, P s -> tbind m k s = Ok (s', b) -> P s'.
Proof.
  intros Hm Hk s s' b Hs. unfold tbind.
  destruct (m s) as [[s1 a]|] eqn:E; [|done]. eauto.
Qed.
End TxnLemmas.

#[export] Hint Rewrite @tbind_ret_l @tbind_assoc @tbind_tmodify @tbind_tget @tbind_tput
  @tbind_traise : minibot_rw.

Lemma py_or_some_nonempty s b : s <> "" -> py_or (Some s) b = s.
Proof. intros H. unfold py_or. destruct (String.eqb_spec s ""); congruence. Qed.

Lemma py_in_spec x xs : py_in x xs = true <-> In x xs.
Proof. unfold py_in. rewrite bool_decide_eq_true. apply list_elem_of_In. Qed.

#[export] Hint Resolve py_or_some_nonempty : minibot.

(** ** Strings *)

(** stdpp makes [String.append] opaque to [simpl]; these are its two
    defining equations. *)
Lemma string_app_nil_l (b : string) : ("" ++ b)%string = b.
Proof. reflexivity. Qed.

Lemma string_app_cons x (a b : string) : (String x a ++ b)%string = String x (a ++ b).
Proof. reflexivity. Qed.

Lemma string_app_assoc (a b c : string) : ((a ++ b) ++ c = a ++ (b ++ c))%string.
Proof. induction a as [|x a IH]; [done|]. rewrite !string_app_cons. by f_equal. Qed.

Lemma string_app_nil_r (a : string) : (a ++ "")%string = a.
Proof. induction a as [|x a IH]; [done|]. rewrite string_app_cons. by f_equal. Qed.

Lemma string_app_eq_empty (a b : string) : (a ++ b)%string = "" -> a = "" /\ b = "".
Proof. destruct a; [done|discriminate]. Qed.

Lemma str_replace_char_app o n (a b : string) :
  str_replace_char o n (a ++ b) = (str_replace_char o n a ++ str_replace_char o n b)%string.
Proof.
  induction a as [|x a IH]; [done|].
  rewrite string_app_cons. simpl. by rewrite IH, string_app_assoc.
Qed.

Lemma has_char_app c (a b : string) : has_char c (a ++ b) = has_char c a || has_char c b.
Proof. induction a as [|x a IH]; [done|]. rewrite string_app_cons. simpl. by rewrite IH, orb_assoc. Qed.

(** [s.replace(c, n)] does nothing when [c] is not in [s]. *)
Lemma str_replace_char_absent c n s : has_char c s = false -> str_replace_char c n s = s.
Proof.
  induction s as [|x s IH]; [done|]. simpl. intros [Hx Hs]%orb_false_iff.
  rewrite Hx, IH by done. reflexivity.
Qed.

#[export] Hint Rewrite string_app_nil_l string_app_cons string_app_assoc string_app_nil_r
  str_replace_char_app : minibot_rw.

(** [simpl_txn] unfolds the monad in a goal about a concrete run. *)
Ltac simpl_txn :=
  repeat (unfold tbind, tret, traise, tget, tput, tmodify, tlift in *; simpl in *).

(** [decide_prop] proves a closed decidable proposition by evaluating its
    decision procedure. *)
Ltac decide_prop := apply (bool_decide_unpack _); vm_compute; exact I.

(** [zlia]: [lia] after naming the quotients and remainders of the
    divisions by constants. *)
Ltac zlia := Z.div_mod_to_equations; lia.

(** [zbool] turns the boolean integer tests of the hypotheses into
    propositions. *)
Ltac zbool :=
  repeat match goal with
  | H : (_ && _) = true |- _ => apply andb_true_iff in H as [? ?]
  | H : (_ <=? _)%Z = true |- _ => apply Z.leb_le in H
  | H : (_ <? _)%Z = true |- _ => apply Z.ltb_lt in H
  | H : (_ =? _)%Z = true |- _ => apply Z.eqb_eq in H
  end.

(** [zbool_goal] proves a conjunction of boolean integer tests. *)
Ltac zbool_goal :=
  repeat (apply andb_true_iff; split);
  first [apply Z.leb_le | apply Z.ltb_lt | apply Z.eqb_eq]; zlia.

(** [case_if_in H] splits on the first boolean test of [H]. *)
Ltac case_if_in H :=
  match type of H with
  | context [if ?b then _ else _] =>
      let E := fresh "E" in destruct b eqn:E
  end.

(** [case_if] splits on the first boolean test of the goal, naming its
    equation. *)
Ltac case_if :=
  match goal with
  | |- context [if ?b then _ else _] =>
      let E := fresh "E" in destruct b eqn:E
  end.
