(* ===== verification/Session.v ===== *)
(** * Session: the Telegram WebApp [init_data] check

    [verify_init_data] (src/main.py lines 102-118) and the query-string
    parser it calls ([urllib.parse.parse_qsl] with [strict_parsing=True]
    and the default [keep_blank_values=False]).  Strings are byte
    strings: a Python [str] is its UTF-8 encoding, which keeps
    [sorted]'s code-point order (it is the byte order of UTF-8) and
    makes [.encode()] the identity.  The hash functions and the JSON
    parser are library calls: they are the fields of the classes
    [Crypto] and [JsonDecoder], and every theorem holds for every
    instance. *)

From S2P Require Import Prelude.

Module Session.

Local Open Scope string_scope.

(** ** The library interfaces *)

Class Crypto := {
  (** [hashlib.sha256(b).digest()] *)
  sha256_digest : string -> string;
  (** [hmac.new(key, msg, hashlib.sha256).hexdigest()] *)
  hmac_sha256_hexdigest : string -> string -> string;
  (** a hex digest has 64 characters, so it is never blank *)
  hmac_hexdigest_nonempty : forall k m, hmac_sha256_hexdigest k m <> ""
}.

(** What [json.loads] returns, as far as the handlers look at it: an
    object whose ["id"], ["username"] and ["first_name"] entries are
    read, or a JSON value that is not an object.  [uj_id] is [None] when
    [int(user.get("id"))] raises. *)
Record user_json := {
  uj_id : option Z;
  uj_username : option string;
  uj_first_name : option string
}.

Inductive json_value :=
  | JObject (u : user_json)
  | JNonObject.

Class JsonDecoder := {
  (** [json.loads]; [None] when it raises *)
  json_loads : string -> option json_value
}.

(** A value of the dictionary [verify_init_data] returns. *)
Inductive pyval :=
  | PyStr (s : string)
  | PyJson (j : json_value).

(** ** Strings *)

Definition amp : ascii := "&".
Definition eq_sign : ascii := "=".
Definition pct : ascii := "%".
Definition newline : ascii := "010".

(** [s.split(sep)] *)
Fixpoint split_char (sep : ascii) (s : string) : list string :=
  match s with
  | EmptyString => [EmptyString]
  | String c s' =>
      if Ascii.eqb c sep then EmptyString :: split_char sep s'
      else match split_char sep s' with
           | w :: ws => String c w :: ws
           | [] => [String c EmptyString]
           end
  end.

(** [s.split(sep, 1)] when it has two parts. *)
Fixpoint split_once (sep : ascii) (s : string) : option (string * string) :=
  match s with
  | EmptyString => None
  | String c s' =>
      if Ascii.eqb c sep then Some (EmptyString, s')
      else match split_once sep s' with
           | Some (a, b) => Some (String c a, b)
           | None => None
           end
  end.

(** The value of one hexadecimal digit ([_hextobyte] of urllib). *)
Definition hex_val (c : ascii) : option N :=
  let n := N_of_ascii c in
  if (48 <=? n)%N && (n <=? 57)%N then Some (n - 48)%N
  else if (65 <=? n)%N && (n <=? 70)%N then Some (n - 55)%N
  else if (97 <=? n)%N && (n <=? 102)%N then Some (n - 87)%N
  else None.

(** [urllib.parse.unquote]: each [%XX] with two hexadecimal digits
    becomes the byte [XX]; any other [%] is kept. *)
Fixpoint unquote (s : string) : string :=
  match s with
  | EmptyString => EmptyString
  | String c s' =>
      if Ascii.eqb c pct then
        match s' with
        | String h1 (String h2 rest) =>
            match hex_val h1, hex_val h2 with
            | Some a, Some b => String (ascii_of_N (16 * a + b)) (unquote rest)
            | _, _ => String c (unquote s')
            end
        | _ => String c (unquote s')
        end
      else String c (unquote s')
  end.

(** [x.replace('+', ' ')] followed by [unquote], as [parse_qsl] does to
    each name and value. *)
Definition unquote_plus (s : string) : string :=
  unquote (str_replace_char "+" " " s).

(** ** [parse_qsl(qs, strict_parsing=True)] *)

Definition bad_query_field (nv : string) : string :=
  "bad query field: '" ++ nv ++ "'".

(** One [name_value] field: [None] when a blank value drops it. *)
Definition parse_field (nv : string) : sum string (option (string * string)) :=
  match split_once eq_sign nv with
  | None => inl (bad_query_field nv)
  | Some (n, v) =>
      if String.eqb v "" then inr None
      else inr (Some (unquote_plus n, unquote_plus v))
  end.

Fixpoint parse_fields (fs : list string) : sum string (list (string * string)) :=
  match fs with
  | [] => inr []
  | nv :: fs' =>
      match parse_field nv with
      | inl err => inl err
      | inr o =>
          match parse_fields fs' with
          | inl err => inl err
          | inr r => inr (match o with Some p => p :: r | None => r end)
          end
      end
  end.

Definition parse_qsl (qs : string) : sum string (list (string * string)) :=
  if String.eqb qs "" then inr [] else parse_fields (split_char amp qs).

(** ** Python dictionaries of strings, in insertion order *)

Definition dict := list (string * string).

Fixpoint dict_get (d : dict) (k : string) : option string :=
  match d with
  | [] => None
  | (k', v) :: d' => if String.eqb k k' then Some v else dict_get d' k
  end.

(** [d[k] = v]: an existing key keeps its place. *)
Fixpoint dict_set (k v : string) (d : dict) : dict :=
  match d with
  | [] => [(k, v)]
  | (k', v') :: d' => if String.eqb k k' then (k, v) :: d' else (k', v') :: dict_set k v d'
  end.

Fixpoint dict_del (k : string) (d : dict) : dict :=
  match d with
  | [] => []
  | (k', v') :: d' => if String.eqb k k' then d' else (k', v') :: dict_del k d'
  end.

(** [dict(pairs)]: the last value of a key wins. *)
Definition dict_of_pairs (ps : list (string * string)) : dict :=
  fold_left (fun d '(k, v) => dict_set k v d) ps [].

(** ** The check string *)

Fixpoint insert_key (k : string) (l : list string) : list string :=
  match l with
  | [] => [k]
  | k' :: l' => if String.leb k k' then k :: l else k' :: insert_key k l'
  end.

(** [sorted(keys)] *)
Fixpoint sort_keys (l : list string) : list string :=
  match l with
  | [] => []
  | k :: l' => insert_key k (sort_keys l')
  end.

(** ["\n".join(f"{k}={parsed[k]}" for k in sorted(parsed.keys()))] *)
Definition data_check_string (d : dict) : string :=
  String.concat (String newline EmptyString)
    (map (fun k => k ++ "=" ++ default "" (dict_get d k)) (sort_keys (map fst d))).

(** ** [verify_init_data] *)

Inductive verdict :=
  | Verified (fields : list (string * pyval))
  | AuthError (reason : string).

(** [if 'user' in parsed: try: parsed['user'] = json.loads(...) except: pass] *)
Definition decode_user `{JsonDecoder} (d : dict) : list (string * pyval) :=
  map (fun '(k, v) =>
         if String.eqb k "user" then
           (k, match json_loads v with Some j => PyJson j | None => PyStr v end)
         else (k, PyStr v)) d.

Definition verify_init_data `{Crypto} `{JsonDecoder} (init_data bot_token : string) : verdict :=
  match parse_qsl init_data with
  | inl err => AuthError err
  | inr pairs =>
      let parsed := dict_of_pairs pairs in
      match dict_get parsed "hash" with
      | None => AuthError "Missing hash"
      | Some check_hash =>
          let parsed := dict_del "hash" parsed in
          let secret_key := sha256_digest bot_token in
          let calculated := hmac_sha256_hexdigest secret_key (data_check_string parsed) in
          if String.eqb calculated check_hash then Verified (decode_user parsed)
          else AuthError "Invalid hash"
      end
  end.

(** ** The identity a handler reads from a verified session

    [user = parsed.get("user", {}); uid = int(user.get("id"))]: a
    missing [user], a [user] kept as a string, a JSON value that is not
    an object and an [id] that [int] refuses all raise, which FastAPI
    turns into a 500. *)

Fixpoint lookup_field (fs : list (string * pyval)) (k : string) : option pyval :=
  match fs with
  | [] => None
  | (k', v) :: fs' => if String.eqb k k' then Some v else lookup_field fs' k
  end.

Definition session_user (fs : list (string * pyval)) : option user_json :=
  match lookup_field fs "user" with
  | Some (PyJson (JObject u)) => Some u
  | Some _ => None
  | None => Some {| uj_id := None; uj_username := None; uj_first_name := None |}
  end.

(** ** A client of the scheme: [urlencode] with [quote_plus]

    Not code of this repository: the encoding a WebApp client uses to
    send [init_data], needed to state the round trip. *)

Definition hex_digit (n : N) : ascii :=
  ascii_of_N (if (n <? 10)%N then 48 + n else 55 + n)%N.

Definition always_safe (c : ascii) : bool :=
  let n := N_of_ascii c in
  ((48 <=? n) && (n <=? 57) || (65 <=? n) && (n <=? 90) || (97 <=? n) && (n <=? 122)
   || (n =? 95) || (n =? 46) || (n =? 45) || (n =? 126))%N.

Definition quote_char (c : ascii) : string :=
  if always_safe c then String c EmptyString
  else if Ascii.eqb c " " then "+"
  else String pct (String (hex_digit (N_of_ascii c / 16)) (String (hex_digit (N_of_ascii c mod 16)) EmptyString)).

Fixpoint quote_plus (s : string) : string :=
  match s with
  | EmptyString => EmptyString
  | String c s' => quote_char c ++ quote_plus s'
  end.

Definition urlencode (ps : list (string * string)) : string :=
  String.concat "&" (map (fun '(k, v) => quote_plus k ++ "=" ++ quote_plus v) ps).

(** The token a holder of [bot_token] issues for the fields [d]. *)
Definition sign `{Crypto} (bot_token : string) (d : dict) : string :=
  urlencode (app d [("hash", hmac_sha256_hexdigest (sha256_digest bot_token) (data_check_string d))]).

(** The fields of a token a WebApp client sends: distinct keys, no
    blank value (a blank value is dropped by [parse_qsl]) and no field
    named [hash]. *)
Definition well_formed (d : dict) : Prop :=
  NoDup (map fst d) /\ ("hash" ∉ map fst d) /\ Forall (fun kv => snd kv <> "") d.

(** A concrete instance of the interfaces, for the examples. *)
Definition toy_crypto : Crypto := {|
  sha256_digest := fun s => s;
  hmac_sha256_hexdigest := fun k m => String "h" (k ++ m);
  hmac_hexdigest_nonempty := fun k m => ltac:(discriminate)
|}.

Definition toy_json : JsonDecoder := {|
  json_loads := fun s =>
    if String.eqb s "ann7" then Some (JObject {| uj_id := Some 7%Z; uj_username := None;
                                                      uj_first_name := Some "ann" |})
    else None
|}.

(** Two field sets with one check string: the value of [auth_date] in
    the second holds a newline followed by [user=ann7]. *)
Definition collide_fields : dict := [("auth_date", "1"); ("user", "ann7")].
Definition collide_forged : dict := [("auth_date", "1" ++ String newline "user=ann7")].

(** A token's fields, and the same fields in another order. *)
Definition sample_fields : dict := [("auth_date", "1700000000"); ("user", "ann7")].
Definition sample_reordered : dict := [("user", "ann7"); ("auth_date", "1700000000")].

(** ** Lemmas on the parser *)

(** One character: decided over the 256 bytes. *)
Lemma unquote_quote_char c rest :
  unquote (str_replace_char "+" " " (quote_char c) ++ rest) = String c (unquote rest).
Proof. destruct c as [[] [] [] [] [] [] [] []]; reflexivity. Qed.

Lemma quote_char_no_amp c : has_char amp (quote_char c) = false.
Proof. destruct c as [[] [] [] [] [] [] [] []]; reflexivity. Qed.

Lemma quote_char_no_eq c : has_char eq_sign (quote_char c) = false.
Proof. destruct c as [[] [] [] [] [] [] [] []]; reflexivity. Qed.

Lemma quote_char_nonempty c : quote_char c <> "".
Proof. destruct c as [[] [] [] [] [] [] [] []]; discriminate. Qed.

(** Percent decoding undoes [quote_plus]. *)
Lemma unquote_plus_quote_plus s : unquote_plus (quote_plus s) = s.
Proof.
  unfold unquote_plus. induction s as [|c s IH]; [done|]. simpl.
  by rewrite str_replace_char_app, unquote_quote_char, IH.
Qed.

Lemma quote_plus_no_char c s :
  has_char c (quote_char "&") = false -> (forall x, has_char c (quote_char x) = false) ->
  has_char c (quote_plus s) = false.
Proof. intros _ H. induction s as [|x s IH]; [done|]. simpl. by rewrite has_char_app, H, IH. Qed.

Lemma quote_plus_empty s : quote_plus s = "" -> s = "".
Proof.
  destruct s as [|c s]; [done|]. simpl. intros [Hc _]%string_app_eq_empty.
  by destruct (quote_char_nonempty c).
Qed.

Lemma split_char_no_sep sep w : has_char sep w = false -> split_char sep w = [w].
Proof.
  induction w as [|x w IH]; [done|]. simpl. intros [Hx Hw]%orb_false_iff.
  by rewrite Hx, IH.
Qed.

Lemma split_char_app sep w rest :
  has_char sep w = false -> split_char sep (w ++ String sep rest) = w :: split_char sep rest.
Proof.
  induction w as [|x w IH]; simpl.
  - by rewrite Ascii.eqb_refl.
  - intros [Hx Hw]%orb_false_iff. by rewrite Hx, IH.
Qed.

(** Splitting a joined list gives the list back. *)
Lemma split_char_concat sep ws :
  ws <> [] -> Forall (fun w => has_char sep w = false) ws ->
  split_char sep (String.concat (String sep EmptyString) ws) = ws.
Proof.
  induction ws as [|w [|w' ws] IH]; [done| |]; intros _ Hall; inversion Hall; subst.
  - by apply split_char_no_sep.
  - change (String.concat (String sep "") (w :: w' :: ws))
      with (w ++ String sep (String.concat (String sep "") (w' :: ws)))%string.
    rewrite split_char_app by done. f_equal. by apply IH.
Qed.

Lemma split_once_app sep a b :
  has_char sep a = false -> split_once sep (a ++ String sep b) = Some (a, b).
Proof.
  induction a as [|x a IH]; simpl.
  - by rewrite Ascii.eqb_refl.
  - intros [Hx Ha]%orb_false_iff. by rewrite Hx, IH.
Qed.

Lemma parse_field_encoded k v :
  v <> "" -> parse_field (quote_plus k ++ "=" ++ quote_plus v) = inr (Some (k, v)).
Proof.
  intros Hv. unfold parse_field, eq_sign.
  rewrite string_app_cons, string_app_nil_l, split_once_app by (apply quote_plus_no_char; [done|apply quote_char_no_eq]).
  destruct (String.eqb_spec (quote_plus v) "") as [E|_].
  - by apply quote_plus_empty in E.
  - by rewrite !unquote_plus_quote_plus.
Qed.

(** [parse_qsl] inverts [urlencode] when no value is blank. *)
Lemma parse_qsl_urlencode (ps : list (string * string)) :
  Forall (fun kv => snd kv <> "") ps -> parse_qsl (urlencode ps) = inr ps.
Proof.
  intros Hps. destruct ps as [|[k v] ps']; [done|].
  unfold parse_qsl, urlencode.
  set (enc := fun '(k0, v0) => (quote_plus k0 ++ "=" ++ quote_plus v0)%string).
  assert (Hne : String.eqb (String.concat "&" (map enc ((k, v) :: ps'))) "" = false).
  { apply String.eqb_neq. destruct ps' as [|p ps'']; simpl;
      [|rewrite string_app_assoc]; intros [_ H]%string_app_eq_empty;
      [|apply string_app_eq_empty in H as [H _]]; discriminate. }
  rewrite Hne. change "&" with (String amp EmptyString).
  rewrite split_char_concat.
  - clear Hne. induction Hps as [|[k0 v0] ps0 Hv Hps IH]; [done|].
    simpl. rewrite parse_field_encoded by done. by rewrite IH.
  - done.
  - apply Forall_map, Forall_forall. intros [k0 v0] _. simpl.
    rewrite !has_char_app. simpl.
    by rewrite !(quote_plus_no_char amp) by (done || apply quote_char_no_amp).
Qed.

(** ** Lemmas on dictionaries *)

Lemma dict_get_set k v d k' :
  dict_get (dict_set k v d) k' = if String.eqb k' k then Some v else dict_get d k'.
Proof.
  induction d as [|[k0 v0] d IH]; simpl; [done|].
  destruct (String.eqb_spec k k0) as [->|Hne]; simpl.
  - by destruct (String.eqb k' k0).
  - rewrite IH. destruct (String.eqb_spec k' k0), (String.eqb_spec k' k); congruence.
Qed.

Lemma dict_get_snoc d k v k' :
  dict_get (app d [(k, v)]) k' =
  match dict_get d k' with Some w => Some w | None => if String.eqb k' k then Some v else None end.
Proof.
  induction d as [|[k0 v0] d IH]; simpl; [done|]. by destruct (String.eqb k' k0).
Qed.

(** [dict(pairs)] keeps the last value given for a key. *)
Lemma dict_get_of_pairs ps k : dict_get (dict_of_pairs ps) k = dict_get (rev ps) k.
Proof.
  unfold dict_of_pairs.
  enough (H : forall d, dict_get (fold_left (fun d '(k0, v0) => dict_set k0 v0 d) ps d) k =
            match dict_get (rev ps) k with Some w => Some w | None => dict_get d k end)
    by (rewrite H; by destruct (dict_get (rev ps) k)).
  induction ps as [|[k0 v0] ps IH]; intros d; simpl; [done|].
  rewrite IH, dict_get_set, dict_get_snoc.
  destruct (dict_get (rev ps) k); [done|]. by destruct (String.eqb k k0).
Qed.

Lemma dict_get_notin d k : k ∉ map fst d -> dict_get d k = None.
Proof.
  induction d as [|[k0 v0] d IH]; simpl; [done|]. intros [Hk0 Hk]%not_elem_of_cons.
  destruct (String.eqb_spec k k0); [congruence|]. auto.
Qed.

Lemma dict_set_notin k v d : k ∉ map fst d -> dict_set k v d = app d [(k, v)].
Proof.
  induction d as [|[k0 v0] d IH]; simpl; [done|]. intros [Hk0 Hk]%not_elem_of_cons.
  destruct (String.eqb_spec k k0); [congruence|]. by rewrite IH.
Qed.

Lemma dict_del_snoc d k v : k ∉ map fst d -> dict_del k (app d [(k, v)]) = d.
Proof.
  induction d as [|[k0 v0] d IH]; simpl.
  - by rewrite String.eqb_refl.
  - intros [Hk0 Hk]%not_elem_of_cons.
    destruct (String.eqb_spec k k0); [congruence|]. by rewrite IH.
Qed.

Lemma NoDup_snoc {A} (l : list A) x : NoDup l -> x ∉ l -> NoDup (app l [x]).
Proof.
  intros Hl Hx. apply NoDup_app. split_and!; [done| |apply NoDup_singleton].
  by intros y Hy ->%list_elem_of_singleton.
Qed.

(** Distinct keys: [dict(pairs)] is the list of pairs itself. *)
Lemma dict_of_pairs_nodup ps : NoDup (map fst ps) -> dict_of_pairs ps = ps.
Proof.
  unfold dict_of_pairs.
  enough (H : forall d, NoDup (map fst (app d ps)) ->
            fold_left (fun d '(k0, v0) => dict_set k0 v0 d) ps d = app d ps) by apply (H []).
  induction ps as [|[k v] ps IH]; intros d Hnd; simpl; [by rewrite app_nil_r|].
  rewrite dict_set_notin.
  - rewrite IH, <- app_assoc; [done|]. by rewrite <- app_assoc.
  - rewrite map_app in Hnd. apply NoDup_app in Hnd as (_ & Hd & _).
    intros Hk. apply (Hd k Hk). simpl. apply elem_of_cons; by left.
Qed.

Lemma In_key {B} (d : list (string * B)) k v : (k, v) ∈ d -> k ∈ map fst d.
Proof. rewrite !list_elem_of_In. intros H. by apply (in_map fst) in H. Qed.

Lemma dict_get_In d k v : NoDup (map fst d) -> dict_get d k = Some v <-> (k, v) ∈ d.
Proof.
  induction d as [|[k0 v0] d IH]; simpl; [set_solver|]. intros [Hk0 Hnd]%NoDup_cons.
  rewrite elem_of_cons.
  destruct (String.eqb_spec k k0) as [->|Hne].
  - split; [intros [= ->]; by left|].
    intros [[= ->]|Hin]; [done|]. by destruct Hk0; apply (In_key _ _ v).
  - rewrite IH by done. split; [by right|]. intros [[= ??]|?]; [congruence|done].
Qed.

(** ** Lemmas on the check string *)

Lemma insert_key_perm k l : insert_key k l ≡ₚ k :: l.
Proof.
  induction l as [|k' l IH]; simpl; [done|].
  destruct (String.leb k k'); [done|]. rewrite IH. apply perm_swap.
Qed.

Lemma sort_keys_perm l : sort_keys l ≡ₚ l.
Proof. induction l as [|k l IH]; simpl; [done|]. by rewrite insert_key_perm, IH. Qed.

Lemma insert_key_sorted k l :
  StronglySorted String.le l -> StronglySorted String.le (insert_key k l).
Proof.
  induction l as [|k' l IH]; simpl; intros Hs; [by repeat constructor|].
  inversion Hs as [|? ? Hl Hk']; subst.
  destruct (String.leb k k') eqn:E.
  - constructor; [done|]. constructor; [by apply Is_true_true|].
    eapply Forall_impl; [done|]. intros x Hx. etrans; [|done]. by apply Is_true_true.
  - constructor; [by apply IH|].
    apply Forall_forall. intros x Hx. rewrite insert_key_perm in Hx.
    apply elem_of_cons in Hx as [->|Hx].
    + destruct (total String.le k k') as [Hle|]; [|done].
      apply Is_true_true in Hle. congruence.
    + by eapply Forall_forall in Hk'.
Qed.

Lemma sort_keys_sorted l : StronglySorted String.le (sort_keys l).
Proof. induction l; simpl; [constructor|by apply insert_key_sorted]. Qed.

(** Sorting makes the order of the keys irrelevant. *)
Lemma sort_keys_perm_eq l1 l2 : l1 ≡ₚ l2 -> sort_keys l1 = sort_keys l2.
Proof.
  intros Hp. apply (StronglySorted_unique String.le); [apply sort_keys_sorted..|].
  by rewrite !sort_keys_perm.
Qed.

Lemma dict_get_perm d1 d2 k : NoDup (map fst d1) -> d1 ≡ₚ d2 -> dict_get d1 k = dict_get d2 k.
Proof.
  intros Hnd Hp.
  assert (Hnd2 : NoDup (map fst d2)) by (by rewrite <- (Permutation_map fst Hp)).
  apply option_eq. intros v. rewrite !dict_get_In by done.
  split; intros; [by rewrite <- Hp|by rewrite Hp].
Qed.

Lemma well_formed_perm d1 d2 : well_formed d1 -> d1 ≡ₚ d2 -> well_formed d2.
Proof.
  intros (Hnd & Hh & Hv) Hp. pose proof (Permutation_map fst Hp) as Hpk.
  split_and!; [by rewrite <- Hpk|by rewrite <- Hpk|by rewrite <- Hp].
Qed.

(** ** Theorems *)

Section Verify.
Context `{Crypto} `{JsonDecoder}.

(** A token carrying well-formed fields and a non-blank [hash]: the
    verdict is decided by comparing that hash with the HMAC of the
    fields' check string. *)
Lemma verify_encoded token d h :
  well_formed d -> h <> "" ->
  verify_init_data (urlencode (app d [("hash", h)])) token =
  if String.eqb (hmac_sha256_hexdigest (sha256_digest token) (data_check_string d)) h
  then Verified (decode_user d) else AuthError "Invalid hash".
Proof.
  intros (Hnd & Hh & Hv) Hne. unfold verify_init_data.
  rewrite parse_qsl_urlencode by (apply Forall_app; split; [done|by constructor]).
  rewrite dict_of_pairs_nodup by (rewrite map_app; by apply NoDup_snoc).
  rewrite dict_get_snoc, (dict_get_notin d "hash"), String.eqb_refl by done.
  by rewrite dict_del_snoc.
Qed.

(** The check string depends on the fields only, not on the order in
    which the token lists them. *)
Lemma data_check_string_perm d1 d2 :
  NoDup (map fst d1) -> d1 ≡ₚ d2 -> data_check_string d1 = data_check_string d2.
Proof.
  intros Hnd Hp. unfold data_check_string.
  rewrite (sort_keys_perm_eq (map fst d1) (map fst d2)) by (by apply Permutation_map).
  f_equal. apply List.map_ext. intros k. by rewrite (dict_get_perm d1 d2 k).
Qed.

(** C6: A token that the holder of the bot token signs for
    well-formed fields verifies, and [verify_init_data] returns exactly
    those fields, the [user] field decoded. *)
Theorem verify_init_data_sign token d :
  well_formed d -> verify_init_data (sign token d) token = Verified (decode_user d).
Proof.
  intros Hd. unfold sign.
  rewrite verify_encoded by (done || apply hmac_hexdigest_nonempty).
  by rewrite String.eqb_refl.
Qed.

(** C22: The signature of a set of fields still verifies when a client
    sends the same fields in another order. *)
Theorem verify_init_data_reordered token d1 d2 :
  well_formed d1 -> d1 ≡ₚ d2 ->
  verify_init_data
    (urlencode (app d2 [("hash", hmac_sha256_hexdigest (sha256_digest token) (data_check_string d1))]))
    token = Verified (decode_user d2).
Proof.
  intros Hd1 Hp. pose proof (well_formed_perm d1 d2 Hd1 Hp) as Hd2.
  rewrite verify_encoded by (done || apply hmac_hexdigest_nonempty).
  rewrite (data_check_string_perm d1 d2) by (by destruct Hd1 as [? _]).
  by rewrite String.eqb_refl.
Qed.

(** C21: A query string without a [hash] field is refused with
    [ValueError("Missing hash")]. *)
Theorem verify_init_data_missing_hash s token pairs :
  parse_qsl s = inr pairs -> "hash" ∉ map fst pairs ->
  verify_init_data s token = AuthError "Missing hash".
Proof.
  intros Hp Hh. unfold verify_init_data.
  rewrite Hp, dict_get_of_pairs, dict_get_notin; [done|].
  rewrite map_rev. intros Hin. apply Hh.
  apply list_elem_of_In in Hin. apply list_elem_of_In. by apply in_rev.
Qed.

(** C7: A token whose hash is not the HMAC of its fields' check string
    is refused with [ValueError("Invalid hash")]. *)
Theorem verify_init_data_wrong_hash token d h :
  well_formed d -> h <> "" ->
  h <> hmac_sha256_hexdigest (sha256_digest token) (data_check_string d) ->
  verify_init_data (urlencode (app d [("hash", h)])) token = AuthError "Invalid hash".
Proof.
  intros Hd Hne Hwrong. rewrite verify_encoded by done.
  destruct (String.eqb_spec (hmac_sha256_hexdigest (sha256_digest token) (data_check_string d)) h);
    congruence.
Qed.

(** C23: The check string does not separate fields unambiguously: the
    signature of [collide_fields] authenticates the different field
    set [collide_forged], whatever the hash functions. *)
Theorem check_string_collision token :
  collide_fields <> collide_forged /\
  verify_init_data
    (urlencode (app collide_forged
       [("hash", hmac_sha256_hexdigest (sha256_digest token) (data_check_string collide_fields))]))
    token = Verified (decode_user collide_forged).
Proof.
  split; [discriminate|].
  rewrite verify_encoded by (apply hmac_hexdigest_nonempty ||
                             (split_and!; [decide_prop|decide_prop|repeat constructor; discriminate])).
  change (data_check_string collide_fields) with (data_check_string collide_forged).
  by rewrite String.eqb_refl.
Qed.
End Verify.

(** ** Witnesses *)

Lemma sample_fields_well_formed : well_formed sample_fields.
Proof. split_and!; [decide_prop|decide_prop|repeat constructor; discriminate]. Qed.

Lemma verify_init_data_sign_witness :
  @verify_init_data toy_crypto toy_json (@sign toy_crypto "tok" sample_fields) "tok"
  = Verified [("auth_date", PyStr "1700000000");
              ("user", PyJson (JObject {| uj_id := Some 7%Z; uj_username := None;
                                          uj_first_name := Some "ann" |}))].
Proof. exact (@verify_init_data_sign toy_crypto toy_json "tok" sample_fields sample_fields_well_formed). Defined.

Lemma sample_reordered_perm : sample_fields ≡ₚ sample_reordered.
Proof. constructor. Qed.

Lemma verify_init_data_reordered_witness :
  @verify_init_data toy_crypto toy_json
    (urlencode (app sample_reordered
       [("hash", @hmac_sha256_hexdigest toy_crypto (@sha256_digest toy_crypto "tok")
                   (data_check_string sample_fields))])) "tok"
  = @Verified (@decode_user toy_json sample_reordered).
Proof.
  exact (@verify_init_data_reordered toy_crypto toy_json "tok" _ _
           sample_fields_well_formed sample_reordered_perm).
Defined.

Lemma verify_init_data_missing_hash_witness :
  parse_qsl "a=1&b=2" = inr [("a", "1"); ("b", "2")] /\
  @verify_init_data toy_crypto toy_json "a=1&b=2" "tok" = AuthError "Missing hash".
Proof.
  assert (Hp : parse_qsl "a=1&b=2" = inr [("a", "1"); ("b", "2")]) by reflexivity.
  split; [exact Hp|].
  apply (@verify_init_data_missing_hash toy_crypto toy_json _ _ _ Hp). decide_prop.
Defined.

Lemma verify_init_data_wrong_hash_witness :
  @verify_init_data toy_crypto toy_json (urlencode (app sample_fields [("hash", "bad")])) "tok"
  = AuthError "Invalid hash".
Proof.
  apply (@verify_init_data_wrong_hash toy_crypto toy_json "tok" sample_fields "bad");
    [exact sample_fields_well_formed|discriminate|discriminate].
Defined.

End Session.

