(* ===== verification/Clock.v ===== *)
(** * Clock: UTC time and the two timestamp formats the database stores

    [datetime.datetime.utcnow()] is an instant counted in microseconds
    since 1970-01-01T00:00:00 (the naive UTC datetime of the code).  The
    database stores two strings built from it:
    - [users.last_daily]: [utcnow().date().isoformat()], ["YYYY-MM-DD"]
      (main.py line 434);
    - [users.boost_until]: [(utcnow() + timedelta(hours=2)).isoformat() + "Z"],
      ["YYYY-MM-DDTHH:MM:SS"] followed by [".ffffff"] when the
      microseconds are not zero (line 227),
    and reads the second back with
    [datetime.fromisoformat(boost_until.replace("Z", ""))] (lines 196,
    317, 499).  The calendar is the proleptic Gregorian one of Python's
    [datetime], computed by 400-year cycles; [fromisoformat] is modelled
    on the strings ["YYYY-MM-DD"] followed by ["THH:MM:SS"] and an
    optional six-digit fraction, the only form the handlers write; any
    other string is [None], the [except] branch of the code. *)

From S2P Require Import Prelude.

Module Clock.

Local Open Scope Z_scope.

Definition us_per_second : Z := 1000000.
Definition us_per_minute : Z := 60 * us_per_second.
Definition us_per_hour : Z := 60 * us_per_minute.
Definition us_per_day : Z := 24 * us_per_hour.

(** [timedelta(hours=2)] *)
Definition two_hours : Z := 2 * us_per_hour.

(** 2023-11-14T22:13:20, for the examples. *)
Definition sample_instant : Z := 1700000000000000.

(** ** The calendar *)

Definition is_leap (y : Z) : bool :=
  (y mod 4 =? 0) && (negb (y mod 100 =? 0) || (y mod 400 =? 0)).

Definition days_in_month (y m : Z) : Z :=
  if m =? 2 then (if is_leap y then 29 else 28)
  else if (m =? 4) || (m =? 6) || (m =? 9) || (m =? 11) then 30
  else 31.

(** A day of a 400-year cycle that starts on a March 1st, as
    (year of the cycle, month counted from March, day of the month). *)
Definition cycle_civil (doe : Z) : Z * Z * Z :=
  let yoe := (doe - doe / 1460 + doe / 36524 - doe / 146096) / 365 in
  let doy := doe - (365 * yoe + yoe / 4 - yoe / 100) in
  let mp := (5 * doy + 2) / 153 in
  (yoe, mp, doy - (153 * mp + 2) / 5 + 1).

Definition cycle_days (yoe mp d : Z) : Z :=
  365 * yoe + yoe / 4 - yoe / 100 + (153 * mp + 2) / 5 + d - 1.

Definition month_of_mp (mp : Z) : Z := if mp <? 10 then mp + 3 else mp - 9.
Definition mp_of_month (m : Z) : Z := if 2 <? m then m - 3 else m + 9.

(** Days since 1970-01-01 to (year, month, day). *)
Definition civil_from_days (days : Z) : Z * Z * Z :=
  let z := days + 719468 in
  let era := z / 146097 in
  let '(yoe, mp, d) := cycle_civil (z mod 146097) in
  let m := month_of_mp mp in
  (yoe + era * 400 + (if m <=? 2 then 1 else 0), m, d).

(** (year, month, day) to days since 1970-01-01 ([date.toordinal]
    shifted to the epoch). *)
Definition days_from_civil (y m d : Z) : Z :=
  let y' := if m <=? 2 then y - 1 else y in
  let era := y' / 400 in
  era * 146097 + cycle_days (y' - era * 400) (mp_of_month m) d - 719468.

(** ** Formatting *)

Definition digit_char (k : Z) : ascii := ascii_of_N (48 + Z.to_N k).

(** [%0nd]: the [n] low decimal digits of [k], most significant first. *)
Fixpoint pad (n : nat) (k : Z) : string :=
  match n with
  | O => EmptyString
  | S n' => String (digit_char (k / 10 ^ Z.of_nat n')) (pad n' (k mod 10 ^ Z.of_nat n'))
  end.

Definition day_of (t : Z) : Z := t / us_per_day.

(** [date.isoformat()] of the day holding the instant [t]. *)
Definition isoformat_date (t : Z) : string :=
  let '(y, m, d) := civil_from_days (day_of t) in
  (pad 4 y ++ "-" ++ pad 2 m ++ "-" ++ pad 2 d)%string.

(** [time.isoformat()] of a time of day in microseconds: the fraction
    is written only when it is not zero. *)
Definition isoformat_time (tod : Z) : string :=
  let us := tod mod us_per_second in
  (pad 2 (tod / us_per_hour) ++ ":" ++ pad 2 (tod / us_per_minute mod 60) ++ ":"
    ++ pad 2 (tod / us_per_second mod 60)
    ++ (if (us =? 0)%Z then "" else "." ++ pad 6 us))%string.

(** [datetime.isoformat()] *)
Definition isoformat (t : Z) : string :=
  (isoformat_date t ++ "T" ++ isoformat_time (t mod us_per_day))%string.

(** ** Parsing *)

Definition digit_val (c : ascii) : option Z :=
  let n := N_of_ascii c in
  if (48 <=? n)%N && (n <=? 57)%N then Some (Z.of_N n - 48) else None.

(** [n] decimal digits, read after the value [acc]. *)
Fixpoint parse_digits (n : nat) (acc : Z) (s : string) : option (Z * string) :=
  match n with
  | O => Some (acc, s)
  | S n' =>
      match s with
      | String c s' =>
          match digit_val c with
          | Some v => parse_digits n' (10 * acc + v) s'
          | None => None
          end
      | EmptyString => None
      end
  end.

Definition expect (c : ascii) (s : string) : option string :=
  match s with
  | String c' s' => if Ascii.eqb c' c then Some s' else None
  | EmptyString => None
  end.

(** [date.fromisoformat] on the prefix ["YYYY-MM-DD"]: the day number
    and the rest; [ValueError] on a year 0 or a day that does not exist. *)
Definition parse_date (s : string) : option (Z * string) :=
  '(y, s) ← parse_digits 4 0 s;
  s ← expect "-" s;
  '(m, s) ← parse_digits 2 0 s;
  s ← expect "-" s;
  '(d, s) ← parse_digits 2 0 s;
  if (1 <=? y) && (1 <=? m) && (m <=? 12) && (1 <=? d) && (d <=? days_in_month y m)
  then Some (days_from_civil y m d, s) else None.

(** The time of day ["HH:MM:SS"] and an optional [".ffffff"], in
    microseconds; the string must end there. *)
Definition parse_time (s : string) : option Z :=
  '(hh, s) ← parse_digits 2 0 s;
  s ← expect ":" s;
  '(mi, s) ← parse_digits 2 0 s;
  s ← expect ":" s;
  '(ss, s) ← parse_digits 2 0 s;
  us ← match s with
       | EmptyString => Some 0
       | String _ _ =>
           s ← expect "." s;
           '(f, s) ← parse_digits 6 0 s;
           match s with EmptyString => Some f | _ => None end
       end;
  if (hh <? 24) && (mi <? 60) && (ss <? 60)
  then Some (hh * us_per_hour + mi * us_per_minute + ss * us_per_second + us) else None.

(** [datetime.fromisoformat]; [None] when it raises [ValueError]. *)
Definition fromisoformat (s : string) : option Z :=
  '(day, s) ← parse_date s;
  s ← expect "T" s;
  tod ← parse_time s;
  Some (day * us_per_day + tod).

(** The year of an instant. *)
Definition year_of (t : Z) : Z := let '(y, _, _) := civil_from_days (day_of t) in y.

(** The instants a [datetime] can hold: [MINYEAR] 1 to [MAXYEAR] 9999
    (outside, [timedelta] arithmetic raises [OverflowError]). *)
Definition in_range (t : Z) : Prop := 1 <= year_of t <= 9999.

Definition in_rangeb (t : Z) : bool := (1 <=? year_of t) && (year_of t <=? 9999).

(** The facts checked for each day of a 400-year cycle. *)
Definition cycle_ok (doe : Z) : bool :=
  let '(yoe, mp, d) := cycle_civil doe in
  let m := month_of_mp mp in
  let y := yoe + (if m <=? 2 then 1 else 0) in
  (0 <=? yoe) && (yoe <? 400) && (0 <=? mp) && (mp <? 12)
  && (cycle_days yoe mp d =? doe)
  && (1 <=? d) && (d <=? days_in_month y m).

(** [f k && f (k + 1) && ... ] for [fuel] values. *)
Fixpoint all_from (f : Z -> bool) (fuel : nat) (k : Z) : bool :=
  match fuel with
  | O => true
  | S fuel' => f k && all_from f fuel' (k + 1)
  end.

(** ** The calendar *)

Lemma all_from_spec f n k :
  all_from f (Z.to_nat n) k = true -> forall j, k <= j < k + n -> f j = true.
Proof.
  intros H j Hj. assert (Hn : n = Z.of_nat (Z.to_nat n)) by lia.
  rewrite Hn in Hj. clear Hn. revert k H Hj. induction (Z.to_nat n) as [|fuel IH];
    intros k H Hj; simpl in *; [lia|].
  apply andb_true_iff in H as [Hk Hrest].
  destruct (Z.eq_dec j k) as [->|Hne]; [done|]. apply (IH (k + 1)); [done|lia].
Qed.

(** Every day of a 400-year cycle, checked by evaluation. *)
Lemma cycle_all doe : 0 <= doe < 146097 -> cycle_ok doe = true.
Proof.
  intros H. apply (all_from_spec cycle_ok 146097 0); [|lia].
  vm_compute. reflexivity.
Qed.

Lemma is_leap_400 y k : is_leap (y + k * 400) = is_leap y.
Proof.
  unfold is_leap.
  replace (y + k * 400) with (y + (100 * k) * 4) at 1 by ring. rewrite Z_mod_plus_full.
  replace (y + k * 400) with (y + (4 * k) * 100) at 1 by ring. rewrite Z_mod_plus_full.
  by rewrite Z_mod_plus_full.
Qed.

Lemma days_in_month_400 y k m : days_in_month (y + k * 400) m = days_in_month y m.
Proof. unfold days_in_month. by rewrite is_leap_400. Qed.

Lemma days_in_month_le y m : days_in_month y m <= 31.
Proof. unfold days_in_month. repeat case_if; lia. Qed.

(** [civil_from_days] gives a valid date, and [days_from_civil] takes
    it back. *)
Lemma civil_from_days_spec days y m d :
  civil_from_days days = (y, m, d) ->
  days_from_civil y m d = days /\ 1 <= m <= 12 /\ 1 <= d <= days_in_month y m.
Proof.
  unfold civil_from_days.
  pose proof (Z.mod_pos_bound (days + 719468) 146097 ltac:(lia)) as Hb.
  pose proof (Z.div_mod (days + 719468) 146097 ltac:(lia)) as Hdm.
  pose proof (cycle_all _ Hb) as Hc. unfold cycle_ok in Hc.
  set (era := (days + 719468) / 146097) in *.
  set (doe := (days + 719468) mod 146097) in *.
  destruct (cycle_civil doe) as [[yoe mp] dd]. intros [= <- <- <-]. zbool.
  unfold days_from_civil, month_of_mp, mp_of_month in *.
  destruct (Z.ltb_spec mp 10) as [Hmp|Hmp].
  - rewrite (proj2 (Z.leb_gt (mp + 3) 2)) in * by lia.
    rewrite (proj2 (Z.ltb_lt 2 (mp + 3))) by lia.
    replace ((yoe + era * 400 + 0) / 400) with era by (clearbody era doe; zlia).
    replace (yoe + era * 400 + 0 - era * 400) with yoe by lia.
    replace (mp + 3 - 3) with mp by lia.
    replace (yoe + era * 400 + 0) with ((yoe + 0) + era * 400) by lia.
    rewrite days_in_month_400. lia.
  - rewrite (proj2 (Z.leb_le (mp - 9) 2)) in * by lia.
    rewrite (proj2 (Z.ltb_ge 2 (mp - 9))) by lia.
    replace ((yoe + era * 400 + 1 - 1) / 400) with era by (clearbody era doe; zlia).
    replace (yoe + era * 400 + 1 - 1 - era * 400) with yoe by lia.
    replace (mp - 9 + 9) with mp by lia.
    replace (yoe + era * 400 + 1) with ((yoe + 1) + era * 400) by lia.
    rewrite days_in_month_400. lia.
Qed.

(** ** Digits *)

Lemma digit_val_char q : 0 <= q <= 9 -> digit_val (digit_char q) = Some q.
Proof.
  intros Hq. unfold digit_val, digit_char. rewrite N_ascii_embedding by lia.
  assert (Hn : ((48 <=? 48 + Z.to_N q)%N && (48 + Z.to_N q <=? 57)%N) = true)
    by (apply andb_true_iff; split; apply N.leb_le; lia).
  rewrite Hn. f_equal. lia.
Qed.

Lemma digit_char_not c q :
  (N_of_ascii c < 48 \/ 57 < N_of_ascii c)%N -> 0 <= q <= 9 -> Ascii.eqb (digit_char q) c = false.
Proof.
  intros Hc Hq. apply Ascii.eqb_neq. intros E. unfold digit_char in E.
  apply (f_equal N_of_ascii) in E. rewrite N_ascii_embedding in E by lia. lia.
Qed.

Lemma pow10_pos n : 0 < 10 ^ Z.of_nat n.
Proof. apply Z.pow_pos_nonneg; lia. Qed.

Lemma pad_digit_bound n k :
  0 <= k < 10 ^ Z.of_nat (S n) -> 0 <= k / 10 ^ Z.of_nat n <= 9.
Proof.
  rewrite Nat2Z.inj_succ, Z.pow_succ_r by lia. pose proof (pow10_pos n). intros Hk.
  split; [apply Z.div_pos; lia|]. apply Z.lt_succ_r, Z.div_lt_upper_bound; lia.
Qed.

(** Reading [n] digits back from [pad n k]. *)
Lemma parse_digits_pad n acc k rest :
  0 <= k < 10 ^ Z.of_nat n ->
  parse_digits n acc (pad n k ++ rest) = Some (acc * 10 ^ Z.of_nat n + k, rest).
Proof.
  revert acc k. induction n as [|n IH]; intros acc k Hk.
  - simpl in *. f_equal. f_equal. lia.
  - pose proof (pad_digit_bound n k Hk) as Hq. pose proof (pow10_pos n).
    simpl pad. rewrite string_app_cons. simpl parse_digits.
    rewrite digit_val_char, IH by (done || (apply Z.mod_pos_bound; lia)).
    rewrite Nat2Z.inj_succ, Z.pow_succ_r by lia.
    f_equal. f_equal. pose proof (Z.div_mod k (10 ^ Z.of_nat n) ltac:(lia)) as Hdm.
    set (p := 10 ^ Z.of_nat n) in *. set (q := k / p) in *. set (r := k mod p) in *.
    clearbody q r. rewrite Hdm. ring.
Qed.

Lemma has_char_pad c n k :
  (N_of_ascii c < 48 \/ 57 < N_of_ascii c)%N -> 0 <= k < 10 ^ Z.of_nat n ->
  has_char c (pad n k) = false.
Proof.
  intros Hc. revert k. induction n as [|n IH]; intros k Hk; [done|].
  pose proof (pad_digit_bound n k Hk). pose proof (pow10_pos n). simpl.
  rewrite digit_char_not, IH by (done || (apply Z.mod_pos_bound; lia)). done.
Qed.

Lemma parse_digits_pad_end n acc k :
  0 <= k < 10 ^ Z.of_nat n -> parse_digits n acc (pad n k) = Some (acc * 10 ^ Z.of_nat n + k, "").
Proof. intros Hk. rewrite <- (string_app_nil_r (pad n k)). by apply parse_digits_pad. Qed.

(** ** Round trips *)

(** From here on a padded number is read with [parse_digits_pad], not
    by unfolding. *)
Arguments pad : simpl never.
Arguments parse_digits : simpl never.

(** One step of reading a formatted string: a padded number or a
    separator character. *)
Ltac parse_step :=
  first [ rewrite parse_digits_pad by (cbn; zlia)
        | rewrite parse_digits_pad_end by (cbn; zlia)
        | rewrite string_app_cons
        | rewrite string_app_nil_l ]; simpl.

Lemma parse_date_isoformat_date t rest :
  in_range t -> parse_date (isoformat_date t ++ rest) = Some (day_of t, rest).
Proof.
  unfold in_range, year_of, isoformat_date.
  destruct (civil_from_days (day_of t)) as [[y m] d] eqn:E.
  apply civil_from_days_spec in E as (Hdays & Hm & Hd). intros Hy.
  pose proof (days_in_month_le y m).
  unfold parse_date. rewrite !string_app_assoc. repeat parse_step.
  rewrite !Z.mul_0_l, !Z.add_0_l, if_true by zbool_goal. by rewrite Hdays.
Qed.

Lemma parse_time_isoformat_time tod :
  0 <= tod < us_per_day -> parse_time (isoformat_time tod) = Some tod.
Proof.
  unfold parse_time, isoformat_time, us_per_day, us_per_hour, us_per_minute, us_per_second.
  intros Htod. rewrite ?string_app_assoc.
  destruct (Z.eqb_spec (tod mod 1000000) 0) as [H0|H0]; repeat parse_step.
  all: rewrite ?Z.mul_0_l, ?Z.add_0_l, if_true by zbool_goal; f_equal; zlia.
Qed.

Lemma fromisoformat_isoformat t : in_range t -> fromisoformat (isoformat t) = Some t.
Proof.
  intros Hr. unfold fromisoformat, isoformat.
  rewrite parse_date_isoformat_date by done. repeat parse_step.
  rewrite parse_time_isoformat_time by (apply Z.mod_pos_bound; reflexivity).
  simpl. f_equal. unfold day_of. zlia.
Qed.

Lemma has_char_isoformat t : in_range t -> has_char "Z" (isoformat t) = false.
Proof.
  unfold in_range, year_of, isoformat, isoformat_date, isoformat_time.
  pose proof (Z.mod_pos_bound t us_per_day ltac:(reflexivity)) as Ht.
  destruct (civil_from_days (day_of t)) as [[y m] d] eqn:E.
  apply civil_from_days_spec in E as (_ & Hm & Hd). intros Hy.
  pose proof (days_in_month_le y m).
  unfold us_per_day, us_per_hour, us_per_minute, us_per_second in *.
  rewrite !has_char_app, !has_char_pad by (done || (cbn; zlia)).
  case_if; [done|]. rewrite has_char_app, has_char_pad by (done || (cbn; zlia)). done.
Qed.

(** The expiry [ad_watched] stores, [isoformat() + "Z"], is read back by
    [fromisoformat(boost_until.replace("Z", ""))] as the same instant. *)
Lemma fromisoformat_boost_until t :
  in_range t -> fromisoformat (str_replace_char "Z" "" (isoformat t ++ "Z")) = Some t.
Proof.
  intros Hr. rewrite str_replace_char_app, str_replace_char_absent by (by apply has_char_isoformat).
  change (str_replace_char "Z" "" "Z") with "". rewrite string_app_nil_r.
  by apply fromisoformat_isoformat.
Qed.

(** Two instants of range have the same [date().isoformat()] exactly
    when they fall on the same UTC day. *)
Lemma isoformat_date_inj t t' :
  in_range t -> in_range t' -> isoformat_date t = isoformat_date t' -> day_of t = day_of t'.
Proof.
  intros Hr Hr' E. pose proof (parse_date_isoformat_date t "" Hr) as P.
  rewrite E, parse_date_isoformat_date in P by done. congruence.
Qed.

(** C29: Two instants of the range of [datetime] have the same
    [date().isoformat()] exactly when they fall on the same UTC day:
    comparing the stored [last_daily] text with today's is comparing
    days. *)
Theorem isoformat_date_eq t t' :
  in_range t -> in_range t' -> isoformat_date t = isoformat_date t' <-> day_of t = day_of t'.
Proof.
  intros Hr Hr'. split; [by apply isoformat_date_inj|]. unfold isoformat_date. by intros ->.
Qed.

Lemma in_rangeb_spec t : in_rangeb t = true <-> in_range t.
Proof. unfold in_rangeb, in_range. rewrite andb_true_iff, Z.leb_le, Z.leb_le. done. Qed.

Lemma isoformat_date_eq_witness :
  in_range sample_instant /\ in_range (sample_instant + 1) /\
  (isoformat_date sample_instant = isoformat_date (sample_instant + 1) <->
   day_of sample_instant = day_of (sample_instant + 1)).
Proof.
  assert (H1 : in_range sample_instant) by (apply in_rangeb_spec; vm_compute; reflexivity).
  assert (H2 : in_range (sample_instant + 1)) by (apply in_rangeb_spec; vm_compute; reflexivity).
  split_and!; [exact H1|exact H2|exact (isoformat_date_eq _ _ H1 H2)].
Defined.

End Clock.
