(* ===== verification/Store.v ===== *)
(** * Store: the database, the environment and the request prologue

    The five tables that [migrate] creates (src/main.py lines 55-98),
    the upload directory, the values a handler reads from its process
    ([BOT_TOKEN], [ADMIN_IDS], [CHANNEL_LINK], the channel-membership
    oracle [is_member_of_channel] of lines 124-137, the clock), and the
    prologue every WebApp handler runs: [verify_init_data], then
    [user = parsed.get("user", {}); uid = int(user.get("id"))].

    Tables are stdpp finite maps keyed by their [INTEGER PRIMARY KEY];
    the two [AUTOINCREMENT] tables keep the largest id handed out (the
    [sqlite_sequence] row) and give the next one.  A column the code
    reads through [COALESCE(col, 0)] and that no statement sets to
    [NULL] ([coins], [ads_watched], [ad_counter]) is a [Z]; nullable
    text columns are [option string]. *)

From S2P Require Import Prelude Session Clock.

Module Store.

Import Session Clock.

(** ** Rows *)

Inductive status := Pending | Approved | Rejected.

#[export] Instance status_eq_dec : EqDecision status.
Proof. solve_decision. Defined.

(** The text stored in [task_submissions.status]. *)
Definition status_text (s : status) : string :=
  match s with Pending => "pending" | Approved => "approved" | Rejected => "rejected" end.

Record user_row := {
  username : string;
  coins : Z;
  referrer_id : option Z;
  joined_at : option string;
  ads_watched : Z;
  ad_counter : Z;
  boost_until : option string;
  last_daily : option string
}.

Record task_row := {
  title : string;
  description : string;
  link : string;
  reward : Z
}.

Record submission_row := {
  sub_user : Z;
  sub_task : Z;
  file_path : string;
  sub_status : status;
  submitted_at : string;
  reviewed_by : option Z;
  review_reason : option string
}.

Record db := {
  users : gmap Z user_row;
  tasks : gmap Z task_row;
  task_seq : Z;
  submissions : gmap Z submission_row;
  sub_seq : Z;
  verifiers : gset Z;
  referrals : gset (Z * Z);
  (** [UPLOAD_DIR]: file name to content *)
  uploads : gmap string string
}.

Definition empty_db : db := {|
  users := ∅; tasks := ∅; task_seq := 0; submissions := ∅; sub_seq := 0;
  verifiers := ∅; referrals := ∅; uploads := ∅
|}.

(** ** Column updates of a user row *)

Definition set_coins (c : Z) (r : user_row) : user_row :=
  {| username := username r; coins := c; referrer_id := referrer_id r; joined_at := joined_at r;
     ads_watched := ads_watched r; ad_counter := ad_counter r; boost_until := boost_until r;
     last_daily := last_daily r |}.

Definition set_ads_watched (n : Z) (r : user_row) : user_row :=
  {| username := username r; coins := coins r; referrer_id := referrer_id r; joined_at := joined_at r;
     ads_watched := n; ad_counter := ad_counter r; boost_until := boost_until r;
     last_daily := last_daily r |}.

Definition set_ad_counter (n : Z) (r : user_row) : user_row :=
  {| username := username r; coins := coins r; referrer_id := referrer_id r; joined_at := joined_at r;
     ads_watched := ads_watched r; ad_counter := n; boost_until := boost_until r;
     last_daily := last_daily r |}.

Definition set_boost_until (b : option string) (r : user_row) : user_row :=
  {| username := username r; coins := coins r; referrer_id := referrer_id r; joined_at := joined_at r;
     ads_watched := ads_watched r; ad_counter := ad_counter r; boost_until := b;
     last_daily := last_daily r |}.

Definition set_last_daily (d : option string) (r : user_row) : user_row :=
  {| username := username r; coins := coins r; referrer_id := referrer_id r; joined_at := joined_at r;
     ads_watched := ads_watched r; ad_counter := ad_counter r; boost_until := boost_until r;
     last_daily := d |}.

(** [coins = COALESCE(coins, 0) + n] *)
Definition add_coins (n : Z) (r : user_row) : user_row := set_coins (coins r + n) r.

(** A row inserted with the given columns; the others take their
    defaults ([coins], [ads_watched], [ad_counter]: 0; the rest [NULL]). *)
Definition new_user (name : string) (c : Z) (joined : option string) : user_row :=
  {| username := name; coins := c; referrer_id := None; joined_at := joined;
     ads_watched := 0; ad_counter := 0; boost_until := None; last_daily := None |}.

(** ** Statements on the [users] table *)

Definition with_users (f : gmap Z user_row -> gmap Z user_row) (s : db) : db :=
  {| users := f (users s); tasks := tasks s; task_seq := task_seq s;
     submissions := submissions s; sub_seq := sub_seq s; verifiers := verifiers s;
     referrals := referrals s; uploads := uploads s |}.

(** [INSERT OR IGNORE INTO users ...]: nothing when the id is taken. *)
Definition insert_or_ignore_user (uid : Z) (r : user_row) (s : db) : db :=
  match users s !! uid with
  | Some _ => s
  | None => with_users (insert uid r) s
  end.

(** [UPDATE users SET ... WHERE user_id = ?]: nothing when no row matches. *)
Definition update_user (uid : Z) (f : user_row -> user_row) (s : db) : db :=
  with_users (alter f uid) s.

(** [SELECT ... FROM users WHERE user_id = ?] followed by [row[0]]: a
    missing row raises [TypeError], a 500. *)
Definition select_user (uid : Z) : txn db user_row :=
  fun s => match users s !! uid with
           | Some r => Ok (s, r)
           | None => Err internal_error
           end.

(** ** The environment of a request *)

Record env := {
  bot_token : string;
  (** [BOT_USERNAME] *)
  bot_username : string;
  admin_ids : list Z;
  channel_link : string;
  (** [UPLOAD_DIR] *)
  upload_dir : string;
  (** [is_member_of_channel]: [False] when the bot or the channel is
      missing or the Telegram call fails *)
  is_member : Z -> bool;
  (** Telegram's answer to [edit_text(text, parse_mode="Markdown")]:
      [true] when its legacy Markdown parser accepts [text] (every
      [*], [_], [`] and [[] entity closed), [false] when the call
      raises [BadRequest] *)
  markdown_ok : string -> bool;
  (** [datetime.datetime.utcnow()], microseconds since the epoch *)
  now : Z
}.

(** ** The request prologue *)

Section Prologue.
Context `{Crypto} `{JsonDecoder}.

(** [try: parsed = verify_init_data(init_data, BOT_TOKEN) except Exception
    as e: raise HTTPException(status_code=401, detail=str(e))] *)
Definition authenticate (e : env) (init_data : string) : result (list (string * pyval)) :=
  match verify_init_data init_data (bot_token e) with
  | Verified p => Ok p
  | AuthError msg => Err (HTTPException 401 msg)
  end.

(** [user = parsed.get("user", {}); uid = int(user.get("id"))] *)
Definition session_uid (p : list (string * pyval)) : result (Z * user_json) :=
  match session_user p with
  | Some u => match uj_id u with Some uid => Ok (uid, u) | None => Err internal_error end
  | None => Err internal_error
  end.

(** [if not init_data: raise HTTPException(status_code=400, ...)], then
    the two steps above. *)
Definition request_user (e : env) (init_data : string) (missing : string) : result (Z * user_json) :=
  if String.eqb init_data "" then Err (HTTPException 400 missing)
  else result_bind (authenticate e init_data) session_uid.

End Prologue.

(** [user.get("username") or user.get("first_name") or f"user{uid}"] *)
Definition display_name (u : user_json) (uid : Z) : string :=
  py_or (uj_username u) (py_or (uj_first_name u) ("user" ++ pretty uid)%string).

(** [uid in ADMIN_IDS or uid in ver_rows] *)
Definition is_staff (e : env) (s : db) (uid : Z) : bool :=
  py_in uid (admin_ids e) || bool_decide (uid ∈ verifiers s).

(** ** A concrete session, for the examples

    The token [ann] holds for the bot token ["tok"] under [toy_crypto]:
    user [7], first name [ann]. *)
Definition sample_token : string := @sign toy_crypto "tok" sample_fields.

Definition sample_user : user_json :=
  {| uj_id := Some 7%Z; uj_username := None; uj_first_name := Some "ann" |}.

(** 2023-11-14T22:13:20 *)
Definition sample_now : Z := 1700000000000000%Z.

Definition sample_env (t : Z) (member : bool) : env :=
  {| bot_token := "tok"; bot_username := "X_Reward_Bot"; admin_ids := [1%Z];
     channel_link := "https://t.me/chan"; upload_dir := "/data/uploads";
     is_member := fun _ => member; markdown_ok := fun _ => true; now := t |}.

(** ** Lemmas on the statements

    Every state a handler reaches from [s] by statements on one user
    row is [with_users (insert uid x) s] for the current row [x]. *)

Lemma with_users_compose f g s : with_users f (with_users g s) = with_users (fun m => f (g m)) s.
Proof. reflexivity. Qed.

Lemma with_users_insert_id uid x s : users s !! uid = Some x -> with_users (insert uid x) s = s.
Proof. intros E. destruct s; unfold with_users; simpl in *. by rewrite insert_id. Qed.

Lemma with_users_insert_insert uid x y s :
  with_users (insert uid x) (with_users (insert uid y) s) = with_users (insert uid x) s.
Proof. unfold with_users; simpl. by rewrite insert_insert_eq. Qed.

Lemma insert_or_ignore_user_view uid r s :
  insert_or_ignore_user uid r s = with_users (insert uid (default r (users s !! uid))) s.
Proof.
  unfold insert_or_ignore_user. destruct (users s !! uid) as [r0|] eqn:E; [|done].
  by rewrite with_users_insert_id.
Qed.

Lemma update_user_insert uid f x s :
  update_user uid f (with_users (insert uid x) s) = with_users (insert uid (f x)) s.
Proof. unfold update_user, with_users; simpl. by rewrite alter_insert_eq. Qed.

Lemma tbind_select_user_insert {B} uid x (k : user_row -> txn db B) s :
  tbind (select_user uid) k (with_users (insert uid x) s) = k x (with_users (insert uid x) s).
Proof. unfold tbind, select_user. simpl. by rewrite lookup_insert_eq. Qed.

Lemma users_with_users_lookup f s uid : users (with_users f s) !! uid = f (users s) !! uid.
Proof. reflexivity. Qed.

Lemma lookup_update_user_eq k f s : users (update_user k f s) !! k = f <$> users s !! k.
Proof. apply lookup_alter_eq. Qed.

Lemma lookup_update_user_ne k k' f s :
  k <> k' -> users (update_user k f s) !! k' = users s !! k'.
Proof. intros Hne. unfold update_user; simpl. by rewrite lookup_alter_ne. Qed.

Lemma lookup_insert_or_ignore_user_ne k k' x s :
  k <> k' -> users (insert_or_ignore_user k x s) !! k' = users s !! k'.
Proof.
  intros Hne. unfold insert_or_ignore_user. case_match; [done|].
  simpl. by rewrite lookup_insert_ne.
Qed.

Lemma lookup_insert_or_ignore_user_some k x y s :
  users s !! k = Some y -> users (insert_or_ignore_user k x s) !! k = Some y.
Proof. intros E. unfold insert_or_ignore_user. by rewrite E. Qed.

#[export] Hint Rewrite insert_or_ignore_user_view update_user_insert @tbind_select_user_insert
  with_users_insert_insert users_with_users_lookup @lookup_insert_eq : minibot_rw.

End Store.
