(* ===== verification/Ledger.v ===== *)
(** * Ledger: ad rewards, the daily claim, the balance and the boost

    [ad_watched] (src/main.py lines 203-238), [daily_claim] (421-441),
    [balance] (185-200) and the boost test they and
    [review_submission] share (lines 193-199, 312-321).  Each handler
    is a [txn] over the database: its [INSERT OR IGNORE] and [UPDATE]
    statements are [insert_or_ignore_user] and [update_user] in the
    order of the code, an early [return] before [con.commit()] restores
    the store it started from, and a raised [HTTPException] is an
    [Err] that leaves no write behind.

    The abstract specification of the ledger, [ad_effect] and
    [daily_effect], is what spec section 4.2 promises of one user row;
    [ad_watched_refines] and [daily_claim_refines] show that the
    handlers' statement sequences implement it. *)

From S2P Require Import Prelude Session Clock Store.

Module Ledger.

Import Session Clock Store.

Local Open Scope Z_scope.

(** ** Domain constants *)

Definition ad_reward : Z := 100.
Definition boost_threshold : Z := 3.
Definition daily_reward : Z := 50.

(** ** The boost test

    [if boost_until: try: until = fromisoformat(boost_until.replace("Z", ""));
    boost_active = until > utcnow() except: boost_active = False]. *)
Definition boost_is_active (bu : option string) (t : Z) : bool :=
  match bu with
  | Some s =>
      if String.eqb s "" then false
      else match fromisoformat (str_replace_char "Z" "" s) with
           | Some until => Z.ltb t until
           | None => false
           end
  | None => false
  end.

(** The expiry [ad_watched] writes at the instant [t]. *)
Definition boost_stamp (t : Z) : string := (isoformat (t + two_hours) ++ "Z")%string.

(** ** Replies *)

Inductive ad_reply :=
  | AdJoinChannel (channel : string)
  | AdOk (coins_awarded coins_total ads_watched ads_to_next_boost : Z)
         (boost_activated : option string).

Inductive daily_reply :=
  | DailyAlreadyClaimed
  | DailyOk (awarded : Z).

Record balance_reply := {
  b_coins : Z;
  b_ads_watched : Z;
  b_boost_active : bool
}.

(** ** Handlers *)

Section Handlers.
Context `{Crypto} `{JsonDecoder}.

(** [POST /webapp/ad_watched] *)
Definition ad_watched (e : env) (init_data : string) : txn db ad_reply :=
  p <- tlift (request_user e init_data "init_data required") ;;
  let '(uid, user) := p in
  if negb (is_member e uid) then tret (AdJoinChannel (channel_link e)) else
  tmodify (insert_or_ignore_user uid (new_user (display_name user uid) 0 None)) ;;;
  tmodify (update_user uid (fun r => set_ads_watched (ads_watched r + 1) (add_coins ad_reward r))) ;;;
  row <- select_user uid ;;
  let counter := ad_counter row + 1 in
  step <- (if boost_threshold <=? counter then
             if in_rangeb (now e + two_hours) then
               tmodify (update_user uid (fun r =>
                 set_ad_counter 0 (set_boost_until (Some (boost_stamp (now e))) r))) ;;;
               tret (Some (boost_stamp (now e)), boost_threshold)
             else traise internal_error
           else
             tmodify (update_user uid (set_ad_counter counter)) ;;;
             tret (None, boost_threshold - counter)) ;;
  row' <- select_user uid ;;
  tret (AdOk ad_reward (coins row') (ads_watched row') (snd step) (fst step)).

(** [POST /webapp/daily_claim] *)
Definition daily_claim (e : env) (init_data : string) : txn db daily_reply :=
  p <- tlift (request_user e init_data "init_data required") ;;
  let '(uid, user) := p in
  s0 <- tget ;;
  tmodify (insert_or_ignore_user uid
             (new_user (display_name user uid) 0 (Some (isoformat (now e))))) ;;;
  s1 <- tget ;;
  let last := match users s1 !! uid with Some r => last_daily r | None => None end in
  let now_date := isoformat_date (now e) in
  if decide (last = Some now_date) then tput s0 ;;; tret DailyAlreadyClaimed
  else
    tmodify (update_user uid (fun r => set_last_daily (Some now_date) (add_coins daily_reward r))) ;;;
    tret (DailyOk daily_reward).

End Handlers.

(** [GET /balance/{user_id}]: no authentication, no write. *)
Definition balance (e : env) (user_id : Z) (s : db) : balance_reply :=
  match users s !! user_id with
  | None => {| b_coins := 0; b_ads_watched := 0; b_boost_active := false |}
  | Some r => {| b_coins := coins r; b_ads_watched := ads_watched r;
                 b_boost_active := boost_is_active (boost_until r) (now e) |}
  end.

(** ** The abstract ledger: one user row *)

(** An ad watched at the instant [t]. *)
Definition ad_effect (t : Z) (r : user_row) : user_row :=
  let r1 := set_ads_watched (ads_watched r + 1) (add_coins ad_reward r) in
  if boost_threshold <=? ad_counter r + 1
  then set_ad_counter 0 (set_boost_until (Some (boost_stamp t)) r1)
  else set_ad_counter (ad_counter r + 1) r1.

(** A successful daily claim on the day of [t]. *)
Definition daily_effect (t : Z) (r : user_row) : user_row :=
  set_last_daily (Some (isoformat_date t)) (add_coins daily_reward r).

(** The row invariant of spec section 3. *)
Definition user_ok (r : user_row) : Prop :=
  0 <= coins r /\ 0 <= ads_watched r /\ 0 <= ad_counter r <= 2.

Definition users_ok (s : db) : Prop := map_Forall (fun _ r => user_ok r) (users s).

(** The row of [sample_user] holding 10 coins, last claimed on the day
    before [sample_now]. *)
Definition claimed_yesterday : user_row :=
  set_last_daily (Some (isoformat_date (sample_now - us_per_day))) (new_user "ann" 10 None).

Definition claimed_yesterday_db : db := with_users (insert 7 claimed_yesterday) empty_db.

(** Evaluates a handler's statements on one user row. *)
Ltac run_txn :=
  repeat (autorewrite with minibot_rw; cbv beta iota; simpl).

Section Refinement.
Context `{Crypto} `{JsonDecoder}.

(** The handler on every branch once its caller is authenticated and
    in the channel: the abstract [ad_effect] on the row, or the
    [OverflowError] of [utcnow() + timedelta(hours=2)]. *)
Lemma ad_watched_run e init s uid u :
  request_user e init "init_data required" = Ok (uid, u) -> is_member e uid = true ->
  let r0 := default (new_user (display_name u uid) 0 None) (users s !! uid) in
  let r1 := ad_effect (now e) r0 in
  let boost := boost_threshold <=? ad_counter r0 + 1 in
  ad_watched e init s =
    if boost && negb (in_rangeb (now e + two_hours)) then Err internal_error
    else Ok (with_users (insert uid r1) s,
             AdOk ad_reward (coins r1) (ads_watched r1)
                  (if boost then boost_threshold else boost_threshold - (ad_counter r0 + 1))
                  (if boost then Some (boost_stamp (now e)) else None)).
Proof.
  intros Hreq Hmem r0 r1 boost. unfold ad_watched.
  rewrite (tbind_tlift_ok _ _ _ _ Hreq). cbv beta iota. rewrite Hmem. simpl negb. cbv iota.
  run_txn. fold r0. unfold r1, boost, ad_effect.
  destruct (boost_threshold <=? ad_counter r0 + 1);
    [destruct (in_rangeb (now e + two_hours))|]; by run_txn.
Qed.

(** The daily claim on every branch once its caller is authenticated:
    the already-claimed answer with the store untouched (the [INSERT OR
    IGNORE] is not committed), or the abstract [daily_effect]. *)
Lemma daily_claim_run e init s uid u :
  request_user e init "init_data required" = Ok (uid, u) ->
  let r0 := default (new_user (display_name u uid) 0 (Some (isoformat (now e)))) (users s !! uid) in
  daily_claim e init s =
    if decide (last_daily r0 = Some (isoformat_date (now e))) then Ok (s, DailyAlreadyClaimed)
    else Ok (with_users (insert uid (daily_effect (now e) r0)) s, DailyOk daily_reward).
Proof.
  intros Hreq r0. unfold daily_claim.
  rewrite (tbind_tlift_ok _ _ _ _ Hreq). cbv beta iota.
  run_txn. fold r0. unfold daily_effect. rewrite lookup_insert_eq.
  destruct (decide (last_daily r0 = _)); by run_txn.
Qed.

(** The two refinements on a store whose row for [uid] is [x]. *)
Lemma ad_watched_row e init s uid u x :
  request_user e init "init_data required" = Ok (uid, u) -> is_member e uid = true ->
  ad_watched e init (with_users (insert uid x) s) =
    if (boost_threshold <=? ad_counter x + 1) && negb (in_rangeb (now e + two_hours))
    then Err internal_error
    else Ok (with_users (insert uid (ad_effect (now e) x)) s,
             AdOk ad_reward (coins (ad_effect (now e) x)) (ads_watched (ad_effect (now e) x))
               (if boost_threshold <=? ad_counter x + 1 then boost_threshold
                else boost_threshold - (ad_counter x + 1))
               (if boost_threshold <=? ad_counter x + 1 then Some (boost_stamp (now e)) else None)).
Proof.
  intros Q M. pose proof (ad_watched_run e init (with_users (insert uid x) s) uid u Q M) as R.
  cbv zeta in R. rewrite users_with_users_lookup, lookup_insert_eq in R. simpl default in R.
  by rewrite R, with_users_insert_insert.
Qed.

Lemma daily_claim_row e init s uid u x :
  request_user e init "init_data required" = Ok (uid, u) ->
  daily_claim e init (with_users (insert uid x) s) =
    if decide (last_daily x = Some (isoformat_date (now e)))
    then Ok (with_users (insert uid x) s, DailyAlreadyClaimed)
    else Ok (with_users (insert uid (daily_effect (now e) x)) s, DailyOk daily_reward).
Proof.
  intros Q. pose proof (daily_claim_run e init (with_users (insert uid x) s) uid u Q) as R.
  cbv zeta in R. rewrite users_with_users_lookup, lookup_insert_eq in R. simpl default in R.
  by rewrite R, with_users_insert_insert.
Qed.

(** What a successful [ad_watched] can do to the store. *)
Lemma ad_watched_ok_cases e init s s' a :
  ad_watched e init s = Ok (s', a) ->
  s' = s \/ exists uid u, request_user e init "init_data required" = Ok (uid, u) /\
    s' = with_users (insert uid (ad_effect (now e)
           (default (new_user (display_name u uid) 0 None) (users s !! uid)))) s.
Proof.
  intros Hrun. destruct (request_user e init "init_data required") as [[uid u]|err] eqn:Hreq.
  - destruct (is_member e uid) eqn:Hm.
    + pose proof (ad_watched_run e init s uid u Hreq Hm) as R. cbv zeta in R.
      rewrite R in Hrun. case_if_in Hrun; [done|]. injection Hrun as <- _. right. eauto.
    + left. unfold ad_watched in Hrun. rewrite (tbind_tlift_ok _ _ _ _ Hreq), Hm in Hrun.
      by injection Hrun as <- _.
  - unfold ad_watched in Hrun. by rewrite (tbind_tlift_err _ _ _ _ Hreq) in Hrun.
Qed.

(** What a successful [daily_claim] can do to the store. *)
Lemma daily_claim_ok_cases e init s s' a :
  daily_claim e init s = Ok (s', a) ->
  (s' = s /\ a = DailyAlreadyClaimed) \/
  exists uid u, request_user e init "init_data required" = Ok (uid, u) /\
    last_daily (default (new_user (display_name u uid) 0 (Some (isoformat (now e)))) (users s !! uid))
      <> Some (isoformat_date (now e)) /\
    s' = with_users (insert uid (daily_effect (now e)
           (default (new_user (display_name u uid) 0 (Some (isoformat (now e)))) (users s !! uid)))) s /\
    a = DailyOk daily_reward.
Proof.
  intros Hrun. destruct (request_user e init "init_data required") as [[uid u]|err] eqn:Hreq.
  - pose proof (daily_claim_run e init s uid u Hreq) as R. cbv zeta in R.
    rewrite R in Hrun. case_decide; injection Hrun as <- <-; [by left|right; eauto 10].
  - unfold daily_claim in Hrun. by rewrite (tbind_tlift_err _ _ _ _ Hreq) in Hrun.
Qed.

End Refinement.

(** ** The row invariant *)

Lemma new_user_ok name c j : 0 <= c -> user_ok (new_user name c j).
Proof. unfold user_ok; simpl; lia. Qed.

Lemma ad_effect_ok t r : user_ok r -> user_ok (ad_effect t r).
Proof.
  unfold user_ok, ad_effect, ad_reward, boost_threshold. intros (? & ? & ?).
  case_if; [apply Z.leb_le in E|apply Z.leb_gt in E]; simpl; lia.
Qed.

Lemma daily_effect_ok t r : user_ok r -> user_ok (daily_effect t r).
Proof. unfold user_ok, daily_effect, daily_reward; simpl; lia. Qed.

(** A handler that rewrites one row with a step that keeps the
    invariant keeps it on the whole table. *)
Lemma users_ok_row s uid r f :
  users_ok s -> user_ok r -> (forall x, user_ok x -> user_ok (f x)) ->
  users_ok (with_users (insert uid (f (default r (users s !! uid)))) s).
Proof.
  intros Hs Hr Hf. apply map_Forall_insert_2; [|done]. apply Hf.
  destruct (users s !! uid) eqn:E; simpl; [|done].
  by apply (map_Forall_lookup_1 (fun _ r => user_ok r) (users s) uid).
Qed.

(** A step that rewrites one row with an update that keeps the row
    invariant keeps it on the whole table. *)
Lemma users_ok_update_user k f s :
  users_ok s -> (forall x, user_ok x -> user_ok (f x)) -> users_ok (update_user k f s).
Proof.
  intros Hs Hf k' x. unfold update_user; simpl. rewrite lookup_alter_Some.
  intros [(-> & y & Hy & ->)|(_ & Hx)]; [apply Hf; exact (Hs k' y Hy)|exact (Hs k' x Hx)].
Qed.

Lemma users_ok_insert_or_ignore_user k x s :
  users_ok s -> user_ok x -> users_ok (insert_or_ignore_user k x s).
Proof. intros Hs Hx. rewrite insert_or_ignore_user_view. by apply (users_ok_row s k x id). Qed.

Lemma add_coins_ok n x : 0 <= n -> user_ok x -> user_ok (add_coins n x).
Proof. unfold user_ok, add_coins, set_coins; simpl; lia. Qed.

#[export] Hint Resolve new_user_ok ad_effect_ok daily_effect_ok : minibot.

Lemma boost_stamp_nonempty t : String.eqb (boost_stamp t) "" = false.
Proof.
  apply String.eqb_neq. unfold boost_stamp. intros [_ H]%string_app_eq_empty. discriminate.
Qed.

Section Theorems.
Context `{Crypto} `{JsonDecoder}.

(** C8: Refinement of the ad reward: once its caller is authenticated
    and in the channel, [ad_watched] applies the abstract [ad_effect] to
    the caller's row (a fresh row with 0 coins if missing) and answers
    with the row's new totals, or fails with a 500 when the boost it
    starts would end after year 9999. *)
Theorem ad_watched_refines e init s uid u :
  request_user e init "init_data required" = Ok (uid, u) -> is_member e uid = true ->
  let r0 := default (new_user (display_name u uid) 0 None) (users s !! uid) in
  let r1 := ad_effect (now e) r0 in
  let boost := boost_threshold <=? ad_counter r0 + 1 in
  ad_watched e init s =
    if boost && negb (in_rangeb (now e + two_hours)) then Err internal_error
    else Ok (with_users (insert uid r1) s,
             AdOk ad_reward (coins r1) (ads_watched r1)
                  (if boost then boost_threshold else boost_threshold - (ad_counter r0 + 1))
                  (if boost then Some (boost_stamp (now e)) else None)).
Proof. apply ad_watched_run. Qed.

(** C9: Refinement of the daily claim: once its caller is
    authenticated, [daily_claim] answers [already_claimed] with the store
    untouched when the caller's row holds today's date, and otherwise
    applies the abstract [daily_effect] (50 coins, today's date). *)
Theorem daily_claim_refines e init s uid u :
  request_user e init "init_data required" = Ok (uid, u) ->
  let r0 := default (new_user (display_name u uid) 0 (Some (isoformat (now e)))) (users s !! uid) in
  daily_claim e init s =
    if decide (last_daily r0 = Some (isoformat_date (now e))) then Ok (s, DailyAlreadyClaimed)
    else Ok (with_users (insert uid (daily_effect (now e) r0)) s, DailyOk daily_reward).
Proof. apply daily_claim_run. Qed.

(** [ad_watched] keeps the row invariant of every user: coins and the
    ad count non-negative, the ad streak between 0 and 2. *)
Lemma ad_watched_users_ok e init s s' a :
  users_ok s -> ad_watched e init s = Ok (s', a) -> users_ok s'.
Proof.
  intros Hs [->|(uid & u & _ & ->)]%ad_watched_ok_cases; [done|].
  apply users_ok_row; [done|apply new_user_ok; lia|apply ad_effect_ok].
Qed.

(** [daily_claim] keeps the row invariant. *)
Lemma daily_claim_users_ok e init s s' a :
  users_ok s -> daily_claim e init s = Ok (s', a) -> users_ok s'.
Proof.
  intros Hs [[-> _]|(uid & u & _ & _ & -> & _)]%daily_claim_ok_cases; [done|].
  apply users_ok_row; [done|apply new_user_ok; lia|apply daily_effect_ok].
Qed.

(** C19: The boost [ad_watched] turns on at the instant [t0] is active
    exactly at the instants before [t0] plus two hours. *)
Theorem boost_is_active_stamp t0 t :
  in_range (t0 + two_hours) -> boost_is_active (Some (boost_stamp t0)) t = (t <? t0 + two_hours).
Proof.
  intros Hr. unfold boost_is_active. rewrite boost_stamp_nonempty.
  unfold boost_stamp. by rewrite fromisoformat_boost_until.
Qed.

(** C10: Three ads watched by a user with no row yet: each pays 100
    coins, the third resets the streak and starts a boost that lasts
    two hours from the third call (spec section 8). *)
Theorem three_ads_boost e1 e2 e3 i1 i2 i3 s uid u1 u2 u3 :
  request_user e1 i1 "init_data required" = Ok (uid, u1) -> is_member e1 uid = true ->
  request_user e2 i2 "init_data required" = Ok (uid, u2) -> is_member e2 uid = true ->
  request_user e3 i3 "init_data required" = Ok (uid, u3) -> is_member e3 uid = true ->
  in_range (now e3 + two_hours) -> users s !! uid = None ->
  exists s3 r,
    txn_seq [ad_watched e1 i1; ad_watched e2 i2; ad_watched e3 i3] s =
      Ok (s3, [AdOk 100 100 1 2 None; AdOk 100 200 2 1 None;
               AdOk 100 300 3 3 (Some (boost_stamp (now e3)))]) /\
    users s3 !! uid = Some r /\ coins r = 300 /\ ad_counter r = 0 /\
    boost_until r = Some (boost_stamp (now e3)).
Proof.
  intros Q1 M1 Q2 M2 Q3 M3 Hr Hnone. simpl txn_seq.
  pose proof (ad_watched_run e1 i1 s uid u1 Q1 M1) as R1. cbv zeta in R1.
  rewrite Hnone in R1. simpl in R1. rewrite R1.
  rewrite (ad_watched_row e2 i2 s uid u2) by done. simpl.
  rewrite (ad_watched_row e3 i3 s uid u3) by done. simpl.
  apply in_rangeb_spec in Hr as Hrb. rewrite Hrb. simpl.
  eexists _, _. split; [reflexivity|]. rewrite users_with_users_lookup, lookup_insert_eq.
  split_and!; reflexivity.
Qed.

(** C17: After a successful daily claim, a claim by the same user on the
    same UTC day is answered [already_claimed] and changes nothing. *)
Theorem daily_claim_once_per_day e e' init init' s s' uid u u' :
  request_user e init "init_data required" = Ok (uid, u) ->
  request_user e' init' "init_data required" = Ok (uid, u') ->
  day_of (now e') = day_of (now e) ->
  daily_claim e init s = Ok (s', DailyOk daily_reward) ->
  daily_claim e' init' s' = Ok (s', DailyAlreadyClaimed).
Proof.
  intros Q Q' Hday Hrun.
  pose proof (daily_claim_run e init s uid u Q) as R. cbv zeta in R.
  rewrite R in Hrun. case_decide; [done|]. injection Hrun as <-.
  rewrite (daily_claim_row e' init' s uid u'); [|done]. simpl.
  rewrite decide_True; [done|].
  unfold isoformat_date. by rewrite Hday.
Qed.

(** C18: A claim on a later day than the stored one pays the daily
    reward and records the new date. *)
Theorem daily_claim_new_day e init s uid u r t :
  request_user e init "init_data required" = Ok (uid, u) ->
  users s !! uid = Some r -> last_daily r = Some (isoformat_date t) ->
  in_range t -> in_range (now e) -> day_of t <> day_of (now e) ->
  daily_claim e init s =
    Ok (with_users (insert uid (daily_effect (now e) r)) s, DailyOk daily_reward) /\
  coins (daily_effect (now e) r) = coins r + daily_reward.
Proof.
  intros Q Hrow Hlast Ht Hn Hday.
  pose proof (daily_claim_run e init s uid u Q) as R. cbv zeta in R.
  rewrite Hrow in R. simpl default in R. rewrite R, Hlast. split; [|done].
  rewrite decide_False; [done|]. intros E. apply Hday, (isoformat_date_inj t (now e) Ht Hn). congruence.
Qed.

(** C20: A caller outside the channel gets the [join_channel] answer and
    the store is unchanged. *)
Theorem ad_watched_not_member e init s uid u :
  request_user e init "init_data required" = Ok (uid, u) -> is_member e uid = false ->
  ad_watched e init s = Ok (s, AdJoinChannel (channel_link e)).
Proof.
  intros Q Hm. unfold ad_watched. rewrite (tbind_tlift_ok _ _ _ _ Q). cbv beta iota.
  by rewrite Hm.
Qed.

End Theorems.

(** ** The theorems at a concrete session *)

Lemma ad_watched_refines_witness :
  @request_user toy_crypto toy_json (sample_env sample_now true) sample_token "init_data required" =
    Ok (7, sample_user) /\
  @ad_watched toy_crypto toy_json (sample_env sample_now true) sample_token empty_db =
    Ok (with_users (insert 7 (ad_effect sample_now (new_user "ann" 0 None))) empty_db,
        AdOk ad_reward 100 1 2 None).
Proof.
  assert (H1 : @request_user toy_crypto toy_json (sample_env sample_now true) sample_token
                 "init_data required" = Ok (7, sample_user)) by (vm_compute; reflexivity).
  split; [exact H1|].
  rewrite (@ad_watched_refines toy_crypto toy_json (sample_env sample_now true) sample_token empty_db
             7 sample_user H1 eq_refl).
  vm_compute. reflexivity.
Defined.

Lemma daily_claim_refines_witness :
  @request_user toy_crypto toy_json (sample_env sample_now true) sample_token "init_data required" =
    Ok (7, sample_user) /\
  @daily_claim toy_crypto toy_json (sample_env sample_now true) sample_token claimed_yesterday_db =
    Ok (with_users (insert 7 (daily_effect sample_now claimed_yesterday)) claimed_yesterday_db,
        DailyOk daily_reward).
Proof.
  assert (H1 : @request_user toy_crypto toy_json (sample_env sample_now true) sample_token
                 "init_data required" = Ok (7, sample_user)) by (vm_compute; reflexivity).
  split; [exact H1|].
  rewrite (@daily_claim_refines toy_crypto toy_json (sample_env sample_now true) sample_token
             claimed_yesterday_db 7 sample_user H1).
  vm_compute. reflexivity.
Defined.

Lemma boost_is_active_stamp_witness :
  in_range (sample_now + two_hours) /\
  boost_is_active (Some (boost_stamp sample_now)) (sample_now + 1) = true.
Proof.
  assert (Hr : in_range (sample_now + two_hours)) by (apply in_rangeb_spec; vm_compute; reflexivity).
  split; [exact Hr|]. rewrite (boost_is_active_stamp sample_now (sample_now + 1) Hr). reflexivity.
Defined.

Lemma three_ads_boost_witness :
  exists s3 r,
    txn_seq [@ad_watched toy_crypto toy_json (sample_env sample_now true) sample_token;
             @ad_watched toy_crypto toy_json (sample_env (sample_now + 1) true) sample_token;
             @ad_watched toy_crypto toy_json (sample_env (sample_now + 2) true) sample_token] empty_db =
      Ok (s3, [AdOk 100 100 1 2 None; AdOk 100 200 2 1 None;
               AdOk 100 300 3 3 (Some (boost_stamp (sample_now + 2)))]) /\
    users s3 !! 7 = Some r /\ coins r = 300 /\ ad_counter r = 0 /\
    boost_until r = Some (boost_stamp (sample_now + 2)).
Proof.
  apply (@three_ads_boost toy_crypto toy_json (sample_env sample_now true)
           (sample_env (sample_now + 1) true) (sample_env (sample_now + 2) true)
           sample_token sample_token sample_token empty_db 7 sample_user sample_user sample_user);
    [vm_compute; reflexivity..|apply in_rangeb_spec; vm_compute; reflexivity|reflexivity].
Defined.

Lemma daily_claim_once_per_day_witness :
  @daily_claim toy_crypto toy_json (sample_env (sample_now + 3600000000) true) sample_token
    (with_users (insert 7 (daily_effect sample_now (new_user "ann" 0 (Some (isoformat sample_now)))))
       empty_db) =
  Ok (with_users (insert 7 (daily_effect sample_now (new_user "ann" 0 (Some (isoformat sample_now)))))
        empty_db, DailyAlreadyClaimed).
Proof.
  apply (@daily_claim_once_per_day toy_crypto toy_json (sample_env sample_now true) _ sample_token _
           empty_db _ 7 sample_user sample_user); [vm_compute; reflexivity..].
Defined.

Lemma daily_claim_new_day_witness :
  @daily_claim toy_crypto toy_json (sample_env sample_now true) sample_token claimed_yesterday_db =
    Ok (with_users (insert 7 (daily_effect sample_now claimed_yesterday)) claimed_yesterday_db,
        DailyOk daily_reward) /\
  coins (daily_effect sample_now claimed_yesterday) = coins claimed_yesterday + daily_reward.
Proof.
  apply (@daily_claim_new_day toy_crypto toy_json (sample_env sample_now true) sample_token
           claimed_yesterday_db 7 sample_user claimed_yesterday (sample_now - us_per_day));
    [vm_compute; reflexivity..|apply in_rangeb_spec; vm_compute; reflexivity
    |apply in_rangeb_spec; vm_compute; reflexivity|vm_compute; discriminate].
Defined.

Lemma ad_watched_not_member_witness :
  @ad_watched toy_crypto toy_json (sample_env sample_now false) sample_token empty_db =
  Ok (empty_db, AdJoinChannel "https://t.me/chan").
Proof.
  apply (@ad_watched_not_member toy_crypto toy_json (sample_env sample_now false) sample_token
           empty_db 7 sample_user); vm_compute; reflexivity.
Defined.

End Ledger.
