(* ===== verification/Referral.v ===== *)
(** * Referral: the database part of [/start]

    [bot_start] (src/main.py lines 444-474): [u] is the Telegram user,
    [context.args] the words after [/start].  The first word, when
    [isdigit], is the referrer; the handler inserts the user's row (100
    coins) unless it exists, then, for a non-zero referrer other than the
    user, inserts the edge [(referrer, user)] into [referrals] with
    [INSERT OR IGNORE] and credits the referrer 200 coins.  The reply is
    the welcome text with the user's own referral link, or the prompt to
    join the channel.

    The theorems show what the code does with a referrer: the credit is
    paid on every [/start] that carries it, whether the edge or the
    user's row already existed or not.

    Not modelled: [isdigit] and [int] are read on ASCII text
    ([ascii_word]); a non-ASCII digit argument is no referrer here,
    while Python pays ['٣'] as 3 and raises before the first statement
    on ['²'].  The [try/except] around the referral statements only
    matters for a referrer past SQLite's 64-bit range, where the
    INSERT raises and the referral is dropped; the model's ids are
    unbounded [Z] and it always inserts. *)

From S2P Require Import Prelude Session Clock Store Ledger.

Module Referral.

Import Session Clock Store Ledger.

Local Open Scope Z_scope.

(** ** The [/start] argument *)

(** [telegram.User]: [id], [username] (optional), [first_name]. *)
Record tg_user := {
  tg_id : Z;
  tg_username : option string;
  tg_first_name : string
}.

Definition is_digit (c : ascii) : bool :=
  (48 <=? nat_of_ascii c)%nat && (nat_of_ascii c <=? 57)%nat.

Fixpoint all_digits (s : string) : bool :=
  match s with
  | EmptyString => true
  | String c s' => is_digit c && all_digits s'
  end.

(** [str.isdigit] on ASCII text: non-empty and all digits. *)
Definition isdigit (s : string) : bool := negb (String.eqb s "") && all_digits s.

(** [int(s)] on a string of digits, read left to right. *)
Fixpoint dec_val (acc : Z) (s : string) : Z :=
  match s with
  | EmptyString => acc
  | String c s' => dec_val (10 * acc + (Z.of_nat (nat_of_ascii c) - 48)) s'
  end.

Definition py_int (s : string) : Z := dec_val 0 s.

(** [int(args[0]) if args and args[0].isdigit() else None] *)
Definition start_referrer (args : list string) : option Z :=
  match args with
  | a :: _ => if isdigit a then Some (py_int a) else None
  | [] => None
  end.

(** The words on which [isdigit] and [int] above are Python's: every
    byte ASCII.  Python's [str.isdigit] also accepts non-ASCII digits:
    [int] reads ['٣'] as 3, and raises [ValueError] on ['²'], which
    [isdigit] accepts; the model, which does not decode UTF-8, reads
    both as no referrer. *)
Fixpoint ascii_word (s : string) : bool :=
  match s with
  | EmptyString => true
  | String c s' => (nat_of_ascii c <? 128)%nat && ascii_word s'
  end.

(** ** The handler *)

Definition start_coins : Z := 100.
Definition referral_bonus : Z := 200.

(** [u.username or u.first_name or f"user{u.id}"] *)
Definition tg_name (u : tg_user) : string :=
  py_or (tg_username u) (py_or (Some (tg_first_name u)) ("user" ++ pretty (tg_id u))%string).

Definition with_referrals (f : gset (Z * Z) -> gset (Z * Z)) (s : db) : db :=
  {| users := users s; tasks := tasks s; task_seq := task_seq s;
     submissions := submissions s; sub_seq := sub_seq s; verifiers := verifiers s;
     referrals := f (referrals s); uploads := uploads s |}.

(** [INSERT OR IGNORE INTO referrals (referrer_id, referred_id)]: the
    table's primary key is the pair. *)
Definition insert_referral (r uid : Z) (s : db) : db :=
  with_referrals (fun g => {[(r, uid)]} ∪ g) s.

(** Lines 447-456: the statements between [get_db()] and [con.commit()]
    at the instant [t]. *)
Definition bot_start_db (t : Z) (u : tg_user) (args : list string) (s : db) : db :=
  let s1 := insert_or_ignore_user (tg_id u)
              (new_user (tg_name u) start_coins (Some (isoformat t))) s in
  match start_referrer args with
  | Some r =>
      if negb (r =? 0) && negb (r =? tg_id u)
      then update_user r (add_coins referral_bonus) (insert_referral r (tg_id u) s1)
      else s1
  | None => s1
  end.

Inductive start_reply :=
  | StartJoin (channel : string)
  | StartWelcome (first_name : string) (referral_link : string).

(** [f"https://t.me/{BOT_USERNAME}?start={u.id}"] *)
Definition referral_link (bot_username : string) (uid : Z) : string :=
  ("https://t.me/" ++ bot_username ++ "?start=" ++ pretty uid)%string.

(** [bot_start]: the statements, then the membership check and the
    reply. *)
Definition bot_start (e : env) (u : tg_user) (args : list string) : txn db start_reply :=
  tmodify (bot_start_db (now e) u args) ;;;
  tret (if is_member e (tg_id u)
        then StartWelcome (tg_first_name u) (referral_link (bot_username e) (tg_id u))
        else StartJoin (channel_link e)).

(** The referral graph of spec section 3: no edge from a user to
    itself. *)
Definition no_self_referral (s : db) : Prop := forall a b, (a, b) ∈ referrals s -> a <> b.

(** A Telegram user, and a store in which user [5] is registered. *)
Definition sample_tg_user : tg_user := {| tg_id := 7; tg_username := None; tg_first_name := "ann" |}.

Definition referrer_db : db := with_users (insert 5 (new_user "bob" 100 None)) empty_db.

(** ** Decimal text: [str(n)] read back by [int] *)

Lemma pretty_N_char_val d : (d < 10)%N -> Z.of_nat (nat_of_ascii (pretty_N_char d)) - 48 = Z.of_N d.
Proof.
  intros Hd. assert (d = 0 \/ d = 1 \/ d = 2 \/ d = 3 \/ d = 4 \/ d = 5 \/ d = 6 \/ d = 7
    \/ d = 8 \/ d = 9)%N as Hc by lia.
  destruct_or! Hc; subst d; reflexivity.
Qed.

Lemma pretty_N_char_digit d : is_digit (pretty_N_char d) = true.
Proof. unfold pretty_N_char. by repeat case_match. Qed.

Lemma dec_val_pretty_N_go x s : dec_val 0 (pretty_N_go x s) = dec_val (Z.of_N x) s.
Proof.
  revert s. induction (N.lt_wf_0 x) as [x _ IH]; intros s.
  destruct (decide (x = 0)%N) as [->|Hx]; [by rewrite pretty_N_go_0|].
  rewrite pretty_N_go_step by lia. rewrite IH by (apply N.div_lt; lia). simpl.
  rewrite pretty_N_char_val by (apply N.mod_lt; lia). f_equal.
  pose proof (N.div_mod x 10 ltac:(lia)) as Hd. lia.
Qed.

Lemma all_digits_pretty_N_go x s : all_digits (pretty_N_go x s) = all_digits s.
Proof.
  revert s. induction (N.lt_wf_0 x) as [x _ IH]; intros s.
  destruct (decide (x = 0)%N) as [->|Hx]; [by rewrite pretty_N_go_0|].
  rewrite pretty_N_go_step by lia. rewrite IH by (apply N.div_lt; lia). simpl.
  by rewrite pretty_N_char_digit.
Qed.

Lemma pretty_N_go_nonempty x s : s <> "" -> pretty_N_go x s <> "".
Proof.
  revert s. induction (N.lt_wf_0 x) as [x _ IH]; intros s Hs.
  destruct (decide (x = 0)%N) as [->|Hx]; [by rewrite pretty_N_go_0|].
  rewrite pretty_N_go_step by lia. apply IH; [apply N.div_lt; lia|discriminate].
Qed.

Lemma pretty_pos_go (p : positive) : pretty (Zpos p) = pretty_N_go (Npos p) "".
Proof. reflexivity. Qed.

(** [str(n)] of a number [n >= 0] passes [isdigit], and [int] reads it
    back. *)
Lemma pretty_isdigit n : 0 <= n -> isdigit (pretty n) = true /\ py_int (pretty n) = n.
Proof.
  destruct n as [|p|p]; [done| |lia]. intros _. unfold isdigit, py_int.
  rewrite pretty_pos_go, all_digits_pretty_N_go, dec_val_pretty_N_go.
  destruct (String.eqb (pretty_N_go (Npos p) "") "") eqn:E; [|done].
  apply String.eqb_eq in E. rewrite pretty_N_go_step in E by lia.
  exfalso. eapply pretty_N_go_nonempty; [|exact E]. discriminate.
Qed.

Lemma all_digits_pretty n : 0 <= n -> all_digits (pretty n) = true.
Proof. intros Hn. pose proof (proj1 (pretty_isdigit n Hn)) as H. by apply andb_prop in H as [_ H]. Qed.

Lemma start_referrer_pretty uid rest : 0 < uid -> start_referrer (pretty uid :: rest) = Some uid.
Proof. intros H. unfold start_referrer. by destruct (pretty_isdigit uid ltac:(lia)) as [-> ->]. Qed.

Lemma string_app_cancel_l (p a b : string) : (p ++ a)%string = (p ++ b)%string -> a = b.
Proof. induction p as [|c p IH]; [done|]. rewrite !string_app_cons. intros [= E]. auto. Qed.

(** ** The statements on the tables *)

Lemma users_insert_referral r uid s : users (insert_referral r uid s) = users s.
Proof. reflexivity. Qed.

Lemma referrals_insert_referral r uid s :
  referrals (insert_referral r uid s) = {[(r, uid)]} ∪ referrals s.
Proof. reflexivity. Qed.

Lemma referrals_update_user k f s : referrals (update_user k f s) = referrals s.
Proof. reflexivity. Qed.

Lemma referrals_insert_or_ignore_user k x s : referrals (insert_or_ignore_user k x s) = referrals s.
Proof. unfold insert_or_ignore_user. by case_match. Qed.

#[export] Hint Rewrite users_insert_referral referrals_insert_referral referrals_update_user
  referrals_insert_or_ignore_user : minibot_rw.

(** The statements a [/start] runs when it carries the referrer [r]. *)
Lemma bot_start_db_referrer t u a rest r s :
  start_referrer (a :: rest) = Some r -> r <> 0 -> r <> tg_id u ->
  bot_start_db t u (a :: rest) s =
    update_user r (add_coins referral_bonus)
      (insert_referral r (tg_id u)
         (insert_or_ignore_user (tg_id u) (new_user (tg_name u) start_coins (Some (isoformat t))) s)).
Proof.
  intros E H0 Hu. unfold bot_start_db. rewrite E.
  by rewrite (proj2 (Z.eqb_neq _ _) H0), (proj2 (Z.eqb_neq _ _) Hu).
Qed.

(** One [/start] with a referrer [r] other than the user: [r]'s row is
    credited and the edge is in the table, whatever the store held. *)
Lemma bot_start_db_pays t u rest r y s :
  0 < r -> r <> tg_id u -> users s !! r = Some y ->
  users (bot_start_db t u (pretty r :: rest) s) !! r = Some (add_coins referral_bonus y) /\
  referrals (bot_start_db t u (pretty r :: rest) s) = {[(r, tg_id u)]} ∪ referrals s.
Proof.
  intros Hr Hu Hy.
  rewrite (bot_start_db_referrer t u _ rest r); [|apply start_referrer_pretty; lia|lia|done].
  rewrite lookup_update_user_eq, users_insert_referral, lookup_insert_or_ignore_user_ne by done.
  rewrite Hy. split; [done|]. by autorewrite with minibot_rw.
Qed.

Section Theorems.

(** C13: A [/start] that carries a referrer pays the referrer 200 coins
    every time: the same user sending [/start r] twice earns [r] 400
    coins, although the second [INSERT OR IGNORE] of the edge [(r, u)]
    is ignored and the user was registered by the first. *)
Theorem bot_start_pays_every_time t1 t2 u rest r y s :
  0 < r -> r <> tg_id u -> users s !! r = Some y ->
  let s2 := bot_start_db t2 u (pretty r :: rest) (bot_start_db t1 u (pretty r :: rest) s) in
  (exists y2, users s2 !! r = Some y2 /\ coins y2 = coins y + 2 * referral_bonus) /\
  referrals s2 = {[(r, tg_id u)]} ∪ referrals s.
Proof.
  intros Hr Hu Hy s2. destruct (bot_start_db_pays t1 u rest r y s Hr Hu Hy) as [H1 E1].
  destruct (bot_start_db_pays t2 u rest r _ _ Hr Hu H1) as [H2 E2]. split.
  - eexists. split; [exact H2|]. unfold add_coins, set_coins; simpl. lia.
  - unfold s2. by rewrite E2, E1, (assoc_L (∪)), union_idemp_L.
Qed.

(** C24: A [/start] whose first word (if any) is ASCII and is not the
    decimal id of a user other than the sender (not all digits, or
    reading [0] or the sender's id) writes only the sender's row, if it
    is missing: no referral edge and no credit. *)
Theorem bot_start_self_referral e u args s :
  (forall a rest, args = a :: rest ->
     ascii_word a = true /\ (isdigit a = false \/ py_int a = 0 \/ py_int a = tg_id u)) ->
  exists rep, bot_start e u args s =
    Ok (insert_or_ignore_user (tg_id u) (new_user (tg_name u) start_coins (Some (isoformat (now e)))) s, rep).
Proof.
  intros Ha. eexists. unfold bot_start, tbind, tmodify, tret. do 2 f_equal.
  unfold bot_start_db, start_referrer. destruct args as [|a rest]; [done|].
  destruct (Ha a rest eq_refl) as [_ [-> | [-> | ->]]]; [done|..]; case_if; [|done|..].
  - by rewrite Z.eqb_refl.
  - by rewrite Z.eqb_refl, andb_false_r.
  - done.
Qed.

(** C25: [/start] never rewrites the row of a registered user: the row
    keeps its coins, its streak and its dates. *)
Theorem bot_start_keeps_row t u args s x :
  users s !! tg_id u = Some x -> users (bot_start_db t u args s) !! tg_id u = Some x.
Proof.
  intros Hx. unfold bot_start_db. destruct (start_referrer args) as [r|]; [case_if|];
    [|by apply lookup_insert_or_ignore_user_some..].
  apply andb_prop in E as [_ E%negb_true_iff%Z.eqb_neq].
  rewrite lookup_update_user_ne by done. by apply lookup_insert_or_ignore_user_some.
Qed.

(** [/start] keeps the row invariant of every user and the referral
    graph free of self-edges, and never removes an edge. *)
Lemma bot_start_invariant t u args s :
  users_ok s -> no_self_referral s ->
  users_ok (bot_start_db t u args s) /\ no_self_referral (bot_start_db t u args s) /\
  referrals s ⊆ referrals (bot_start_db t u args s).
Proof.
  intros Hs Hg. assert (Hs1 : users_ok (insert_or_ignore_user (tg_id u)
    (new_user (tg_name u) start_coins (Some (isoformat t))) s))
    by (apply users_ok_insert_or_ignore_user; [done|apply new_user_ok; unfold start_coins; lia]).
  unfold bot_start_db, no_self_referral. destruct (start_referrer args) as [r|]; [case_if|].
  2,3: rewrite !referrals_insert_or_ignore_user; split_and!; [done|exact Hg|done].
  apply andb_prop in E as [_ E%negb_true_iff%Z.eqb_neq].
  rewrite referrals_update_user, referrals_insert_referral, referrals_insert_or_ignore_user.
  split_and!; [|intros a b [[= -> ->]%elem_of_singleton|Hab]%elem_of_union; [done|exact (Hg a b Hab)]
              |set_solver].
  apply users_ok_update_user; [done|]. intros x. apply add_coins_ok. unfold referral_bonus; lia.
Qed.

(** C26: The referral link the welcome message shows is read back by
    [/start] as its sender: a user who follows the link of [uid] names
    [uid] as referrer. *)
Theorem referral_link_roundtrip b uid a :
  0 < uid -> referral_link b uid = ("https://t.me/" ++ b ++ "?start=" ++ a)%string ->
  start_referrer [a] = Some uid.
Proof.
  intros Hu E. unfold referral_link in E. rewrite <- !string_app_assoc in E.
  apply string_app_cancel_l in E as <-. by apply start_referrer_pretty.
Qed.

End Theorems.

(** ** The theorems at concrete inputs *)

Lemma bot_start_pays_every_time_witness :
  (exists y2, users (bot_start_db (sample_now + 1) sample_tg_user [pretty 5]
                       (bot_start_db sample_now sample_tg_user [pretty 5] referrer_db)) !! 5 = Some y2 /\
              coins y2 = 100 + 2 * referral_bonus) /\
  referrals (bot_start_db (sample_now + 1) sample_tg_user [pretty 5]
               (bot_start_db sample_now sample_tg_user [pretty 5] referrer_db)) =
    {[(5, tg_id sample_tg_user)]} ∪ referrals referrer_db.
Proof.
  exact (bot_start_pays_every_time sample_now (sample_now + 1) sample_tg_user [] 5
           (new_user "bob" 100 None) referrer_db ltac:(lia) ltac:(discriminate) eq_refl).
Defined.

Lemma bot_start_self_referral_witness :
  exists rep, bot_start (sample_env sample_now true) sample_tg_user [pretty 7] empty_db =
    Ok (insert_or_ignore_user 7 (new_user "ann" start_coins (Some (isoformat sample_now))) empty_db, rep).
Proof.
  apply (bot_start_self_referral (sample_env sample_now true) sample_tg_user [pretty 7] empty_db).
  intros a rest [= <- <-]. split; [reflexivity|]. right. right. reflexivity.
Defined.

Lemma bot_start_keeps_row_witness :
  users (bot_start_db sample_now sample_tg_user [pretty 5]
           (with_users (insert 7 (new_user "ann" 42 None)) referrer_db)) !! 7 = Some (new_user "ann" 42 None).
Proof.
  apply (bot_start_keeps_row sample_now sample_tg_user [pretty 5]
           (with_users (insert 7 (new_user "ann" 42 None)) referrer_db)). reflexivity.
Defined.

Lemma bot_start_invariant_witness :
  users_ok (bot_start_db sample_now sample_tg_user [pretty 5] referrer_db) /\
  no_self_referral (bot_start_db sample_now sample_tg_user [pretty 5] referrer_db) /\
  referrals referrer_db ⊆ referrals (bot_start_db sample_now sample_tg_user [pretty 5] referrer_db).
Proof.
  apply bot_start_invariant.
  - apply map_Forall_insert_2; [unfold user_ok; simpl; lia|apply map_Forall_empty].
  - intros a b Hab. simpl in Hab. set_solver.
Defined.

Lemma referral_link_roundtrip_witness : start_referrer ["7"] = Some 7.
Proof. apply (referral_link_roundtrip "X_Reward_Bot" 7 "7"); [lia|reflexivity]. Defined.

End Referral.
