(* ===== verification/Workflow.v ===== *)
(** * Workflow: proofs, reviews, tasks and verifiers

    The handlers that create and review submissions and that manage
    tasks and verifiers (src/main.py lines 158-170 and 240-393):
    [webapp_check_join], [submit_proof], [review_submission],
    [add_task], [delete_task], [add_verifier], [remove_verifier].

    [submit_proof] writes the uploaded file under [UPLOAD_DIR] (the
    [uploads] map, keyed by file name) before it opens the database,
    then inserts the user's row if missing and a [pending] submission.

    [review_submission] is written as its two phases: [review_plan]
    runs the guards and the [SELECT]s of lines 290-321 on one store and
    returns the writes to make, and [review_apply] makes them (lines
    322-331).  In the handler ([review_submission]) both phases run on
    the same store.  Python's [sqlite3] opens a transaction only at the
    first [UPDATE], so the [SELECT]s of the first phase hold no lock and
    another connection can commit between the two phases: the module
    System runs them apart. *)

From S2P Require Import Prelude Session Clock Store Ledger.

Module Workflow.

Import Session Clock Store Ledger.

Local Open Scope Z_scope.

(** ** Statements on the other tables *)

Definition with_tasks (f : gmap Z task_row -> gmap Z task_row) (seq : Z) (s : db) : db :=
  {| users := users s; tasks := f (tasks s); task_seq := seq;
     submissions := submissions s; sub_seq := sub_seq s; verifiers := verifiers s;
     referrals := referrals s; uploads := uploads s |}.

Definition with_submissions (f : gmap Z submission_row -> gmap Z submission_row) (seq : Z)
    (s : db) : db :=
  {| users := users s; tasks := tasks s; task_seq := task_seq s;
     submissions := f (submissions s); sub_seq := seq; verifiers := verifiers s;
     referrals := referrals s; uploads := uploads s |}.

Definition with_verifiers (f : gset Z -> gset Z) (s : db) : db :=
  {| users := users s; tasks := tasks s; task_seq := task_seq s;
     submissions := submissions s; sub_seq := sub_seq s; verifiers := f (verifiers s);
     referrals := referrals s; uploads := uploads s |}.

Definition with_uploads (f : gmap string string -> gmap string string) (s : db) : db :=
  {| users := users s; tasks := tasks s; task_seq := task_seq s;
     submissions := submissions s; sub_seq := sub_seq s; verifiers := verifiers s;
     referrals := referrals s; uploads := f (uploads s) |}.

(** [INSERT INTO tasks ...]: [AUTOINCREMENT] hands out the id after the
    largest one ever used. *)
Definition insert_task (r : task_row) (s : db) : db :=
  with_tasks (insert (task_seq s + 1) r) (task_seq s + 1) s.

(** [DELETE FROM tasks WHERE task_id = ?] *)
Definition delete_task_row (tid : Z) (s : db) : db :=
  with_tasks (delete tid) (task_seq s) s.

(** [INSERT INTO task_submissions (user_id, task_id, file_path,
    submitted_at)]: [status] takes its default ['pending']. *)
Definition insert_submission (uid tid : Z) (fpath at_ : string) (s : db) : db :=
  with_submissions
    (insert (sub_seq s + 1)
       {| sub_user := uid; sub_task := tid; file_path := fpath; sub_status := Pending;
          submitted_at := at_; reviewed_by := None; review_reason := None |})
    (sub_seq s + 1) s.

(** [UPDATE task_submissions SET status = ?, reviewed_by = ?,
    review_reason = ? WHERE submission_id = ?] *)
Definition set_review (st : status) (by_ : Z) (reason : string) (r : submission_row)
    : submission_row :=
  {| sub_user := sub_user r; sub_task := sub_task r; file_path := file_path r;
     sub_status := st; submitted_at := submitted_at r; reviewed_by := Some by_;
     review_reason := Some reason |}.

Definition update_submission (sid : Z) (f : submission_row -> submission_row) (s : db) : db :=
  with_submissions (alter f sid) (sub_seq s) s.

(** ** File names *)

(** [datetime.strftime("%Y%m%d%H%M%S")]: every field is one of the
    whole second [t / 10^6]. *)
Definition strftime_compact (t : Z) : string :=
  let secs := t / us_per_second in
  let '(y, m, d) := civil_from_days (secs / 86400) in
  let sod := secs mod 86400 in
  (pad 4 y ++ pad 2 m ++ pad 2 d ++ pad 2 (sod / 3600) ++ pad 2 (sod / 60 mod 60)
    ++ pad 2 (sod mod 60))%string.

(** [PurePosixPath(p).name]: the last component that is neither empty
    nor ["."]. *)
Definition path_name (p : string) : string :=
  List.last (filter (fun w => negb (String.eqb w "" || String.eqb w ".")) (split_char "/" p)) "".

(** [PurePath.suffix]: [i = name.rfind("."); name[i:] if 0 < i <
    len(name) - 1 else ""]. *)
Definition path_suffix (p : string) : string :=
  let parts := split_char "." (path_name p) in
  let ext := List.last parts "" in
  match parts with
  | [] | [_] => ""
  | [w; _] => if String.eqb w "" || String.eqb ext "" then "" else ("." ++ ext)%string
  | _ => if String.eqb ext "" then "" else ("." ++ ext)%string
  end.

(** [s.endswith(c)] for one character [c] *)
Fixpoint ends_with (c : ascii) (s : string) : bool :=
  match s with
  | EmptyString => false
  | String x EmptyString => Ascii.eqb x c
  | String _ s' => ends_with c s'
  end.

(** [posixpath.join(a, b)]: [b] when it is absolute, else [a] and [b]
    with one ["/"] between them. *)
Definition path_join (a b : string) : string :=
  match b with
  | String "/" _ => b
  | _ => if String.eqb a "" || ends_with "/" a then (a ++ b)%string else (a ++ "/" ++ b)%string
  end.

(** [os.path.basename(p)]: the text after the last ["/"]. *)
Definition basename (p : string) : string := List.last (split_char "/" p) "".

(** [f"{uid}_{ts}{ext}"] with [ext = pathlib.Path(file.filename).suffix
    or ".jpg"] *)
Definition upload_name (uid : Z) (t : Z) (filename : string) : string :=
  (pretty uid ++ "_" ++ strftime_compact t ++ py_or (Some (path_suffix filename)) ".jpg")%string.

(** ** Replies *)

Inductive review_reply :=
  | ReviewAlready
  | ReviewAwarded (awarded : Z)
  | ReviewRejected.

(** The writes the second phase of a review makes. *)
Inductive review_write :=
  | WApprove (sid target reward by_ : Z) (reason : string)
  | WReject (sid by_ : Z) (reason : string).

(** ** [str.strip()] on UTF-8 text

    The JSON strings of a payload are Python [str]s; the model keeps
    their UTF-8 bytes.  [str.strip()] removes the code points for
    which [str.isspace] holds: [\t \n \v \f \r], the separators
    [\x1c]-[\x1f], the space, and [U+0085], [U+00A0], [U+1680],
    [U+2000]-[U+200A], [U+2028], [U+2029], [U+202F], [U+205F],
    [U+3000]. *)

(** The one-byte white space. *)
Definition is_space (c : ascii) : bool :=
  let n := nat_of_ascii c in ((9 <=? n) && (n <=? 13))%nat || ((28 <=? n) && (n <=? 32))%nat.

Definition byte_is (n : nat) (c : ascii) : bool := (nat_of_ascii c =? n)%nat.

(** The text after one white-space code point at the front of [s], if
    [s] starts with one: its UTF-8 encoding is one, two or three
    bytes. *)
Definition space_prefix (s : string) : option string :=
  match s with
  | String a s1 =>
      if is_space a then Some s1 else
      match s1 with
      | String b s2 =>
          if byte_is 194 a && (byte_is 133 b || byte_is 160 b) then Some s2 else
          match s2 with
          | String c s3 =>
              if (byte_is 225 a && byte_is 154 b && byte_is 128 c)
                 || (byte_is 226 a && byte_is 128 b &&
                     (((128 <=? nat_of_ascii c) && (nat_of_ascii c <=? 138))%nat ||
                      byte_is 168 c || byte_is 169 c || byte_is 175 c))
                 || (byte_is 226 a && byte_is 129 b && byte_is 159 c)
                 || (byte_is 227 a && byte_is 128 b && byte_is 128 c)
              then Some s3 else None
          | EmptyString => None
          end
      | EmptyString => None
      end
  | EmptyString => None
  end.

(** [str.lstrip()]: each round drops at least one byte, so the length
    of [s] is enough fuel. *)
Fixpoint lstrip_fuel (fuel : nat) (s : string) : string :=
  match fuel with
  | O => s
  | S fuel' => match space_prefix s with Some s' => lstrip_fuel fuel' s' | None => s end
  end.

Definition lstrip (s : string) : string := lstrip_fuel (String.length s) s.

(** [str.rstrip()], left to right: a white-space code point is dropped
    when only white space follows it.  A byte that starts no white space
    is kept alone; in UTF-8 the bytes after it are continuation bytes,
    which start no white space either, so code points stay aligned. *)
Fixpoint rstrip_fuel (fuel : nat) (s : string) : string :=
  match fuel with
  | O => s
  | S fuel' =>
      match space_prefix s, s with
      | Some s', _ =>
          let r := rstrip_fuel fuel' s' in
          if String.eqb r "" then EmptyString else (substring 0 (String.length s - String.length s') s ++ r)%string
      | None, String c s' => String c (rstrip_fuel fuel' s')
      | None, EmptyString => EmptyString
      end
  end.

Definition rstrip (s : string) : string := rstrip_fuel (String.length s) s.

Definition py_strip (s : string) : string := rstrip (lstrip s).

Definition is_admin (e : env) (uid : Z) : bool := py_in uid (admin_ids e).

(** ** A store under review, for the examples

    User [7] (the holder of [sample_token]) is an administrator in
    [staff_env]; user [9] submitted proof [1] for task [1], worth 50
    coins, and holds the boost expiry [bu]. *)
Definition staff_env (t : Z) : env :=
  {| bot_token := "tok"; bot_username := "X_Reward_Bot"; admin_ids := [7];
     channel_link := "https://t.me/chan"; upload_dir := "/data/uploads";
     is_member := fun _ => true; markdown_ok := fun _ => true; now := t |}.

Definition review_task : task_row :=
  {| title := "Follow"; description := "the channel"; link := "https://t.me/chan"; reward := 50 |}.

Definition review_db (bu : option string) (tk : gmap Z task_row) : db := {|
  users := {[9 := set_boost_until bu (new_user "sub" 0 None)]};
  tasks := tk; task_seq := 1;
  submissions := {[1 := {| sub_user := 9; sub_task := 1; file_path := "/data/uploads/9_1.jpg";
                           sub_status := Pending; submitted_at := "2023-11-14T22:13:20";
                           reviewed_by := None; review_reason := None |}]};
  sub_seq := 1; verifiers := ∅; referrals := ∅; uploads := ∅ |}.

(** ** Handlers *)

Section Handlers.
Context `{Crypto} `{JsonDecoder}.

(** [verify_init_data] (401 on failure), then [int(user.get("id"))]:
    the prologue of the handlers without the check for an empty
    [init_data]. *)
Definition session (e : env) (init_data : string) : result (Z * user_json) :=
  result_bind (authenticate e init_data) session_uid.

(** [POST /webapp/check_join] *)
Definition check_join (e : env) (init_data : string) : result (bool * string) :=
  result_bind (request_user e init_data "init_data required")
    (fun p => Ok (is_member e (fst p), channel_link e)).

(** FastAPI's answer to a required [Form(...)] field sent empty: a 422
    before the handler runs. *)
Definition form_field_required : http_error := HTTPException 422 "Field required".

(** [POST /webapp/submit_proof]: the file is written first, then the
    two [INSERT]s. *)
Definition submit_proof (e : env) (init_data : string) (task_id : Z) (filename content : string)
    : txn db unit :=
  if String.eqb init_data "" then traise form_field_required else
  p <- tlift (session e init_data) ;;
  let '(uid, user) := p in
  if negb (is_member e uid) then traise (HTTPException 403 "join_channel") else
  let fname := upload_name uid (now e) filename in
  tmodify (with_uploads (insert fname content)) ;;;
  tmodify (insert_or_ignore_user uid (new_user (display_name user uid) 0 None)) ;;;
  tmodify (insert_submission uid task_id (path_join (upload_dir e) fname) (isoformat (now e))).

Definition review_action_ok (action : string) : bool :=
  String.eqb action "approve" || String.eqb action "reject".

(** The first phase of [review_submission] (lines 290-321) on the store
    [s]: the guards, the [SELECT]s, the reward and the boost. *)
Definition review_plan (e : env) (init_data : string) (sub_id : Z) (action reason : string)
    (s : db) : result (option review_write * review_reply) :=
  if String.eqb init_data "" || (sub_id =? 0) || negb (review_action_ok action)
  then Err (HTTPException 400 "init_data, submission_id and valid action required") else
  result_bind (session e init_data) (fun p =>
  let uid := fst p in
  if negb (is_staff e s uid) then Err (HTTPException 403 "Not authorized") else
  match submissions s !! sub_id with
  | None => Err (HTTPException 404 "Not found")
  | Some row =>
      if negb (bool_decide (sub_status row = Pending)) then Ok (None, ReviewAlready)
      else if String.eqb action "approve" then
        let base := match tasks s !! sub_task row with Some t => reward t | None => 0 end in
        let boosted := match users s !! sub_user row with
                       | Some r => boost_is_active (boost_until r) (now e)
                       | None => false
                       end in
        let amount := if boosted then base * 2 else base in
        Ok (Some (WApprove sub_id (sub_user row) amount uid reason), ReviewAwarded amount)
      else Ok (Some (WReject sub_id uid reason), ReviewRejected)
  end).

(** The second phase (lines 322-331): the [UPDATE]s and the commit. *)
Definition review_apply (w : review_write) (s : db) : db :=
  match w with
  | WApprove sid target amount by_ reason =>
      update_submission sid (set_review Approved by_ reason)
        (update_user target (add_coins amount) s)
  | WReject sid by_ reason => update_submission sid (set_review Rejected by_ reason) s
  end.

(** [POST /webapp/review_submission]: both phases on one store. *)
Definition review_submission (e : env) (init_data : string) (sub_id : Z) (action reason : string)
    : txn db review_reply :=
  s <- tget ;;
  p <- tlift (review_plan e init_data sub_id action reason s) ;;
  match fst p with Some w => tmodify (review_apply w) | None => tret tt end ;;;
  tret (snd p).

(** [POST /webapp/add_task] *)
Definition add_task (e : env) (init_data title_ description_ link_ : string) (reward_ : Z)
    : txn db unit :=
  if String.eqb init_data "" || String.eqb (py_strip title_) "" || (reward_ <=? 0)
  then traise (HTTPException 400 "init_data, title and positive reward required") else
  p <- tlift (session e init_data) ;;
  if negb (is_admin e (fst p)) then traise (HTTPException 403 "Not authorized") else
  tmodify (insert_task {| title := py_strip title_; description := py_strip description_;
                          link := py_strip link_; reward := reward_ |}).

(** [POST /webapp/delete_task]; a missing [task_id] is [0]. *)
Definition delete_task (e : env) (init_data : string) (task_id : Z) : txn db unit :=
  if String.eqb init_data "" || (task_id =? 0)
  then traise (HTTPException 400 "init_data and task_id required") else
  p <- tlift (session e init_data) ;;
  if negb (is_admin e (fst p)) then traise (HTTPException 403 "Not authorized") else
  tmodify (delete_task_row task_id).

(** [POST /webapp/add_verifier] *)
Definition add_verifier (e : env) (init_data : string) (vid : Z) : txn db unit :=
  if String.eqb init_data "" || (vid =? 0)
  then traise (HTTPException 400 "init_data and verifier_id required") else
  p <- tlift (session e init_data) ;;
  if negb (is_admin e (fst p)) then traise (HTTPException 403 "Not authorized") else
  tmodify (with_verifiers (fun v => {[vid]} ∪ v)).

(** [POST /webapp/remove_verifier] *)
Definition remove_verifier (e : env) (init_data : string) (vid : Z) : txn db unit :=
  if String.eqb init_data "" || (vid =? 0)
  then traise (HTTPException 400 "init_data and verifier_id required") else
  p <- tlift (session e init_data) ;;
  if negb (is_admin e (fst p)) then traise (HTTPException 403 "Not authorized") else
  tmodify (with_verifiers (fun v => v ∖ {[vid]})).

End Handlers.

(** ** Lemmas on [str.strip()]: the fuel is enough *)

Lemma space_prefix_shorter s s' : space_prefix s = Some s' -> (String.length s' < String.length s)%nat.
Proof.
  unfold space_prefix. destruct s as [|a [|b [|c s3]]]; [done|..];
    repeat case_if; intros [= <-]; cbn [String.length]; lia.
Qed.

(** [lstrip_fuel] gives the same text for any fuel at least the
    length. *)
Lemma lstrip_fuel_enough n m s :
  (String.length s <= n)%nat -> (String.length s <= m)%nat -> lstrip_fuel n s = lstrip_fuel m s.
Proof.
  revert m s. induction n as [|n IH]; intros [|m] s Hn Hm; [done|..].
  - destruct s; [|cbn in Hn; lia]. done.
  - destruct s; [|cbn in Hm; lia]. done.
  - cbn [lstrip_fuel]. destruct (space_prefix s) as [s'|] eqn:E; [|done].
    apply space_prefix_shorter in E. apply IH; lia.
Qed.

Lemma rstrip_fuel_enough n m s :
  (String.length s <= n)%nat -> (String.length s <= m)%nat -> rstrip_fuel n s = rstrip_fuel m s.
Proof.
  revert m s. induction n as [|n IH]; intros [|m] s Hn Hm; [done|..].
  - destruct s; [|cbn in Hn; lia]. done.
  - destruct s; [|cbn in Hm; lia]. done.
  - cbn [rstrip_fuel]. destruct (space_prefix s) as [s'|] eqn:E.
    + apply space_prefix_shorter in E. rewrite (IH m s') by lia. done.
    + destruct s as [|c s']; [done|]. cbn [String.length] in Hn, Hm. by rewrite (IH m s') by lia.
Qed.

(** ** Lemmas on file names *)

(** A piece of [split_char sep s] holds a character only if [s] does. *)
Lemma split_char_piece sep c s w :
  w ∈ split_char sep s -> has_char c w = true -> has_char c s = true.
Proof.
  revert w. induction s as [|x s IH]; intros w; simpl.
  - intros ->%list_elem_of_singleton. discriminate.
  - destruct (Ascii.eqb x sep); [intros [->|Hw]%elem_of_cons; [discriminate|]|];
      [intros Hc; rewrite (IH w Hw Hc); apply orb_true_r|].
    destruct (split_char sep s) as [|w0 ws] eqn:E.
    + intros ->%list_elem_of_singleton Hc. simpl in Hc. rewrite orb_false_r in Hc. by rewrite Hc.
    + intros [->|Hw]%elem_of_cons; simpl; intros Hc.
      * apply orb_true_iff in Hc as [->|Hc]; [done|]. rewrite (IH w0 (list_elem_of_here _ _) Hc).
        apply orb_true_r.
      * rewrite (IH w (list_elem_of_further _ _ _ Hw) Hc). apply orb_true_r.
Qed.

Lemma split_char_piece_no_sep sep s w : w ∈ split_char sep s -> has_char sep w = false.
Proof.
  revert w. induction s as [|x s IH]; intros w; simpl; [by intros ->%list_elem_of_singleton|].
  destruct (Ascii.eqb x sep) eqn:Ex; [intros [->|Hw]%elem_of_cons; auto|].
  destruct (split_char sep s) as [|w0 ws] eqn:E.
  - intros ->%list_elem_of_singleton. simpl. rewrite orb_false_r.
    apply Ascii.eqb_neq. intros <-. by rewrite Ascii.eqb_refl in Ex.
  - intros [->|Hw]%elem_of_cons; [|apply (IH w); by apply list_elem_of_further].
    simpl. rewrite (IH w0 (list_elem_of_here _ _)).
    rewrite orb_false_r. apply Ascii.eqb_neq. intros <-. by rewrite Ascii.eqb_refl in Ex.
Qed.

Lemma last_elem_of {A} (l : list A) (d x : A) : List.last l d = x -> x = d \/ x ∈ l.
Proof.
  induction l as [|a l IH]; simpl; [auto|]. destruct l as [|b l].
  - intros ->. right. apply list_elem_of_here.
  - intros Hx. destruct (IH Hx) as [?|?]; [auto|]. right. by apply list_elem_of_further.
Qed.

(** Splits on the last element of a list in the goal: the default, or
    a member [Hw]. *)
Ltac case_last Hw :=
  match goal with
  | |- context [List.last ?l ?d] => destruct (last_elem_of l d _ eq_refl) as [->|Hw]
  end.

Lemma path_name_no_char c p : has_char c p = false -> has_char c (path_name p) = false.
Proof.
  intros Hp. unfold path_name.
  case_last Hw; [done|].
  apply list_elem_of_filter in Hw as [_ Hw]. apply not_true_is_false. intros Hc.
  rewrite (split_char_piece _ _ _ _ Hw Hc) in Hp. discriminate.
Qed.

Lemma path_name_no_slash p : has_char "/" (path_name p) = false.
Proof.
  unfold path_name. case_last Hw; [done|].
  apply list_elem_of_filter in Hw as [_ Hw]. by apply split_char_piece_no_sep in Hw.
Qed.

Lemma path_suffix_no_slash p : has_char "/" (path_suffix p) = false.
Proof.
  unfold path_suffix. pose proof (path_name_no_slash p) as Hn.
  assert (He : has_char "/" (List.last (split_char "." (path_name p)) "") = false).
  { case_last Hw; [done|]. apply not_true_is_false. intros Hc.
    by rewrite (split_char_piece _ _ _ _ Hw Hc) in Hn. }
  repeat case_match; try done; case_if; done.
Qed.

Lemma has_char_pretty_N_go c x s :
  (forall d, pretty_N_char d <> c) -> has_char c (pretty_N_go x s) = has_char c s.
Proof.
  intros Hc. revert s. induction (N.lt_wf_0 x) as [x _ IH]; intros s.
  destruct (decide (x = 0)%N) as [->|Hx]; [by rewrite pretty_N_go_0|].
  rewrite pretty_N_go_step by lia. rewrite IH by (apply N.div_lt; lia). simpl.
  destruct (Ascii.eqb_spec (pretty_N_char (x `mod` 10)) c); [by exfalso; eapply Hc|done].
Qed.

(** [str(z)] holds digits and a sign only. *)
Lemma has_char_pretty (c : ascii) (z : Z) :
  (forall d, pretty_N_char d <> c) -> c <> "-"%char -> has_char c (pretty z) = false.
Proof.
  intros Hc Hm. destruct z as [|p|p].
  - change (pretty 0%Z) with "0"%string. cbn [has_char]. rewrite orb_false_r.
    destruct (Ascii.eqb_spec "0" c) as [<-|]; [exfalso; by apply (Hc 0%N)|done].
  - change (pretty (Zpos p)) with (pretty_N_go (Npos p) ""). by rewrite has_char_pretty_N_go.
  - change (pretty (Zneg p)) with (String "-" (pretty_N_go (Npos p) "")). cbn [has_char].
    rewrite has_char_pretty_N_go by done. cbn [has_char]. rewrite orb_false_r. destruct (Ascii.eqb_spec "-" c); [congruence|done].
Qed.

Lemma has_char_pretty_Z (z : Z) : has_char "/" (pretty z) = false.
Proof. apply has_char_pretty; [intros d; unfold pretty_N_char; by repeat case_match|done]. Qed.

Lemma strftime_day t : t / us_per_second / 86400 = day_of t.
Proof. unfold day_of, us_per_second. rewrite Z.div_div by lia. reflexivity. Qed.

Lemma has_char_strftime c t :
  (N_of_ascii c < 48 \/ 57 < N_of_ascii c)%N -> in_range t -> has_char c (strftime_compact t) = false.
Proof.
  intros Hc. unfold in_range, year_of, strftime_compact. rewrite strftime_day.
  destruct (civil_from_days (day_of t)) as [[y m] d] eqn:E.
  apply civil_from_days_spec in E as (_ & Hm & Hd). intros Hy.
  pose proof (days_in_month_le y m).
  pose proof (Z.mod_pos_bound (t / us_per_second) 86400 ltac:(lia)).
  rewrite !has_char_app, !has_char_pad by (done || (cbn; zlia)). done.
Qed.

(** The name [submit_proof] gives a file is a plain file name. *)
Lemma upload_name_no_slash uid t filename :
  in_range t -> has_char "/" (upload_name uid t filename) = false.
Proof.
  intros Ht. unfold upload_name, py_or.
  rewrite !has_char_app, has_char_pretty_Z, has_char_strftime by (done || (cbn; lia)).
  case_if; [done|]. apply path_suffix_no_slash.
Qed.

Lemma ends_with_app c a : ends_with c a = true -> exists a', a = (a' ++ String c "")%string.
Proof.
  induction a as [|x a IH]; [done|]. destruct a as [|y a].
  - intros ->%Ascii.eqb_eq. by exists "".
  - intros (a' & E)%IH. exists (String x a'). by rewrite string_app_cons, <- E.
Qed.

(** [split_char] of a text with a separator before its tail [b]: the
    pieces of the head, then those of [b]. *)
Lemma split_char_sep_app sep a b :
  exists w ws, split_char sep (a ++ String sep b) = w :: ws ++ split_char sep b.
Proof.
  induction a as [|x a IH]; simpl.
  - rewrite Ascii.eqb_refl. by exists "", [].
  - destruct IH as (w & ws & ->). case_if; [by exists "", (w :: ws)|]. by exists (String x w), ws.
Qed.

Lemma last_app_cons {A} (l1 l2 : list A) (x d : A) :
  l2 <> [] -> List.last (x :: l1 ++ l2) d = List.last l2 d.
Proof.
  intros Hl2. revert x. induction l1 as [|y l1 IH]; intros x; simpl.
  - by destruct l2.
  - rewrite <- (IH y). by destruct l1, l2.
Qed.

Lemma split_char_nonempty sep s : split_char sep s <> [].
Proof. destruct s; simpl; [done|]. case_if; [done|]. by case_match. Qed.

(** [os.path.basename(os.path.join(a, b))] is [b] when [b] is a plain
    file name. *)
Lemma basename_path_join a b :
  b <> "" -> has_char "/" b = false -> basename (path_join a b) = b.
Proof.
  intros Hb Hs. unfold basename.
  assert (Hl : forall a', List.last (split_char "/" (a' ++ String "/" b)) "" = b).
  { intros a'. destruct (split_char_sep_app "/" a' b) as (w & ws & ->).
    rewrite last_app_cons by apply split_char_nonempty. by rewrite split_char_no_sep. }
  destruct b as [|x b']; [done|]. unfold path_join.
  destruct (Ascii.eqb_spec x "/") as [->|Hx]; [simpl in Hs; discriminate|].
  assert (Hb' : match String x b' with String "/" _ => String x b' | _ =>
    if String.eqb a "" || ends_with "/" a then (a ++ String x b')%string
    else (a ++ "/" ++ String x b')%string end =
    if String.eqb a "" || ends_with "/" a then (a ++ String x b')%string
    else (a ++ "/" ++ String x b')%string) by (repeat case_match; congruence).
  rewrite Hb'. case_if.
  - apply orb_true_iff in E as [->%String.eqb_eq|(a' & ->)%ends_with_app].
    + rewrite string_app_nil_l. by rewrite split_char_no_sep.
    + rewrite string_app_assoc, string_app_cons, string_app_nil_l. apply Hl.
  - apply Hl.
Qed.

(** ** Lemmas on the statements *)

Lemma submissions_update_user k f s : submissions (update_user k f s) = submissions s.
Proof. reflexivity. Qed.

Lemma users_update_submission sid f s : users (update_submission sid f s) = users s.
Proof. reflexivity. Qed.

Lemma lookup_update_submission_eq sid f s :
  submissions (update_submission sid f s) !! sid = f <$> submissions s !! sid.
Proof. apply lookup_alter_eq. Qed.

Lemma lookup_update_submission_ne sid sid' f s :
  sid <> sid' -> submissions (update_submission sid f s) !! sid' = submissions s !! sid'.
Proof. intros Hne. apply lookup_alter_ne. done. Qed.

#[export] Hint Rewrite submissions_update_user users_update_submission
  lookup_update_submission_eq : minibot_rw.

Section Review.
Context `{Crypto} `{JsonDecoder}.

Lemma review_submission_spec e init sid act rsn s :
  review_submission e init sid act rsn s =
    match review_plan e init sid act rsn s with
    | Err err => Err err
    | Ok (None, r) => Ok (s, r)
    | Ok (Some w, r) => Ok (review_apply w s, r)
    end.
Proof.
  unfold review_submission. rewrite tbind_tget.
  by destruct (review_plan e init sid act rsn s) as [[[w|] r]|err].
Qed.

(** Past its guards, the first phase reads the submission. *)
Lemma review_plan_ok e init sid act rsn s res :
  review_plan e init sid act rsn s = Ok res ->
  exists uid u row, session e init = Ok (uid, u) /\ submissions s !! sid = Some row /\
    (sub_status row <> Pending /\ res = (None, ReviewAlready) \/
     sub_status row = Pending /\ exists w a st, res = (Some w, a) /\ st <> Pending /\
       submissions (review_apply w s) !! sid = Some (set_review st uid rsn row)).
Proof.
  unfold review_plan. intros Hres.
  case_if_in Hres; [done|]. destruct (session e init) as [[uid u]|err]; [|done]. simpl in Hres.
  case_if_in Hres; [done|]. destruct (submissions s !! sid) as [row|] eqn:Hrow; [|done].
  exists uid, u, row. split_and!; [done..|].
  case_bool_decide as Hp; simpl in Hres; [|left; split; [done|]; by injection Hres as <-].
  right. split; [done|]. case_if_in Hres; injection Hres as <-; do 3 eexists; split_and!;
    [done|by instantiate (1 := Approved)| |done|by instantiate (1 := Rejected)|];
    cbn [review_apply]; by rewrite lookup_update_submission_eq, ?submissions_update_user, Hrow.
Qed.

(** A reviewed submission is answered [already reviewed], whoever asks. *)
Lemma review_plan_reviewed e init sid act rsn s row res :
  submissions s !! sid = Some row -> sub_status row <> Pending ->
  review_plan e init sid act rsn s = Ok res -> res = (None, ReviewAlready).
Proof.
  intros Hrow Hst (uid & u & row' & _ & Hrow' & [[_ ?]|[Hp _]])%review_plan_ok; [done|].
  rewrite Hrow in Hrow'. by injection Hrow' as <-.
Qed.

(** An empty [init_data] fails verification. *)
Lemma session_nonempty e init p : session e init = Ok p -> init <> "".
Proof. intros Hs ->. discriminate Hs. Qed.

(** The statements of a proof submitted by a member. *)
Lemma submit_proof_spec e init tid fn content s uid u :
  session e init = Ok (uid, u) -> is_member e uid = true ->
  submit_proof e init tid fn content s =
    Ok (insert_submission uid tid (path_join (upload_dir e) (upload_name uid (now e) fn))
          (isoformat (now e))
          (insert_or_ignore_user uid (new_user (display_name u uid) 0 None)
             (with_uploads (insert (upload_name uid (now e) fn) content) s)), tt).
Proof.
  intros Hs Hm. unfold submit_proof.
  rewrite (proj2 (String.eqb_neq _ _) (session_nonempty _ _ _ Hs)). rewrite (tbind_tlift_ok _ _ _ _ Hs). cbv beta iota.
  rewrite Hm. cbv beta iota zeta delta [negb]. by rewrite !tbind_tmodify.
Qed.

Lemma strftime_same_second t t' :
  t / us_per_second = t' / us_per_second -> strftime_compact t = strftime_compact t'.
Proof. unfold strftime_compact. by intros ->. Qed.

Lemma upload_name_nonempty uid t fn : upload_name uid t fn <> "".
Proof.
  unfold upload_name. intros (_ & E)%string_app_eq_empty. by rewrite string_app_cons in E.
Qed.

Lemma has_char_app_cons c a b : has_char c (a ++ String c b)%string = true.
Proof.
  induction a as [|c' a IH].
  - rewrite string_app_nil_l. cbn [has_char]. by rewrite Ascii.eqb_refl.
  - rewrite string_app_cons. cbn [has_char]. by rewrite IH, orb_true_r.
Qed.

(** An upload name holds a ["_"], so it is neither ["."] nor [".."]. *)
Lemma upload_name_not_dots uid t fn : upload_name uid t fn <> "." /\ upload_name uid t fn <> "..".
Proof.
  pose proof (has_char_app_cons "_" (pretty uid) (strftime_compact t ++ py_or (Some (path_suffix fn)) ".jpg"))
    as Hu. unfold upload_name. rewrite (string_app_cons "_"), string_app_nil_l.
  split; intros E; rewrite E in Hu; discriminate Hu.
Qed.

Lemma lookup_insert_submission_new uid tid p at_ s :
  submissions (insert_submission uid tid p at_ s) !! (sub_seq s + 1) =
    Some {| sub_user := uid; sub_task := tid; file_path := p; sub_status := Pending;
            submitted_at := at_; reviewed_by := None; review_reason := None |}.
Proof. apply lookup_insert_eq. Qed.

Lemma lookup_insert_submission_old uid tid p at_ s sid :
  sid <> sub_seq s + 1 ->
  submissions (insert_submission uid tid p at_ s) !! sid = submissions s !! sid.
Proof. intros Hne. apply lookup_insert_ne. lia. Qed.

Lemma submissions_insert_or_ignore_user k x s :
  submissions (insert_or_ignore_user k x s) = submissions s.
Proof. unfold insert_or_ignore_user. by case_match. Qed.

Lemma sub_seq_insert_or_ignore_user k x s : sub_seq (insert_or_ignore_user k x s) = sub_seq s.
Proof. unfold insert_or_ignore_user. by case_match. Qed.

Lemma uploads_insert_or_ignore_user k x s : uploads (insert_or_ignore_user k x s) = uploads s.
Proof. unfold insert_or_ignore_user. by case_match. Qed.

(** The administrator check of the task and verifier handlers refuses
    a caller who is not an administrator. *)
Lemma admin_gate {A} e init uid u (k : Z * user_json -> txn db A) err s :
  session e init = Ok (uid, u) -> is_admin e uid = false ->
  (p <- tlift (session e init) ;; if negb (is_admin e (fst p)) then traise err else k p) s = Err err.
Proof.
  intros Hs Ha. rewrite (tbind_tlift_ok _ _ _ _ Hs). cbv beta.
  change (fst (uid, u)) with uid. by rewrite Ha.
Qed.

(** The guards of a review with a valid action let it through. *)
Lemma review_guards_pass init sid act :
  init <> "" -> sid <> 0 -> review_action_ok act = true ->
  String.eqb init "" || (sid =? 0) || negb (review_action_ok act) = false.
Proof.
  intros Hi Hs Ha. rewrite Ha, (proj2 (String.eqb_neq _ _) Hi), (proj2 (Z.eqb_neq _ _) Hs).
  reflexivity.
Qed.

(** An approval by a reviewer of a pending submission: the amount is
    the task's reward, doubled when the submitter's boost is active. *)
Lemma review_plan_approve e init sid rsn s uid u row :
  init <> "" -> sid <> 0 -> session e init = Ok (uid, u) -> is_staff e s uid = true ->
  submissions s !! sid = Some row -> sub_status row = Pending ->
  let base := match tasks s !! sub_task row with Some t => reward t | None => 0 end in
  let boosted := match users s !! sub_user row with
                 | Some r => boost_is_active (boost_until r) (now e)
                 | None => false
                 end in
  let amount := if boosted then base * 2 else base in
  review_plan e init sid "approve" rsn s =
    Ok (Some (WApprove sid (sub_user row) amount uid rsn), ReviewAwarded amount).
Proof.
  intros Hi Hs Hu Hstaff Hrow Hp. unfold review_plan.
  rewrite review_guards_pass by done. rewrite Hu. simpl. rewrite Hstaff, Hrow. simpl.
  by rewrite bool_decide_true.
Qed.

End Review.

#[export] Hint Rewrite submissions_insert_or_ignore_user sub_seq_insert_or_ignore_user
  uploads_insert_or_ignore_user : minibot_rw.

Section Theorems.
Context `{Crypto} `{JsonDecoder}.

(** C16: Run one after the other, reviews of a submission pay at most
    once: after a review that approved or rejected it, every later
    review of it, by any reviewer and with any action, answers
    [already reviewed] and writes nothing. *)
Theorem review_at_most_once e init sid act rsn s s' a e' init' act' rsn' res :
  review_submission e init sid act rsn s = Ok (s', a) -> a <> ReviewAlready ->
  review_submission e' init' sid act' rsn' s' = Ok res -> res = (s', ReviewAlready).
Proof.
  rewrite !review_submission_spec. intros H1 Ha.
  destruct (review_plan e init sid act rsn s) as [res1|] eqn:Hp; [|done].
  destruct (review_plan_ok _ _ _ _ _ _ _ Hp)
    as (uid & u & row & _ & _ & [[_ ->]|[_ (w & a1 & st & -> & Hst & Hw)]]);
    [by injection H1 as <- <-|injection H1 as <- <-].
  destruct (review_plan e' init' sid act' rsn' _) as [res2|] eqn:Hp'; [|done].
  by rewrite (review_plan_reviewed _ _ _ _ _ _ _ _ Hw Hst Hp'); intros [= <-].
Qed.

(** C11: Approving a pending submission pays its task's reward, twice
    the reward when the submitter's boost is active at the time of the
    review, credits it to the submitter and marks the submission
    approved by the reviewer (spec sections 4.3 and 4.5). *)
Theorem review_approve_boost e init sid rsn s uid u row t x :
  init <> "" -> sid <> 0 -> session e init = Ok (uid, u) -> is_staff e s uid = true ->
  submissions s !! sid = Some row -> sub_status row = Pending ->
  tasks s !! sub_task row = Some t -> users s !! sub_user row = Some x ->
  let amount := if boost_is_active (boost_until x) (now e) then 2 * reward t else reward t in
  exists s', review_submission e init sid "approve" rsn s = Ok (s', ReviewAwarded amount) /\
    users s' !! sub_user row = Some (add_coins amount x) /\
    submissions s' !! sid = Some (set_review Approved uid rsn row).
Proof.
  intros Hi Hs Hu Hstaff Hrow Hp Ht Hx amount.
  rewrite review_submission_spec, (review_plan_approve e init sid rsn s uid u row) by done.
  cbv zeta. rewrite Ht, Hx.
  replace (if boost_is_active (boost_until x) (now e) then reward t * 2 else reward t) with amount
    by (unfold amount; case_if; lia).
  eexists. split; [reflexivity|]. cbn [review_apply].
  rewrite users_update_submission, lookup_update_user_eq, Hx, lookup_update_submission_eq.
  by rewrite submissions_update_user, Hrow.
Qed.

(** C27: Approving a submission whose task was deleted pays nothing: the
    reply is [awarded: 0], the submitter's row is unchanged and the
    submission is closed as approved. *)
Theorem review_deleted_task_pays_zero e init sid rsn s uid u row :
  init <> "" -> sid <> 0 -> session e init = Ok (uid, u) -> is_staff e s uid = true ->
  submissions s !! sid = Some row -> sub_status row = Pending -> tasks s !! sub_task row = None ->
  exists s', review_submission e init sid "approve" rsn s = Ok (s', ReviewAwarded 0) /\
    users s' = users s /\ submissions s' !! sid = Some (set_review Approved uid rsn row).
Proof.
  intros Hi Hs Hu Hstaff Hrow Hp Ht.
  rewrite review_submission_spec, (review_plan_approve e init sid rsn s uid u row) by done.
  cbv zeta. rewrite Ht, Z.mul_0_l, if_same.
  eexists. split; [reflexivity|]. cbn [review_apply]. split.
  - rewrite users_update_submission. unfold update_user; simpl. apply alter_id.
    intros [] _. unfold add_coins, set_coins; simpl. by rewrite Z.add_0_r.
  - by rewrite lookup_update_submission_eq, submissions_update_user, Hrow.
Qed.

(** A member's proof is stored as a new [pending] submission under the
    next id; its file is written under a plain, non-empty file name (no
    ["/"]), the [basename] of the submission's [file_path]. *)
Lemma submit_proof_creates e init tid fn content s uid u :
  session e init = Ok (uid, u) -> is_member e uid = true -> in_range (now e) ->
  exists s' row, submit_proof e init tid fn content s = Ok (s', tt) /\
    submissions s' !! (sub_seq s + 1) = Some row /\
    sub_user row = uid /\ sub_task row = tid /\ sub_status row = Pending /\
    basename (file_path row) <> "" /\ has_char "/" (basename (file_path row)) = false /\
    basename (file_path row) <> "." /\ basename (file_path row) <> ".." /\
    uploads s' !! basename (file_path row) = Some content.
Proof.
  intros Hs Hm Hr. rewrite (submit_proof_spec e init tid fn content s uid u Hs Hm).
  do 2 eexists. split; [reflexivity|]. unfold insert_submission at 1.
  simpl submissions. rewrite submissions_insert_or_ignore_user. simpl sub_seq.
  rewrite sub_seq_insert_or_ignore_user. split; [apply lookup_insert_eq|]. simpl.
  rewrite basename_path_join by (apply upload_name_nonempty || by apply upload_name_no_slash).
  split_and!; [done..|apply upload_name_nonempty|by apply upload_name_no_slash
              |apply upload_name_not_dots|apply upload_name_not_dots|].
  rewrite uploads_insert_or_ignore_user. apply lookup_insert_eq.
Qed.

(** C28: Two proofs a user submits within one second with the same file
    extension get the same file name: the second upload replaces the
    file of the first submission, which then serves the second content
    (spec section 5 says stored proofs are never mutated). *)
Theorem submit_same_second_overwrites e1 e2 i1 i2 tid1 tid2 fn1 fn2 c1 c2 s s1 s2 uid u1 u2 :
  session e1 i1 = Ok (uid, u1) -> is_member e1 uid = true ->
  session e2 i2 = Ok (uid, u2) -> is_member e2 uid = true ->
  in_range (now e1) -> now e1 / us_per_second = now e2 / us_per_second ->
  path_suffix fn1 = path_suffix fn2 -> upload_dir e1 = upload_dir e2 ->
  submit_proof e1 i1 tid1 fn1 c1 s = Ok (s1, tt) -> submit_proof e2 i2 tid2 fn2 c2 s1 = Ok (s2, tt) ->
  exists r1 r2, submissions s2 !! (sub_seq s + 1) = Some r1 /\
    submissions s2 !! (sub_seq s + 2) = Some r2 /\
    file_path r1 = file_path r2 /\ uploads s2 !! basename (file_path r1) = Some c2.
Proof.
  intros Hs1 Hm1 Hs2 Hm2 Hr Ht Hx Hd.
  rewrite (submit_proof_spec _ _ _ _ _ _ _ _ Hs1 Hm1). intros [= <-].
  rewrite (submit_proof_spec _ _ _ _ _ _ _ _ Hs2 Hm2). intros [= <-].
  assert (Hn : upload_name uid (now e2) fn2 = upload_name uid (now e1) fn1)
    by (unfold upload_name; by rewrite Hx, (strftime_same_second (now e2) (now e1))).
  rewrite Hn, <- Hd. do 2 eexists. unfold insert_submission at 1 2.
  simpl. autorewrite with minibot_rw. simpl.
  replace (sub_seq s + 2) with (sub_seq s + 1 + 1) by lia.
  rewrite lookup_insert_eq, lookup_insert_ne, lookup_insert_eq by lia. split_and!; [done..|].
  simpl. rewrite basename_path_join by (apply upload_name_nonempty || by apply upload_name_no_slash).
  apply lookup_insert_eq.
Qed.

(** C12: Only an administrator adds or deletes tasks and adds or removes
    verifiers, and only an administrator or a verifier reviews: any other
    authenticated caller gets [403 Not authorized] and no write. *)
Theorem privileged_handlers_refuse e init s uid u :
  init <> "" -> session e init = Ok (uid, u) -> is_admin e uid = false ->
  (forall t d l r, 0 < r -> py_strip t <> "" ->
     add_task e init t d l r s = Err (HTTPException 403 "Not authorized")) /\
  (forall tid, tid <> 0 -> delete_task e init tid s = Err (HTTPException 403 "Not authorized")) /\
  (forall v, v <> 0 -> add_verifier e init v s = Err (HTTPException 403 "Not authorized")) /\
  (forall v, v <> 0 -> remove_verifier e init v s = Err (HTTPException 403 "Not authorized")) /\
  (uid ∉ verifiers s -> forall sid act rsn, sid <> 0 -> review_action_ok act = true ->
     review_submission e init sid act rsn s = Err (HTTPException 403 "Not authorized")).
Proof.
  intros Hi Hs Ha. pose proof (proj2 (String.eqb_neq _ _) Hi) as Hi'.
  split_and!; intros *.
  - intros Hr%Z.leb_gt Ht%String.eqb_neq. unfold add_task. rewrite Hi', Ht, Hr. 
    cbv beta iota delta [orb]. by eapply admin_gate.
  - intros Ht%Z.eqb_neq. unfold delete_task. rewrite Hi', Ht. 
    cbv beta iota delta [orb]. by eapply admin_gate.
  - intros Hv%Z.eqb_neq. unfold add_verifier. rewrite Hi', Hv. 
    cbv beta iota delta [orb]. by eapply admin_gate.
  - intros Hv%Z.eqb_neq. unfold remove_verifier. rewrite Hi', Hv. 
    cbv beta iota delta [orb]. by eapply admin_gate.
  - intros Hv sid act rsn Hsid Hact. rewrite review_submission_spec. unfold review_plan.
    rewrite review_guards_pass, Hs by done. simpl. unfold is_staff.
    unfold is_admin in Ha. by rewrite Ha, bool_decide_false.
Qed.

End Theorems.

(** ** The theorems at concrete inputs *)

Lemma review_at_most_once_witness :
  exists s', @review_submission toy_crypto toy_json (staff_env sample_now) sample_token 1
               "approve" "ok" (review_db None {[1 := review_task]}) = Ok (s', ReviewAwarded 50) /\
    @review_submission toy_crypto toy_json (staff_env (sample_now + 1)) sample_token 1
      "reject" "late" s' = Ok (s', ReviewAlready).
Proof.
  destruct (@review_submission toy_crypto toy_json (staff_env sample_now) sample_token 1
              "approve" "ok" (review_db None {[1 := review_task]})) as [[s' a]|err] eqn:E1;
    [|vm_compute in E1; discriminate].
  assert (Ha : a = ReviewAwarded 50) by (vm_compute in E1; congruence). subst a.
  exists s'. split; [reflexivity|].
  destruct (@review_submission toy_crypto toy_json (staff_env (sample_now + 1)) sample_token 1
              "reject" "late" s') as [res|err] eqn:E2.
  - rewrite (@review_at_most_once toy_crypto toy_json _ _ _ _ _ _ _ _ _ _ _ _ _ E1 ltac:(discriminate) E2).
    reflexivity.
  - vm_compute in E1. injection E1 as <-. vm_compute in E2. discriminate.
Defined.

Lemma review_approve_boost_witness :
  exists s', @review_submission toy_crypto toy_json (staff_env (sample_now + 1)) sample_token 1
               "approve" "ok" (review_db (Some (boost_stamp sample_now)) {[1 := review_task]}) =
             Ok (s', ReviewAwarded 100) /\
    users s' !! 9 = Some (add_coins 100 (set_boost_until (Some (boost_stamp sample_now))
                                         (new_user "sub" 0 None))).
Proof.
  destruct (@review_approve_boost toy_crypto toy_json (staff_env (sample_now + 1)) sample_token 1 "ok"
    (review_db (Some (boost_stamp sample_now)) {[1 := review_task]}) 7 sample_user
    {| sub_user := 9; sub_task := 1; file_path := "/data/uploads/9_1.jpg"; sub_status := Pending;
       submitted_at := "2023-11-14T22:13:20"; reviewed_by := None; review_reason := None |}
    review_task (set_boost_until (Some (boost_stamp sample_now)) (new_user "sub" 0 None)))
    as (s' & E & Hu & _); [discriminate|discriminate|vm_compute; reflexivity..|].
  assert (Hb : boost_is_active (boost_until (set_boost_until (Some (boost_stamp sample_now))
                 (new_user "sub" 0 None))) (now (staff_env (sample_now + 1))) = true)
    by (vm_compute; reflexivity).
  rewrite Hb in E, Hu. exists s'. split; [exact E|exact Hu].
Defined.

Lemma review_deleted_task_pays_zero_witness :
  exists s', @review_submission toy_crypto toy_json (staff_env sample_now) sample_token 1
               "approve" "ok" (review_db None ∅) = Ok (s', ReviewAwarded 0) /\
    users s' = users (review_db None ∅) /\
    submissions s' !! 1 = Some (set_review Approved 7 "ok"
      {| sub_user := 9; sub_task := 1; file_path := "/data/uploads/9_1.jpg"; sub_status := Pending;
         submitted_at := "2023-11-14T22:13:20"; reviewed_by := None; review_reason := None |}).
Proof.
  apply (@review_deleted_task_pays_zero toy_crypto toy_json (staff_env sample_now) sample_token 1 "ok"
    (review_db None ∅) 7 sample_user); [discriminate|discriminate|vm_compute; reflexivity..].
Defined.

Lemma submit_proof_creates_witness :
  exists s' row, @submit_proof toy_crypto toy_json (sample_env sample_now true) sample_token 1
                   "shots/proof.png" "PNG-BYTES" empty_db = Ok (s', tt) /\
    submissions s' !! 1 = Some row /\ sub_user row = 7 /\ sub_task row = 1 /\
    sub_status row = Pending /\ basename (file_path row) <> "" /\
    has_char "/" (basename (file_path row)) = false /\
    basename (file_path row) <> "." /\ basename (file_path row) <> ".." /\
    uploads s' !! basename (file_path row) = Some "PNG-BYTES".
Proof.
  apply (@submit_proof_creates toy_crypto toy_json (sample_env sample_now true) sample_token 1
    "shots/proof.png" "PNG-BYTES" empty_db 7 sample_user);
    [vm_compute; reflexivity|reflexivity|apply in_rangeb_spec; vm_compute; reflexivity].
Defined.

Lemma submit_same_second_overwrites_witness :
  exists r1 r2,
    submissions (with_submissions id 0 empty_db) !! 1 = None /\
    match @submit_proof toy_crypto toy_json (sample_env sample_now true) sample_token 1 "a.jpg" "first"
            empty_db with
    | Ok (s1, _) =>
        match @submit_proof toy_crypto toy_json (sample_env (sample_now + 500000) true) sample_token 2
                "b.jpg" "second" s1 with
        | Ok (s2, _) => submissions s2 !! 1 = Some r1 /\ submissions s2 !! 2 = Some r2 /\
                        file_path r1 = file_path r2 /\ uploads s2 !! basename (file_path r1) = Some "second"
        | Err _ => False
        end
    | Err _ => False
    end.
Proof.
  destruct (@submit_proof toy_crypto toy_json (sample_env sample_now true) sample_token 1 "a.jpg" "first"
              empty_db) as [[s1 []]|err] eqn:E1; [|vm_compute in E1; discriminate].
  destruct (@submit_proof toy_crypto toy_json (sample_env (sample_now + 500000) true) sample_token 2
              "b.jpg" "second" s1) as [[s2 []]|err] eqn:E2;
    [|vm_compute in E1; injection E1 as <-; vm_compute in E2; discriminate].
  destruct (@submit_same_second_overwrites toy_crypto toy_json (sample_env sample_now true)
    (sample_env (sample_now + 500000) true) sample_token sample_token 1 2 "a.jpg" "b.jpg" "first" "second"
    empty_db s1 s2 7 sample_user sample_user) as (r1 & r2 & H);
    [vm_compute; reflexivity|reflexivity|vm_compute; reflexivity|reflexivity
    |apply in_rangeb_spec; vm_compute; reflexivity|vm_compute; reflexivity|reflexivity|reflexivity
    |exact E1|exact E2|].
  exists r1, r2. split; [reflexivity|]. exact H.
Defined.

Lemma privileged_handlers_refuse_witness :
  @add_task toy_crypto toy_json (sample_env sample_now true) sample_token "Follow" "" "" 50 empty_db =
    Err (HTTPException 403 "Not authorized").
Proof.
  destruct (@privileged_handlers_refuse toy_crypto toy_json (sample_env sample_now true) sample_token
    empty_db 7 sample_user) as (Hadd & _); [discriminate|vm_compute; reflexivity|reflexivity|].
  apply Hadd; [lia|discriminate].
Defined.

End Workflow.
