(* ===== verification/Config.v ===== *)
(** * Config: the process configuration and the membership oracle

    The values [main.py] reads from its environment at import (lines
    25-41): [BOT_TOKEN], [BOT_USERNAME], [ADMIN_IDS], [WEBAPP_URL],
    [CHANNEL_LINK], [SUPPORT_LINK], [DATA_DIR] and [UPLOAD_DIR]; the
    Telegram client [tg_bot], which exists only when [BOT_TOKEN] is not
    blank (line 47); and [is_member_of_channel] (lines 121-137), the
    membership test of the handlers.  The Telegram call
    [tg_bot.get_chat_member] is the argument [get_chat_member]: the
    member's status, or [None] when the call raises; the argument
    [markdown_ok] is Telegram's acceptance of a Markdown text by
    [edit_text] (the [leaderboards] button of [Callback]).

    [request_env] builds from them the [env] the handlers of the other
    files read, so that the theorems of those files apply to the
    process as it is configured.  The call as line 133 writes it, without
    [await] on a coroutine of python-telegram-bot 20, always ends in the
    [except]: it is [unawaited_chat_member], with which no user is a
    member ([unawaited_membership]); the other files state their
    theorems for any oracle.  [ADMIN_IDS] is parsed with [isdigit] and
    [int] on ASCII digits ([Referral.isdigit]); Python would also read
    non-ASCII decimal digits.  [PORT] and [DB_PATH] only reach
    [uvicorn] and [sqlite3.connect] and are left out. *)

From S2P Require Import Prelude Session Clock Store Ledger Referral Workflow.

Module Config.

Import Session Clock Store Ledger Referral Workflow.

Local Open Scope string_scope.

(** ** The environment variables *)

(** [os.environ], in the order of its entries. *)
Definition os_env := dict.

(** [os.getenv(k, default)] *)
Definition getenv (oe : os_env) (k dflt : string) : string := default dflt (dict_get oe k).

(** [s.rstrip(c)] for one character [c]: every trailing [c]. *)
Fixpoint rstrip_char (c : ascii) (s : string) : string :=
  match s with
  | EmptyString => EmptyString
  | String x s' =>
      let r := rstrip_char c s' in
      if Ascii.eqb x c && String.eqb r "" then EmptyString else String x r
  end.

(** Line 28: [[int(x) for x in ADMINS_ENV.split(",") if x.strip().isdigit()]];
    [int(x)] ignores the blanks around the digits. *)
Definition parse_admin_ids (s : string) : list Z :=
  map (fun x => py_int (py_strip x)) (filter (fun x => isdigit (py_strip x) = true) (split_char "," s)).

Record config := {
  cfg_bot_token : string;
  cfg_bot_username : string;
  cfg_admin_ids : list Z;
  cfg_webapp_url : string;
  cfg_channel_link : string;
  cfg_support_link : string;
  cfg_upload_dir : string
}.

(** Lines 25-40. *)
Definition load_config (oe : os_env) : config :=
  let data_dir := getenv oe "DATA_DIR" "/data" in
  {| cfg_bot_token := py_strip (getenv oe "BOT_TOKEN" "");
     cfg_bot_username := py_strip (getenv oe "BOT_USERNAME" "X_Reward_Bot");
     cfg_admin_ids := parse_admin_ids (getenv oe "ADMIN_IDS" "");
     cfg_webapp_url := rstrip_char "/" (getenv oe "WEBAPP_URL" "");
     cfg_channel_link := getenv oe "CHANNEL_LINK" "https://t.me/X_Reward_botChannel";
     cfg_support_link := getenv oe "SUPPORT_LINK" "https://t.me/xrewardchannel";
     cfg_upload_dir := path_join data_dir (getenv oe "UPLOAD_DIR" "uploads") |}.

(** ** Channel membership *)

(** [link.rstrip('/').split('/')[-1]] *)
Definition extract_channel_username (link : string) : string :=
  List.last (split_char "/" (rstrip_char "/" link)) "".

(** [channel if channel.startswith('@') else f"@{channel}"] *)
Definition chat_id_of (channel : string) : string :=
  match channel with
  | String "@" _ => channel
  | _ => "@" ++ channel
  end.

Definition member_statuses : list string := ["member"; "administrator"; "creator"].

(** [is_member_of_channel(user_id)]: [bot_present] is [tg_bot is not
    None]. *)
Definition is_member_of_channel (bot_present : bool) (get_chat_member : string -> Z -> option string)
    (channel_link : string) (uid : Z) : bool :=
  if negb bot_present then false else
  let channel := extract_channel_username channel_link in
  if String.eqb channel "" then false else
  match get_chat_member (chat_id_of channel) uid with
  | Some st => existsb (String.eqb st) member_statuses
  | None => false
  end.

(** The environment of a request the configured process serves at the
    instant [t]. *)
Definition request_env (cfg : config) (get_chat_member : string -> Z -> option string)
    (markdown_ok : string -> bool) (t : Z) : env :=
  {| bot_token := cfg_bot_token cfg;
     bot_username := cfg_bot_username cfg;
     admin_ids := cfg_admin_ids cfg;
     channel_link := cfg_channel_link cfg;
     upload_dir := cfg_upload_dir cfg;
     is_member := is_member_of_channel (negb (String.eqb (cfg_bot_token cfg) "")) get_chat_member
                    (cfg_channel_link cfg);
     markdown_ok := markdown_ok;
     now := t |}.

(** [tg_bot.get_chat_member(...)] as line 133 calls it: in
    python-telegram-bot 20 (the version of [Application.builder()] and
    of the [async] handlers) it is a coroutine function, so the call
    without [await] returns a coroutine, [member.status] raises
    [AttributeError] and the [except] of line 135 answers [False]. *)
Definition unawaited_chat_member : string -> Z -> option string := fun _ _ => None.

(** A Telegram API that knows one member of the default channel. *)
Definition sample_chat_member (chat : string) (uid : Z) : option string :=
  if String.eqb chat "@X_Reward_botChannel" then (if (uid =? 7)%Z then Some "member" else Some "left")
  else None.

(** ** Lemmas *)

Lemma is_digit_not_space c : is_digit c = true -> is_space c = false.
Proof.
  unfold is_digit, is_space. intros [H1 H2]%andb_prop. apply Nat.leb_le in H1, H2.
  apply orb_false_iff. split; apply andb_false_iff; right; apply Nat.leb_gt; lia.
Qed.

(** No white space starts with a digit. *)
Lemma space_prefix_digit c s : is_digit c = true -> space_prefix (String c s) = None.
Proof.
  intros Hc. assert (Hb : forall n, (128 <= n)%nat -> byte_is n c = false).
  { intros n Hn. unfold is_digit in Hc. apply andb_prop in Hc as [_ H2]. apply Nat.leb_le in H2.
    unfold byte_is. apply Nat.eqb_neq. lia. }
  unfold space_prefix. rewrite (is_digit_not_space c Hc), !Hb by lia. by destruct s as [|b [|c2 s3]].
Qed.

Lemma rstrip_fuel_digits n s : all_digits s = true -> rstrip_fuel n s = s.
Proof.
  revert s. induction n as [|n IH]; intros [|c s] Hs; [done..|]. cbn [all_digits] in Hs.
  apply andb_prop in Hs as [Hc Hs]. cbn [rstrip_fuel]. rewrite space_prefix_digit by done.
  by rewrite IH.
Qed.

(** [str.strip()] leaves a string of digits as it is. *)
Lemma py_strip_digits s : all_digits s = true -> py_strip s = s.
Proof.
  intros Hs. assert (Hl : lstrip s = s).
  { destruct s as [|c s']; [done|]. cbn [all_digits] in Hs. apply andb_prop in Hs as [Hc _].
    unfold lstrip. cbn [String.length lstrip_fuel]. by rewrite space_prefix_digit. }
  unfold py_strip, rstrip. rewrite Hl. by apply rstrip_fuel_digits.
Qed.

Lemma has_char_comma_pretty (z : Z) : has_char "," (pretty z) = false.
Proof. apply has_char_pretty; [intros d; unfold pretty_N_char; by repeat case_match|done]. Qed.

(** The ids of a list of numbers [>= 0], printed, pass the filter and
    are read back. *)
Lemma parse_printed_ids ids :
  Forall (fun n => (0 <= n)%Z) ids ->
  map (fun x => py_int (py_strip x)) (filter (fun x => isdigit (py_strip x) = true) (map pretty ids)) = ids.
Proof.
  induction 1 as [|n ids Hn _ IH]; [done|]. cbn [map]. rewrite filter_cons.
  rewrite py_strip_digits by (by apply all_digits_pretty).
  destruct (pretty_isdigit n Hn) as [Hd Hv]. rewrite decide_True by done. cbn [map].
  rewrite py_strip_digits by (by apply all_digits_pretty). by rewrite Hv, IH.
Qed.

(** A token signed with the key [sha256("")] passes [request_user] of a
    process whose [BOT_TOKEN] is blank. *)
Lemma blank_token_request_user `{Crypto} `{JsonDecoder} oe g md t d uid u :
  cfg_bot_token (load_config oe) = "" -> well_formed d -> session_uid (decode_user d) = Ok (uid, u) ->
  request_user (request_env (load_config oe) g md t) (sign "" d) "init_data required" = Ok (uid, u).
Proof.
  intros Htok Hd Hu.
  assert (Hv : verify_init_data (sign "" d) "" = Verified (decode_user d)).
  { unfold sign. rewrite verify_encoded by (done || apply hmac_hexdigest_nonempty).
    by rewrite String.eqb_refl. }
  unfold request_user, authenticate. cbn [bot_token request_env]. rewrite Htok, Hv.
  destruct (String.eqb_spec (sign "" d) "") as [E|_]; [rewrite E in Hv; discriminate Hv|exact Hu].
Qed.

(** With the call as written, no user is ever a member of the channel. *)
Lemma unawaited_membership cfg md t uid : is_member (request_env cfg unawaited_chat_member md t) uid = false.
Proof. cbn [is_member request_env]. unfold is_member_of_channel. by repeat case_match. Qed.

(** ** Theorems *)

(** C36: [ADMIN_IDS] set to the ids [>= 0] of a non-empty list, printed
    and separated by commas, is read back as that list. *)
Theorem admin_ids_roundtrip ids :
  ids <> [] -> Forall (fun n => (0 <= n)%Z) ids ->
  parse_admin_ids (String.concat "," (map pretty ids)) = ids.
Proof.
  intros Hne Hall. unfold parse_admin_ids.
  change "," with (String "," EmptyString). rewrite split_char_concat.
  - by apply parse_printed_ids.
  - by destruct ids.
  - apply Forall_forall. intros w (n & -> & _)%list_elem_of_fmap. apply has_char_comma_pretty.
Qed.

(** C35: The membership test fails closed (spec section 5): it answers
    [True] only when the bot client exists, the channel link names a
    channel, and the Telegram call returns one of the statuses
    [member], [administrator], [creator] for the user in that channel;
    a missing client, an empty channel name or a call that raises gives
    [False]. *)
Theorem membership_fails_closed b g link uid :
  is_member_of_channel b g link uid = true ->
  b = true /\ extract_channel_username link <> "" /\
  exists st, g (chat_id_of (extract_channel_username link)) uid = Some st /\ st ∈ member_statuses.
Proof.
  unfold is_member_of_channel. destruct b; [|done]. cbn [negb].
  destruct (String.eqb_spec (extract_channel_username link) "") as [_|Hne]; [done|].
  destruct (g _ uid) as [st|]; [|done]. intros Hst. split_and!; [done|done|].
  exists st. split; [done|]. apply existsb_exists in Hst as (x & Hx & E%String.eqb_eq). subst x.
  by apply list_elem_of_In.
Qed.

Section Blank.
Context `{Crypto} `{JsonDecoder}.

(** C5: A process started without [BOT_TOKEN] still serves the WebApp
    (lines 43-44 only log a warning), and its sessions are checked with
    the public key [sha256("")]: anyone can sign a session for any user
    id, and [daily_claim], which needs no channel membership, pays that
    user the daily reward. *)
Theorem blank_token_forged_daily_claim oe g md t d uid u s :
  cfg_bot_token (load_config oe) = "" -> well_formed d ->
  session_uid (decode_user d) = Ok (uid, u) -> users s !! uid = None ->
  daily_claim (request_env (load_config oe) g md t) (sign "" d) s =
    Ok (with_users (insert uid (daily_effect t (new_user (display_name u uid) 0 (Some (isoformat t))))) s,
        DailyOk daily_reward).
Proof.
  intros Htok Hd Hu Hs.
  rewrite (daily_claim_run _ _ _ _ _ (blank_token_request_user oe g md t d uid u Htok Hd Hu)).
  cbn zeta. rewrite Hs. cbn [default now request_env].
  by rewrite decide_False by (simpl; discriminate).
Qed.

End Blank.

(** ** Witnesses *)

Lemma admin_ids_roundtrip_witness :
  [1%Z; 42%Z] <> [] /\ Forall (fun n => (0 <= n)%Z) [1%Z; 42%Z] /\
  parse_admin_ids (String.concat "," (map pretty [1%Z; 42%Z])) = [1%Z; 42%Z].
Proof.
  assert (H1 : [1%Z; 42%Z] <> []) by discriminate.
  assert (H2 : Forall (fun n => (0 <= n)%Z) [1%Z; 42%Z]) by (repeat constructor; lia).
  split_and!; [exact H1|exact H2|exact (admin_ids_roundtrip _ H1 H2)].
Defined.

Lemma membership_fails_closed_witness :
  is_member_of_channel true sample_chat_member "https://t.me/X_Reward_botChannel/" 7 = true /\
  exists st, sample_chat_member (chat_id_of (extract_channel_username "https://t.me/X_Reward_botChannel/")) 7
             = Some st /\ st ∈ member_statuses.
Proof.
  assert (Hm : is_member_of_channel true sample_chat_member "https://t.me/X_Reward_botChannel/" 7 = true)
    by (vm_compute; reflexivity).
  split; [exact Hm|]. exact (proj2 (proj2 (membership_fails_closed _ _ _ _ Hm))).
Defined.

Lemma blank_token_forged_daily_claim_witness :
  cfg_bot_token (load_config []) = "" /\ well_formed sample_fields /\
  @session_uid (@decode_user toy_json sample_fields) = Ok (7%Z, sample_user) /\
  @daily_claim toy_crypto toy_json (request_env (load_config []) sample_chat_member (fun _ => true) sample_now)
    (@sign toy_crypto "" sample_fields) empty_db =
    Ok (with_users (insert 7%Z (daily_effect sample_now
                                  (new_user "ann" 0 (Some (isoformat sample_now))))) empty_db,
        DailyOk daily_reward).
Proof.
  assert (H1 : cfg_bot_token (load_config []) = "") by reflexivity.
  assert (H2 : @session_uid (@decode_user toy_json sample_fields) = Ok (7%Z, sample_user))
    by (vm_compute; reflexivity).
  split_and!; [exact H1|exact sample_fields_well_formed|exact H2|].
  exact (@blank_token_forged_daily_claim toy_crypto toy_json [] sample_chat_member (fun _ => true) sample_now
           sample_fields 7%Z sample_user empty_db H1 sample_fields_well_formed H2 eq_refl).
Defined.

End Config.
