(* ===== verification/Leaderboard.v ===== *)
(** * Leaderboard: the read-only queries

    [get_tasks] (src/main.py lines 172-182), [leaderboards] (395-418),
    [get_submissions] (263-285) and [serve_upload] (150-156).  None of
    them writes: each is a function of the store.

    A table is read in storage order: by its [INTEGER PRIMARY KEY],
    ascending ([storage_order]).  [ORDER BY col DESC] is the stable
    insertion sort [rank_by], which keeps rows with equal keys in
    storage order (spec section 4.6: "ties broken by storage order");
    [LIMIT n OFFSET k] is [take n (drop k _)].  FastAPI refuses a
    [page] below 1 or a [per_page] outside [1..50] with a 422 before the
    handler runs ([query_ok]).  For [get_submissions] SQLite leaves the
    order of equal [submitted_at] texts unspecified; the model takes the
    storage order there too, and no theorem depends on that order. *)

From S2P Require Import Prelude Session Clock Store Ledger Workflow.

Module Leaderboard.

Import Session Clock Store Ledger Workflow.

Local Open Scope Z_scope.

(** ** Sorting and paging *)

Definition key_le {A} (a b : Z * A) : Prop := a.1 <= b.1.

#[export] Instance key_le_dec {A} : RelDecision (@key_le A).
Proof. intros a b. unfold key_le. apply _. Defined.

(** The rows of a table by ascending primary key. *)
Definition storage_order {A} (m : gmap Z A) : list (Z * A) :=
  merge_sort key_le (map_to_list m).

Section Rank.
Context {A : Type} (before : A -> A -> bool).

(** [x] goes after the rows that come strictly before it, ahead of
    the rows it ties with. *)
Fixpoint insert_by (x : A) (l : list A) : list A :=
  match l with
  | [] => [x]
  | y :: l' => if before y x then y :: insert_by x l' else x :: l
  end.

Definition rank_by (l : list A) : list A := foldr insert_by [] l.

End Rank.

(** [ORDER BY key DESC] *)
Definition rank_desc {A} (key : A -> Z) : list A -> list A :=
  rank_by (fun y x => key x <? key y).

(** [LIMIT per_page OFFSET (page - 1) * per_page] *)
Definition page_of {A} (page per_page : Z) (l : list A) : list A :=
  take (Z.to_nat per_page) (drop (Z.to_nat ((page - 1) * per_page)) l).

(** [Query(1, ge=1)] and [Query(10, ge=1, le=50)] *)
Definition query_ok (page per_page : Z) : bool := (1 <=? page) && (1 <=? per_page) && (per_page <=? 50).

Definition validation_error : http_error := HTTPException 422 "Unprocessable Entity".

(** ** [GET /webapp/get_tasks] *)

Record task_item := {
  ti_id : Z; ti_title : string; ti_description : string; ti_link : string; ti_reward : Z
}.

Record paged (A : Type) := { items : list A; total : Z }.
Arguments items {A}.
Arguments total {A}.

Definition task_item_of (p : Z * task_row) : task_item :=
  {| ti_id := p.1; ti_title := title p.2; ti_description := description p.2;
     ti_link := link p.2; ti_reward := reward p.2 |}.

(** [ORDER BY task_id DESC LIMIT ? OFFSET ?] *)
Definition get_tasks (page per_page : Z) (s : db) : result (paged task_item) :=
  if negb (query_ok page per_page) then Err validation_error else
  Ok {| items := map task_item_of (page_of page per_page (rank_desc fst (storage_order (tasks s))));
        total := Z.of_nat (size (tasks s)) |}.

(** ** [GET /webapp/leaderboards] *)

Inductive board_item :=
  | CoinsItem (username : string) (coins : Z)
  | InvitesItem (user_id : Z) (username : string) (invites : Z)
  | AdsItem (username : string) (ads : Z) (coins : Z).

(** [SELECT r.referrer_id, COUNT(r.referred_id) as cnt, u.username FROM
    referrals r JOIN users u ON u.user_id = r.referrer_id GROUP BY
    r.referrer_id]: the groups by ascending referrer. *)
Definition invite_groups (s : db) : list (Z * string * Z) :=
  omap (fun r => match users s !! r with
                 | Some u => Some (r, username u,
                                   Z.of_nat (size (filter (fun e => e.1 = r) (referrals s))))
                 | None => None
                 end)
       (merge_sort Z.le (elements (set_map fst (referrals s) : gset Z))).

Definition leaderboards (type_ : string) (page per_page : Z) (s : db) : result (paged board_item) :=
  if negb (query_ok page per_page) then Err validation_error else
  if String.eqb type_ "coins" then
    Ok {| items := map (fun p => CoinsItem (username p.2) (coins p.2))
                     (page_of page per_page (rank_desc (fun p => coins p.2) (storage_order (users s))));
          total := Z.of_nat (size (users s)) |}
  else if String.eqb type_ "invites" then
    Ok {| items := map (fun g => InvitesItem g.1.1 (py_or (Some g.1.2) "Unknown") g.2)
                     (page_of page per_page (rank_desc snd (invite_groups s)));
          total := Z.of_nat (size (set_map fst (referrals s) : gset Z)) |}
  else
    Ok {| items := map (fun p => AdsItem (username p.2) (ads_watched p.2) (coins p.2))
                     (page_of page per_page
                        (rank_desc (fun p => ads_watched p.2) (storage_order (users s))));
          total := Z.of_nat (size (users s)) |}.

(** ** [POST /webapp/submissions] *)

Record submission_item := {
  si_id : Z; si_user : Z; si_task : Z; si_url : string; si_status : string; si_submitted_at : string
}.

(** [f"/uploads/{os.path.basename(r['file_path'])}" if r['file_path'] else ""] *)
Definition file_url (p : string) : string :=
  if String.eqb p "" then "" else ("/uploads/" ++ basename p)%string.

Definition submission_item_of (p : Z * submission_row) : submission_item :=
  {| si_id := p.1; si_user := sub_user p.2; si_task := sub_task p.2; si_url := file_url (file_path p.2);
     si_status := status_text (sub_status p.2); si_submitted_at := submitted_at p.2 |}.

Section Queries.
Context `{Crypto} `{JsonDecoder}.

(** The staff check, then [ORDER BY submitted_at DESC]: text order. *)
Definition get_submissions (e : env) (init_data : string) (s : db) : result (list submission_item) :=
  result_bind (request_user e init_data "init_data required") (fun p =>
  if negb (is_staff e s p.1) then Err (HTTPException 403 "Not authorized") else
  Ok (map submission_item_of
        (rank_by (fun y x => String.ltb (submitted_at x.2) (submitted_at y.2))
           (storage_order (submissions s))))).

End Queries.

(** [GET /uploads/{fname}]: the file [basename(fname)] of [UPLOAD_DIR].
    For ["."] and [".."] the joined path is [UPLOAD_DIR] or its parent:
    [os.path.exists] holds and [FileResponse] raises [RuntimeError] on
    a directory, a 500. *)
Definition serve_upload (fname : string) (s : db) : result string :=
  let b := basename fname in
  if String.eqb b "." || String.eqb b ".." then Err internal_error else
  match uploads s !! b with
  | Some c => Ok c
  | None => Err (HTTPException 404 "Not found")
  end.

(** A store for the examples: five users, three of them with 50 coins,
    and referrals by users [1], [2] and by [99], who has no row. *)
Definition board_db : db := {|
  users := {[1 := new_user "a" 50 None; 2 := new_user "b" 70 None; 3 := new_user "c" 50 None;
             4 := new_user "e" 50 None; 10 := new_user "d" 90 None]};
  tasks := ∅; task_seq := 0; submissions := ∅; sub_seq := 0; verifiers := ∅;
  referrals := {[(1, 2); (1, 3); (2, 3); (99, 1); (99, 2); (99, 4)]}; uploads := ∅ |}.

(** What a board ranked by [key] promises (spec section 4.6): every
    user once, by [key] descending, users that tie by ascending id. *)
Definition ranked (key : user_row -> Z) (s : db) (R : list (Z * user_row)) : Prop :=
  R ≡ₚ map_to_list (users s) /\ Sorted (fun a b => key b.2 <= key a.2) R /\
  forall c, StronglySorted key_le (filter (fun p => key p.2 = c) R).

(** ** Lemmas on the sort *)

Section RankLemmas.
Context {A : Type} (before : A -> A -> bool).

Lemma insert_by_perm x l : insert_by before x l ≡ₚ x :: l.
Proof.
  induction l as [|y l IH]; simpl; [done|]. case_if; [|done].
  rewrite IH. apply perm_swap.
Qed.

Lemma rank_by_perm l : rank_by before l ≡ₚ l.
Proof. induction l as [|x l IH]; simpl; [done|]. by rewrite insert_by_perm, IH. Qed.

(** Inserting [x] keeps the order, among the rows of a class [P] that
    [x] does not overtake, of the rows already there. *)
Lemma filter_insert_by (P : A -> Prop) `{!forall y, Decision (P y)} x l :
  (forall y, P y -> P x -> before y x = false) ->
  filter P (insert_by before x l) = filter P (x :: l).
Proof.
  intros Hb. induction l as [|y l IH]; simpl; [done|]. case_if; [|done].
  rewrite filter_cons, IH. rewrite !filter_cons.
  destruct (decide (P x)) as [Px|Px], (decide (P y)) as [Py|Py]; try done.
  by rewrite (Hb y Py Px) in E.
Qed.

Lemma filter_rank_by (P : A -> Prop) `{!forall y, Decision (P y)} l :
  (forall x y, P y -> P x -> before y x = false) ->
  filter P (rank_by before l) = filter P l.
Proof.
  intros Hb. induction l as [|x l IH]; simpl; [done|].
  rewrite filter_insert_by by auto. rewrite !filter_cons. by rewrite IH.
Qed.

End RankLemmas.

Lemma insert_desc_sorted {A} (key : A -> Z) x l :
  Sorted (fun a b => key b <= key a) l ->
  Sorted (fun a b => key b <= key a) (insert_by (fun y x => key x <? key y) x l).
Proof.
  induction 1 as [|y l Hl IH Hy]; simpl; [by repeat constructor|].
  case_if.
  - apply Z.ltb_lt in E. constructor; [done|].
    inversion Hy as [|z l' Hz]; subst; simpl; [constructor; simpl; lia|].
    case_if; constructor; [done|simpl; lia].
  - apply Z.ltb_ge in E. constructor; [by constructor|]. constructor. simpl; lia.
Qed.

Lemma rank_desc_sorted {A} (key : A -> Z) l : Sorted (fun a b => key b <= key a) (rank_desc key l).
Proof. induction l as [|x l IH]; simpl; [constructor|]. by apply insert_desc_sorted. Qed.

(** ** Lemmas on the storage order *)

#[export] Instance key_le_trans {A} : Transitive (@key_le A).
Proof. intros a b c. unfold key_le. lia. Qed.

#[export] Instance key_le_total {A} : Total (@key_le A).
Proof. intros a b. unfold key_le. lia. Qed.

Lemma storage_order_perm {A} (m : gmap Z A) : storage_order m ≡ₚ map_to_list m.
Proof. apply merge_sort_Permutation. Qed.

Lemma storage_order_sorted {A} (m : gmap Z A) : StronglySorted key_le (storage_order m).
Proof. apply StronglySorted_merge_sort; typeclasses eauto. Qed.

Lemma elem_of_storage_order {A} (m : gmap Z A) k x : (k, x) ∈ storage_order m <-> m !! k = Some x.
Proof. by rewrite storage_order_perm, elem_of_map_to_list. Qed.

Lemma StronglySorted_filter {A} (R : relation A) (P : A -> Prop) `{!forall x, Decision (P x)} l :
  StronglySorted R l -> StronglySorted R (filter P l).
Proof.
  induction 1 as [|x l Hl IH Hx]; [constructor|]. rewrite filter_cons. case_decide; [|done].
  constructor; [done|]. apply Forall_forall. intros y Hy%list_elem_of_filter.
  exact (proj1 (Forall_forall _ _) Hx y (proj2 Hy)).
Qed.

(** ** Lemmas on pages *)

Lemma page_of_nat {A} (p : nat) n (l : list A) :
  0 <= n -> page_of (Z.of_nat (S p)) n l = take (Z.to_nat n) (drop (p * Z.to_nat n) l).
Proof. intros Hn. unfold page_of. do 2 f_equal. lia. Qed.

Lemma pages_concat {A} n k (l : list A) :
  0 <= n -> List.concat (map (fun p => page_of (Z.of_nat p) n l) (seq 1 k)) = take (k * Z.to_nat n) l.
Proof.
  intros Hn. induction k as [|k IH]; [done|].
  rewrite seq_S, map_app, List.concat_app, IH. simpl. rewrite app_nil_r.
  replace (1 + k)%nat with (S k) by lia. rewrite page_of_nat, take_take_drop by done.
  f_equal. lia.
Qed.

Lemma page_of_length {A} page per_page (l : list A) :
  (List.length (page_of page per_page l) <= Z.to_nat per_page)%nat.
Proof. unfold page_of. rewrite length_take. lia. Qed.

Lemma query_ok_bounds page per_page : query_ok page per_page = true -> 1 <= page /\ 1 <= per_page <= 50.
Proof. unfold query_ok. intros H. apply andb_prop in H as [H H3]. apply andb_prop in H as [H1 H2]. lia. Qed.

Lemma length_omap_filter {A B} (f : A -> option B) l :
  (List.length (omap f l) + List.length (filter (fun x => f x = None) l) = List.length l)%nat.
Proof.
  induction l as [|x l IH]; [done|]. simpl. rewrite filter_cons.
  destruct (f x); simpl; repeat case_decide; simpl; change (list_omap _ _ f l) with (omap f l); lia.
Qed.

Lemma invite_groups_length s :
  (List.length (invite_groups s) +
   List.length (filter (fun r => users s !! r = None) (elements (set_map fst (referrals s) : gset Z))) =
   List.length (elements (set_map fst (referrals s) : gset Z)))%nat.
Proof.
  unfold invite_groups. set (R := elements _).
  rewrite <- (Permutation_length (filter_Permutation _ _ _ (merge_sort_Permutation Z.le R))).
  rewrite <- (Permutation_length (merge_sort_Permutation Z.le R)).
  match goal with |- context [omap ?F _] => rewrite <- (length_omap_filter F (merge_sort Z.le R)) end.
  f_equal. f_equal. apply list_filter_iff. intros r. by destruct (users s !! r).
Qed.

Lemma basename_plain f : has_char "/" f = false -> basename f = f.
Proof. intros Hf. unfold basename. by rewrite split_char_no_sep. Qed.

(** [ORDER BY key DESC] over the users' table meets [ranked]. *)
Lemma rank_desc_ranked (key : user_row -> Z) s :
  ranked key s (rank_desc (fun p : Z * user_row => key p.2) (storage_order (users s))).
Proof.
  split_and!.
  - unfold rank_desc. by rewrite rank_by_perm, storage_order_perm.
  - apply rank_desc_sorted.
  - intros c. unfold rank_desc. rewrite filter_rank_by.
    + apply StronglySorted_filter, storage_order_sorted.
    + intros x y Hy Hx. apply Z.ltb_ge. lia.
Qed.

Section Theorems.

(** C30: A page of the [coins] leaderboard is a page of a ranking of
    all users by coins, descending, ties by ascending id, each item the
    user's name and coins; for any other [type_] but [invites] it is a
    page of the ranking by [ads_watched], each item name, ads and
    coins. *)
Theorem leaderboard_ranking type_ page per_page s r :
  (leaderboards "coins" page per_page s = Ok r ->
   exists R, ranked coins s R /\
     items r = map (fun p => CoinsItem (username p.2) (coins p.2)) (page_of page per_page R)) /\
  (type_ <> "coins" -> type_ <> "invites" -> leaderboards type_ page per_page s = Ok r ->
   exists R, ranked ads_watched s R /\
     items r = map (fun p => AdsItem (username p.2) (ads_watched p.2) (coins p.2)) (page_of page per_page R)).
Proof.
  split.
  - unfold leaderboards. case_if; [done|]. intros [= <-].
    eexists. split; [apply rank_desc_ranked|done].
  - intros Hc Hi. unfold leaderboards. case_if; [done|].
    rewrite (proj2 (String.eqb_neq _ _) Hc), (proj2 (String.eqb_neq _ _) Hi). intros [= <-].
    eexists. split; [apply rank_desc_ranked|done].
Qed.

(** C31: Reading the pages [1..k] of the coins leaderboard one after the
    other lists the first [k * per_page] users of the ranking, each
    once, none skipped. *)
Theorem leaderboard_pages s per_page k :
  1 <= per_page <= 50 ->
  List.concat (map (fun p => match leaderboards "coins" (Z.of_nat p) per_page s with
                             | Ok r => items r | Err _ => [] end) (seq 1 k)) =
  map (fun p => CoinsItem (username p.2) (coins p.2))
    (take (k * Z.to_nat per_page) (rank_desc (fun p => coins p.2) (storage_order (users s)))).
Proof.
  intros Hn. rewrite <- pages_concat by lia. rewrite concat_map, map_map.
  f_equal. apply map_ext_in. intros p Hp%in_seq. unfold leaderboards.
  assert (Hq : query_ok (Z.of_nat p) per_page = true) by (unfold query_ok; zbool_goal).
  by rewrite Hq.
Qed.

(** C33: The [total] of the invites leaderboard counts every referrer of
    the [referrals] table, also those without a [users] row, which the
    [JOIN] leaves out of the pages: it is the number of groups shown
    plus the number of referrers that have no row. *)
Theorem invites_total_counts_unregistered page per_page s r :
  leaderboards "invites" page per_page s = Ok r ->
  total r = Z.of_nat (List.length (invite_groups s)) +
    Z.of_nat (List.length (filter (fun x => users s !! x = None)
                        (elements (set_map fst (referrals s) : gset Z)))).
Proof.
  unfold leaderboards. case_if; [done|]. intros [= <-]. simpl.
  rewrite <- Nat2Z.inj_add, invite_groups_length. reflexivity.
Qed.

Context `{Crypto} `{JsonDecoder}.

(** C34: A proof a member submits is listed to the reviewers as a
    [pending] submission whose link [/uploads/f] serves the uploaded
    content. *)
Theorem submission_link_serves e init tid fn content s uid u e' init' s' its :
  session e init = Ok (uid, u) -> is_member e uid = true -> in_range (now e) ->
  submit_proof e init tid fn content s = Ok (s', tt) ->
  get_submissions e' init' s' = Ok its ->
  exists it f, it ∈ its /\ si_id it = sub_seq s + 1 /\ si_status it = "pending" /\
    si_url it = ("/uploads/" ++ f)%string /\ serve_upload f s' = Ok content.
Proof.
  intros Hs Hm Hr Hsub Hget.
  destruct (submit_proof_creates e init tid fn content s uid u Hs Hm Hr)
    as (s1 & row & E & Hrow & _ & _ & Hst & Hne & Hsl & Hd1 & Hd2 & Hup).
  rewrite E in Hsub. injection Hsub as <-.
  unfold get_submissions in Hget. destruct (request_user _ _ _) as [p|]; [|done]. simpl in Hget.
  case_if_in Hget; [done|]. injection Hget as <-.
  exists (submission_item_of (sub_seq s + 1, row)), (basename (file_path row)). split_and!.
  - apply list_elem_of_fmap_2. rewrite rank_by_perm. by apply elem_of_storage_order.
  - done.
  - simpl. by rewrite Hst.
  - simpl. unfold file_url. destruct (String.eqb_spec (file_path row) "") as [Hp|]; [|done].
    by rewrite Hp in Hne.
  - unfold serve_upload. rewrite basename_plain by done.
    by rewrite (proj2 (String.eqb_neq _ _) Hd1), (proj2 (String.eqb_neq _ _) Hd2), Hup.
Qed.

(** C32: Pagination is bounded: a page of a leaderboard or of the task
    list that FastAPI lets through holds at most [per_page] items, and
    [per_page] is at most 50. *)
Theorem page_size_bound type_ page per_page s r t :
  (leaderboards type_ page per_page s = Ok r -> (List.length (items r) <= Z.to_nat per_page <= 50)%nat) /\
  (get_tasks page per_page s = Ok t -> (List.length (items t) <= Z.to_nat per_page <= 50)%nat).
Proof.
  split.
  - unfold leaderboards. destruct (query_ok page per_page) eqn:Hq; [|done].
    apply query_ok_bounds in Hq. cbn [negb].
    repeat case_if; intros [= <-]; cbn [items]; rewrite length_map;
      (split; [apply page_of_length|lia]).
  - unfold get_tasks. destruct (query_ok page per_page) eqn:Hq; [|done].
    apply query_ok_bounds in Hq. cbn [negb]. intros [= <-]. cbn [items]. rewrite length_map.
    split; [apply page_of_length|lia].
Qed.

End Theorems.

(** ** The theorems at concrete inputs *)

Lemma leaderboard_ranking_witness :
  leaderboards "coins" 1 2 board_db =
    Ok {| items := [CoinsItem "d" 90; CoinsItem "b" 70]; total := 5 |} /\
  leaderboards "ads" 1 2 board_db =
    Ok {| items := [AdsItem "a" 0 50; AdsItem "b" 0 70]; total := 5 |} /\
  (exists R, ranked coins board_db R /\
     [CoinsItem "d" 90; CoinsItem "b" 70] = map (fun p => CoinsItem (username p.2) (coins p.2)) (page_of 1 2 R)) /\
  (exists R, ranked ads_watched board_db R /\
     [AdsItem "a" 0 50; AdsItem "b" 0 70] =
       map (fun p => AdsItem (username p.2) (ads_watched p.2) (coins p.2)) (page_of 1 2 R)).
Proof.
  assert (H1 : leaderboards "coins" 1 2 board_db =
                 Ok {| items := [CoinsItem "d" 90; CoinsItem "b" 70]; total := 5 |}) by (vm_compute; reflexivity).
  assert (H2 : leaderboards "ads" 1 2 board_db =
                 Ok {| items := [AdsItem "a" 0 50; AdsItem "b" 0 70]; total := 5 |}) by (vm_compute; reflexivity).
  split_and!; [exact H1|exact H2| |].
  - exact (proj1 (leaderboard_ranking "ads" 1 2 board_db _) H1).
  - exact (proj2 (leaderboard_ranking "ads" 1 2 board_db _) ltac:(discriminate) ltac:(discriminate) H2).
Defined.

Lemma leaderboard_pages_witness :
  List.concat (map (fun p => match leaderboards "coins" (Z.of_nat p) 2 board_db with
                             | Ok r => items r | Err _ => [] end) (seq 1 2)) =
  [CoinsItem "d" 90; CoinsItem "b" 70; CoinsItem "a" 50; CoinsItem "c" 50].
Proof. rewrite (leaderboard_pages board_db 2 2) by lia. vm_compute. reflexivity. Defined.

Lemma page_size_bound_witness :
  leaderboards "coins" 1 2 board_db =
    Ok {| items := [CoinsItem "d" 90; CoinsItem "b" 70]; total := 5 |} /\
  get_tasks 1 2 board_db = Ok {| items := []; total := 0 |} /\
  (List.length [CoinsItem "d" 90; CoinsItem "b" 70] <= Z.to_nat 2 <= 50)%nat.
Proof.
  assert (H1 : leaderboards "coins" 1 2 board_db =
                 Ok {| items := [CoinsItem "d" 90; CoinsItem "b" 70]; total := 5 |}) by (vm_compute; reflexivity).
  assert (H2 : get_tasks 1 2 board_db = Ok {| items := []; total := 0 |}) by (vm_compute; reflexivity).
  split; [exact H1|split; [exact H2|]].
  exact (proj1 (page_size_bound "coins" 1 2 board_db _ {| items := []; total := 0 |}) H1).
Defined.

Lemma invites_total_counts_unregistered_witness :
  exists r, leaderboards "invites" 1 10 board_db = Ok r /\ total r = 3 /\ List.length (items r) = 2%nat /\
    total r = Z.of_nat (List.length (invite_groups board_db)) + 1.
Proof.
  destruct (leaderboards "invites" 1 10 board_db) as [r|err] eqn:E; [|vm_compute in E; discriminate].
  exists r. pose proof (invites_total_counts_unregistered 1 10 board_db r E) as Ht.
  vm_compute in E. injection E as <-. split_and!; [done|done|done|]. rewrite Ht. reflexivity.
Defined.

Lemma submission_link_serves_witness :
  match @submit_proof toy_crypto toy_json (sample_env sample_now true) sample_token 1 "proof.png"
          "PNG-BYTES" empty_db with
  | Ok (s', _) =>
      exists its it f, @get_submissions toy_crypto toy_json (staff_env sample_now) sample_token s' = Ok its /\
        it ∈ its /\ si_id it = 1 /\ si_status it = "pending" /\
        si_url it = ("/uploads/" ++ f)%string /\ serve_upload f s' = Ok "PNG-BYTES"
  | Err _ => False
  end.
Proof.
  destruct (@submit_proof toy_crypto toy_json (sample_env sample_now true) sample_token 1 "proof.png"
              "PNG-BYTES" empty_db) as [[s' []]|err] eqn:E; [|vm_compute in E; discriminate].
  destruct (@get_submissions toy_crypto toy_json (staff_env sample_now) sample_token s')
    as [its|err] eqn:G; [|vm_compute in E; injection E as <-; vm_compute in G; discriminate].
  destruct (@submission_link_serves toy_crypto toy_json (sample_env sample_now true) sample_token 1
    "proof.png" "PNG-BYTES" empty_db 7 sample_user (staff_env sample_now) sample_token s' its)
    as (it & f & Hit & Hid & Hst & Hurl & Hserve);
    [vm_compute; reflexivity|reflexivity|apply in_rangeb_spec; vm_compute; reflexivity|exact E|exact G|].
  exists its, it, f. split_and!; [done|done|by rewrite Hid|done..].
Defined.

End Leaderboard.
