(* ===== verification/Callback.v ===== *)
(** * Callback: the buttons of the bot's menu

    [bot_callback] (src/main.py lines 476-529) answers the inline
    buttons of the welcome message.  Each button edits the message with
    a text; the model keeps what the text shows ([callback_reply]), not
    its wording, except for [leaderboards], whose text is sent with
    [parse_mode="Markdown"] and is kept byte for byte
    ([leaderboards_text]).  Four buttons read the store: [coins] (the
    caller's row), [leaderboards] (three top-10 lists), [check_join]
    (the membership oracle) and [refer] (the caller's link).

    The [leaderboards] text embeds the usernames unescaped, so a name
    with a [_] or [*] can leave a Markdown entity open; Telegram then
    refuses the edit and [edit_text] raises [BadRequest] (line 517).
    Telegram's parser is the oracle [markdown_ok] of [env]: the button
    replies [CbBoards text] when it accepts the text and [CbRaised]
    otherwise, with the store unchanged in both cases.  The other
    refusals of Telegram (a text equal to the message's current one)
    change no store and are not modelled.

    The [back] button calls [bot_start(update, context)] with the
    callback's update: [context.args] is [None] for a callback, so
    there is no referrer, and [bot_start] inserts the caller's row with
    100 coins and commits before it replies with
    [update.message.reply_text], but [update.message] is [None] for a
    callback query, so the reply raises [AttributeError] after the
    commit.  The model returns the committed store and the reply
    [CbRaised]. *)

From S2P Require Import Prelude Session Clock Store Ledger Referral Workflow Leaderboard.

Module Callback.

Import Session Clock Store Ledger Referral Workflow Leaderboard.

Local Open Scope Z_scope.

(** What the edited message shows. *)
Inductive callback_reply :=
  | CbJoinCheck (member : bool)
  | CbRaised
  | CbStartFirst
  | CbCoins (coins ads_watched ad_counter : Z) (boost_active_until : option Z)
  | CbBoards (markdown_text : string)
  | CbRefer (link : string)
  | CbText (button : string).

(** [if boost_until: try: dt = fromisoformat(boost_until.replace("Z", ""));
    if dt > utcnow(): boost_line = ... except: pass]: the expiry shown. *)
Definition boost_line (bu : option string) (t : Z) : option Z :=
  match bu with
  | Some s =>
      if String.eqb s "" then None
      else match fromisoformat (str_replace_char "Z" "" s) with
           | Some dt => if t <? dt then Some dt else None
           | None => None
           end
  | None => None
  end.

(** The three queries of the [leaderboards] button: [ORDER BY ... DESC
    LIMIT 10]. *)
Definition top_coins (s : db) : list (string * Z) :=
  map (fun p => (username p.2, coins p.2)) (take 10 (rank_desc (fun p => coins p.2) (storage_order (users s)))).

Definition top_invites (s : db) : list (string * Z) :=
  map (fun g => (g.1.2, g.2)) (take 10 (rank_desc snd (invite_groups s))).

Definition top_ads (s : db) : list (string * Z * Z) :=
  map (fun p => (username p.2, ads_watched p.2, coins p.2))
    (take 10 (rank_desc (fun p => ads_watched p.2) (storage_order (users s)))).

Definition nl : string := String newline EmptyString.

(** [for i, row in enumerate(rows, 1): msg += line(i, row)] *)
Fixpoint enum_lines {A} (line : Z -> A -> string) (i : Z) (rows : list A) : string :=
  match rows with
  | [] => ""
  | x :: rows' => line i x ++ enum_lines line (i + 1) rows'
  end%string.

(** Lines 511-516: the message of the [leaderboards] button. *)
Definition leaderboards_text (s : db) : string :=
  ("🏆 *Top Coin Holders:*" ++ nl ++
   enum_lines (fun i (x : string * Z) =>
     pretty i ++ ". @" ++ x.1 ++ " — " ++ pretty x.2 ++ " coins" ++ nl) 1 (top_coins s) ++
   nl ++ "🚀 *Top Inviters:*" ++ nl ++
   enum_lines (fun i (x : string * Z) =>
     pretty i ++ ". @" ++ x.1 ++ " — " ++ pretty x.2 ++ " invites" ++ nl) 1 (top_invites s) ++
   nl ++ "📺 *Top Ad Watchers:*" ++ nl ++
   enum_lines (fun i (x : string * Z * Z) =>
     pretty i ++ ". @" ++ x.1.1 ++ " — " ++ pretty x.1.2 ++ " ads — " ++ pretty x.2 ++ " coins" ++ nl)
     1 (top_ads s))%string.

(** The buttons that show a fixed text. *)
Definition text_buttons : list string := ["daily"; "power_info"; "mystery"; "support"].

(** [bot_callback] for the button [data] pressed by [u]. *)
Definition bot_callback (e : env) (u : tg_user) (data : string) : txn db callback_reply :=
  let uid := tg_id u in
  if String.eqb data "check_join" then tret (CbJoinCheck (is_member e uid)) else
  if String.eqb data "back" then tmodify (bot_start_db (now e) u []) ;;; tret CbRaised else
  if String.eqb data "coins" then
    s <- tget ;;
    tret (match users s !! uid with
          | None => CbStartFirst
          | Some r => CbCoins (coins r) (ads_watched r) (ad_counter r) (boost_line (boost_until r) (now e))
          end)
  else if String.eqb data "leaderboards" then
    s <- tget ;;
    let msg := leaderboards_text s in
    tret (if markdown_ok e msg then CbBoards msg else CbRaised)
  else if String.eqb data "refer" then tret (CbRefer (referral_link (bot_username e) uid))
  else if existsb (String.eqb data) text_buttons then tret (CbText data)
  else tret (CbText "not_implemented").

(** ** Lemmas *)

(** The line the [coins] button shows exists exactly when [/balance]
    reports the boost active. *)
Lemma boost_line_active bu t : is_Some (boost_line bu t) <-> boost_is_active bu t = true.
Proof.
  unfold boost_line, boost_is_active. destruct bu as [s|]; [|split; [by intros []|done]].
  case_if; [split; [by intros []|done]|].
  destruct (fromisoformat _) as [dt|]; [|split; [by intros []|done]].
  destruct (t <? dt); split; [done|eauto|by intros []|done].
Qed.

(** Only [back] writes, and what it writes is the [/start] of the caller
    without an argument. *)
Lemma callback_cases e u data s s' r :
  bot_callback e u data s = Ok (s', r) -> s' = s \/ s' = bot_start_db (now e) u [] s.
Proof.
  unfold bot_callback, tbind, tret, tget, tmodify. repeat case_if; intros H; injection H as <- _; auto.
Qed.

(** ** Theorems *)

(** C37: The [coins] button shows the caller's balance and ad count as
    [GET /balance] reports them, and shows the boost line exactly when
    [/balance] reports the boost active. *)
Theorem callback_coins_agree e u s r :
  users s !! tg_id u = Some r ->
  exists bl, bot_callback e u "coins" s = Ok (s, CbCoins (coins r) (ads_watched r) (ad_counter r) bl) /\
    balance e (tg_id u) s = {| b_coins := coins r; b_ads_watched := ads_watched r;
                               b_boost_active := bool_decide (is_Some bl) |}.
Proof.
  intros Hr. exists (boost_line (boost_until r) (now e)). split.
  - unfold bot_callback. cbn -[boost_line]. by rewrite Hr.
  - unfold balance. rewrite Hr. f_equal.
    destruct (boost_is_active (boost_until r) (now e)) eqn:E.
    + symmetry. apply bool_decide_eq_true. by apply boost_line_active.
    + symmetry. apply bool_decide_eq_false. rewrite boost_line_active. congruence.
Qed.

(** C38: Pressing [back] before [/start] registers the caller with the
    100 coins of [/start] and no referrer, and the handler then raises:
    the store keeps the new row, the chat gets no reply. *)
Theorem callback_back_registers e u s :
  users s !! tg_id u = None ->
  exists s', bot_callback e u "back" s = Ok (s', CbRaised) /\
    users s' !! tg_id u = Some (new_user (tg_name u) start_coins (Some (isoformat (now e)))) /\
    referrals s' = referrals s.
Proof.
  intros Hn. eexists. split; [reflexivity|]. unfold bot_start_db. cbn [start_referrer].
  unfold insert_or_ignore_user. rewrite Hn. simpl. by rewrite lookup_insert_eq.
Qed.

(** ** Witnesses *)

Lemma callback_coins_agree_witness :
  users (bot_start_db sample_now sample_tg_user [] empty_db) !! 7 =
    Some (new_user "ann" start_coins (Some (isoformat sample_now))) /\
  exists bl, bot_callback (sample_env sample_now true) sample_tg_user "coins"
               (bot_start_db sample_now sample_tg_user [] empty_db) =
             Ok (bot_start_db sample_now sample_tg_user [] empty_db, CbCoins 100 0 0 bl) /\
    balance (sample_env sample_now true) 7 (bot_start_db sample_now sample_tg_user [] empty_db) =
      {| b_coins := 100; b_ads_watched := 0; b_boost_active := bool_decide (is_Some bl) |}.
Proof.
  assert (Hr : users (bot_start_db sample_now sample_tg_user [] empty_db) !! 7 =
                 Some (new_user "ann" start_coins (Some (isoformat sample_now)))) by reflexivity.
  split; [exact Hr|].
  exact (callback_coins_agree (sample_env sample_now true) sample_tg_user _ _ Hr).
Defined.

Lemma callback_back_registers_witness :
  users empty_db !! 7 = None /\
  exists s', bot_callback (sample_env sample_now true) sample_tg_user "back" empty_db = Ok (s', CbRaised) /\
    users s' !! 7 = Some (new_user "ann" start_coins (Some (isoformat sample_now))) /\
    referrals s' = referrals empty_db.
Proof.
  assert (Hn : users empty_db !! 7 = None) by reflexivity.
  split; [exact Hn|]. exact (callback_back_registers (sample_env sample_now true) sample_tg_user empty_db Hn).
Defined.

End Callback.
