(* ===== verification/System.v ===== *)
(** * System: the handlers together

    The service is the FastAPI application and the Telegram bot, run in
    two threads of one process against one SQLite file (src/main.py
    lines 536-547).  [handle] dispatches a [request] (a WebApp call,
    [/start] or a menu button) to its handler; [step] runs it, and a
    request that fails leaves the store as it was (a raised exception
    closes the connection without [commit]).  [run] serves a list of
    requests one after the other: the serial order SQLite gives
    handlers whose first statement writes ([ad_watched],
    [daily_claim], [bot_start], [submit_proof] and the administrator
    handlers hold the database's write lock from their first
    statement to their [commit]).  [reachable] is the set of stores the
    step relation reaches from the empty database.

    [review_submission] reads before its first write, so two reviews
    can interleave: [reviews_interleaved] runs the read phases of two
    reviews before their write phases.

    The theorems: the invariant [inv] of every reachable store
    ([reachable_inv]); at most one closing review per submission
    ([review_closes_once]) and one daily payment per user and day
    ([daily_once_per_day]) along a serial run, both from the induction
    [count_run_at_most_once]; the stability of a reviewed submission;
    the progress of a staff approval; and the double payment of two
    interleaved approvals ([review_race]).  The interleaving needs two
    processes on one database file: [review_submission] is an [async
    def] with no [await], so one uvicorn process runs it to the end
    before the next request, and [python main.py] starts one process;
    a deployment with several workers ([uvicorn --workers], or several
    instances) interleaves it.  The trace [demo_trace] of
    spec section 8 is the concrete input of the witnesses. *)

From S2P Require Import Prelude Session Clock Store Ledger Referral Workflow Leaderboard Callback.

Module System.

Import Session Clock Store Ledger Referral Workflow Leaderboard Callback.

Local Open Scope Z_scope.

(** ** Requests and replies *)

Inductive request :=
  | RqStart (u : tg_user) (args : list string)
  | RqAdWatched (init_data : string)
  | RqDaily (init_data : string)
  | RqSubmit (init_data : string) (task_id : Z) (filename content : string)
  | RqReview (init_data : string) (sub_id : Z) (action reason : string)
  | RqAddTask (init_data title description link : string) (reward : Z)
  | RqDeleteTask (init_data : string) (task_id : Z)
  | RqAddVerifier (init_data : string) (vid : Z)
  | RqRemoveVerifier (init_data : string) (vid : Z)
  | RqCallback (u : tg_user) (data : string).

Inductive reply :=
  | RStart (r : start_reply)
  | RAd (r : ad_reply)
  | RDaily (r : daily_reply)
  | RReview (r : review_reply)
  | RCallback (r : callback_reply)
  | RDone.

Definition tmap {S A B} (f : A -> B) (m : txn S A) : txn S B := x <- m ;; tret (f x).

Section Dispatch.
Context `{Crypto} `{JsonDecoder}.

(** The handler of a request.  The handlers that only read
    ([balance], [get_tasks], [leaderboards], [get_submissions],
    [check_join], [serve_upload]) change nothing and are left out. *)
Definition handle (e : env) (rq : request) : txn db reply :=
  match rq with
  | RqStart u args => tmap RStart (bot_start e u args)
  | RqAdWatched init => tmap RAd (ad_watched e init)
  | RqDaily init => tmap RDaily (daily_claim e init)
  | RqSubmit init tid fn content => tmap (fun _ => RDone) (submit_proof e init tid fn content)
  | RqReview init sid act rsn => tmap RReview (review_submission e init sid act rsn)
  | RqAddTask init t d l r => tmap (fun _ => RDone) (add_task e init t d l r)
  | RqDeleteTask init tid => tmap (fun _ => RDone) (delete_task e init tid)
  | RqAddVerifier init v => tmap (fun _ => RDone) (add_verifier e init v)
  | RqRemoveVerifier init v => tmap (fun _ => RDone) (remove_verifier e init v)
  | RqCallback u d => tmap RCallback (bot_callback e u d)
  end.

(** One request: its reply, or its error with the store unchanged. *)
Definition step (e : env) (rq : request) (s : db) : db * result reply :=
  match handle e rq s with
  | Ok (s', r) => (s', Ok r)
  | Err err => (s, Err err)
  end.

(** Requests one after the other. *)
Fixpoint run (rqs : list (env * request)) (s : db) : db * list (result reply) :=
  match rqs with
  | [] => (s, [])
  | (e, rq) :: rest =>
      let '(s1, r) := step e rq s in
      let '(s2, rs) := run rest s1 in
      (s2, r :: rs)
  end.

(** The stores the service can reach from an empty database. *)
Inductive reachable : db -> Prop :=
  | reach_empty : reachable empty_db
  | reach_step e rq s : reachable s -> reachable (step e rq s).1.

End Dispatch.

(** ** The invariant of the store *)

(** Every task pays a positive reward (spec section 3). *)
Definition tasks_ok (s : db) : Prop := map_Forall (fun _ t => 0 < reward t) (tasks s).

(** Submission ids were handed out by [AUTOINCREMENT], and the user of
    every submission has a row. *)
Definition subs_ok (s : db) : Prop :=
  0 <= sub_seq s /\
  forall sid row, submissions s !! sid = Some row -> 1 <= sid <= sub_seq s /\ is_Some (users s !! sub_user row).

Record inv (s : db) : Prop := Inv {
  inv_users : users_ok s;
  inv_tasks : tasks_ok s;
  inv_subs : subs_ok s;
  inv_referrals : no_self_referral s
}.

(** A step that keeps every user row. *)
Definition keeps_rows (s s' : db) : Prop := forall k, is_Some (users s !! k) -> is_Some (users s' !! k).

(** A step that leaves every reviewed submission as it was: the
    [UPDATE]s of [review_submission] only reach a pending one. *)
Definition keeps_reviewed (s s' : db) : Prop :=
  forall sid row, submissions s !! sid = Some row -> sub_status row <> Pending ->
    submissions s' !! sid = Some row.

(** The number of requests of a trace whose reply satisfies [P]. *)
Definition count_replies (P : env * request -> result reply -> bool)
    (rqs : list (env * request)) (rs : list (result reply)) : nat :=
  List.length (filter (fun p => P p.1 p.2) (zip rqs rs)).

(** A request that reviews submission [sid] and closes it: the reply
    is an award or a rejection, not [ReviewAlready]. *)
Definition closes (sid : Z) (x : env * request) (r : result reply) : bool :=
  match x.2, r with
  | RqReview _ sid' _ _, Ok (RReview (ReviewAwarded _))
  | RqReview _ sid' _ _, Ok (RReview ReviewRejected) => sid' =? sid
  | _, _ => false
  end.

(** Every row keeps its [last_daily] column. *)
Definition keeps_daily (s s' : db) : Prop :=
  forall k x, users s !! k = Some x -> exists y, users s' !! k = Some y /\ last_daily y = last_daily x.

(** User [uid] has claimed the daily bonus on the day [d]. *)
Definition daily_mark (d : string) (uid : Z) (s : db) : Prop :=
  exists r, users s !! uid = Some r /\ last_daily r = Some d.

Section Paid.
Context `{Crypto} `{JsonDecoder}.

(** A daily request of user [uid] that paid the bonus. *)
Definition daily_paid (uid : Z) (x : env * request) (r : result reply) : bool :=
  match x.2, r with
  | RqDaily init, Ok (RDaily (DailyOk _)) =>
      match request_user x.1 init "init_data required" with Ok (u, _) => u =? uid | Err _ => false end
  | _, _ => false
  end.

(** Two [review_submission] requests on two connections, the
    [SELECT]s of both (lines 290-321) before the [UPDATE]s of either
    (lines 322-331): the [SELECT]s run outside a transaction, since
    Python's [sqlite3] opens one only at the first [UPDATE], so nothing
    orders the second request's reads after the first one's commit. *)
Definition reviews_interleaved (e1 : env) (init1 : string) (sid1 : Z) (act1 rsn1 : string)
    (e2 : env) (init2 : string) (sid2 : Z) (act2 rsn2 : string) (s : db)
    : result (db * (review_reply * review_reply)) :=
  result_bind (review_plan e1 init1 sid1 act1 rsn1 s) (fun p1 =>
  result_bind (review_plan e2 init2 sid2 act2 rsn2 s) (fun p2 =>
  let s1 := match p1.1 with Some w => review_apply w s | None => s end in
  let s2 := match p2.1 with Some w => review_apply w s1 | None => s1 end in
  Ok (s2, (p1.2, p2.2)))).

End Paid.

(** ** The trace of spec section 8 (inputs of the witnesses)

    Four Telegram users: [root] (1, the administrator of [sample_env]),
    [vera] (2, made a verifier), [rex] (3, the referrer) and [neo] (4,
    the new user).  Their WebApp tokens are signed with the bot token
    ["tok"] of [sample_env]; [demo_json] is the [json.loads] of their
    [user] fields. *)
Definition demo_json : JsonDecoder := {|
  json_loads := fun s =>
    let obj id name := Some (JObject {| uj_id := Some id; uj_username := None; uj_first_name := Some name |}) in
    if String.eqb s "root" then obj 1 s else if String.eqb s "vera" then obj 2 s
    else if String.eqb s "rex" then obj 3 s else if String.eqb s "neo" then obj 4 s else None
|}.

Definition demo_token (name : string) : string :=
  @sign toy_crypto "tok" [("auth_date", "1700000000"); ("user", name)].

Definition rex : tg_user := {| tg_id := 3; tg_username := Some "rex"; tg_first_name := "rex" |}.
Definition neo : tg_user := {| tg_id := 4; tg_username := Some "neo"; tg_first_name := "neo" |}.

(** The requests, one microsecond apart: [rex] and then [neo] (with
    [/start 3]) register; [neo] watches three ads; [root] adds a task
    worth 50 and makes [vera] a verifier; [neo] submits a proof; [vera]
    approves it, then approves it again. *)
Definition demo_trace : list (env * request) :=
  map (fun '(i, rq) => (sample_env (sample_now + i) true, rq))
    [(0, RqStart rex []); (1, RqStart neo ["3"]);
     (2, RqAdWatched (demo_token "neo")); (3, RqAdWatched (demo_token "neo"));
     (4, RqAdWatched (demo_token "neo"));
     (5, RqAddTask (demo_token "root") "Follow" "the channel" "https://t.me/chan" 50);
     (6, RqAddVerifier (demo_token "root") 2);
     (7, RqSubmit (demo_token "neo") 1 "proof.png" "PNG");
     (8, RqReview (demo_token "vera") 1 "approve" "ok");
     (9, RqReview (demo_token "vera") 1 "approve" "again")].

(** ** Lemmas on the steps *)

Lemma tmap_ok {S A B} (f : A -> B) (m : txn S A) s s' r :
  tmap f m s = Ok (s', r) -> exists a, m s = Ok (s', a) /\ r = f a.
Proof. unfold tmap, tbind, tret. destruct (m s) as [[s1 a]|]; [|done]. intros [= <- <-]. eauto. Qed.

Lemma with_users_id s : with_users id s = s.
Proof. by destruct s. Qed.

Lemma keeps_rows_with_users_insert s uid x : keeps_rows s (with_users (insert uid x) s).
Proof.
  intros k [y Hy]. simpl. destruct (decide (uid = k)) as [->|Hne].
  - rewrite lookup_insert_eq. eauto.
  - rewrite lookup_insert_ne by done. eauto.
Qed.

Lemma keeps_rows_update_user s k f : keeps_rows s (update_user k f s).
Proof.
  intros k' [y Hy]. destruct (decide (k = k')) as [->|Hne].
  - rewrite lookup_update_user_eq, Hy. eauto.
  - rewrite lookup_update_user_ne by done. eauto.
Qed.

Lemma keeps_rows_insert_or_ignore_user s k x : keeps_rows s (insert_or_ignore_user k x s).
Proof. rewrite insert_or_ignore_user_view. apply keeps_rows_with_users_insert. Qed.

Lemma keeps_rows_trans s1 s2 s3 : keeps_rows s1 s2 -> keeps_rows s2 s3 -> keeps_rows s1 s3.
Proof. intros H12 H23 k Hk. auto. Qed.

(** A step that changes only user rows, keeping them all and their
    invariant, keeps the invariant of the store. *)
Lemma inv_users_step s s' :
  inv s -> users_ok s' -> keeps_rows s s' -> tasks s' = tasks s ->
  submissions s' = submissions s -> sub_seq s' = sub_seq s -> referrals s' = referrals s -> inv s'.
Proof.
  intros [_ Ht [Hseq Hsub] Hg] Hu Hk Et Es Eq Er. constructor; [done|unfold tasks_ok; by rewrite Et| |].
  - unfold subs_ok. rewrite Eq. split; [done|]. intros sid row Hrow. rewrite Es in Hrow.
    destruct (Hsub sid row Hrow) as [? ?]. auto.
  - intros a b. rewrite Er. apply Hg.
Qed.

Lemma inv_with_users s f :
  inv s -> users_ok (with_users f s) -> keeps_rows s (with_users f s) -> inv (with_users f s).
Proof. intros Hi Hu Hk. by apply (inv_users_step s). Qed.

(** [/start] changes the user rows and the referral graph only. *)
Lemma bot_start_db_tables t u args s :
  tasks (bot_start_db t u args s) = tasks s /\ submissions (bot_start_db t u args s) = submissions s /\
  sub_seq (bot_start_db t u args s) = sub_seq s /\ keeps_rows s (bot_start_db t u args s).
Proof.
  set (s1 := insert_or_ignore_user (tg_id u) (new_user (tg_name u) start_coins (Some (isoformat t))) s).
  assert (Hk1 : keeps_rows s s1) by apply keeps_rows_insert_or_ignore_user.
  assert (E1 : tasks s1 = tasks s /\ submissions s1 = submissions s /\ sub_seq s1 = sub_seq s)
    by (unfold s1, insert_or_ignore_user; by case_match).
  destruct E1 as (E1 & E2 & E3).
  unfold bot_start_db. cbv zeta. fold s1.
  destruct (start_referrer args) as [r|]; [case_if|]; [|done|done].
  split_and!; [done..|]. eapply keeps_rows_trans; [exact Hk1|].
  exact (keeps_rows_update_user (insert_referral r (tg_id u) s1) r _).
Qed.

Lemma inv_bot_start t u args s : inv s -> inv (bot_start_db t u args s).
Proof.
  intros Hi. destruct (bot_start_db_tables t u args s) as (Et & Es & Eq & Hk).
  destruct Hi as [Hu Ht [Hseq Hsub] Hg].
  destruct (bot_start_invariant t u args s Hu Hg) as (Hu' & Hg' & _). constructor; [done| | |done].
  - unfold tasks_ok. by rewrite Et.
  - unfold subs_ok. rewrite Eq. split; [done|]. intros sid row. rewrite Es. intros (? & ?)%Hsub. auto.
Qed.

Lemma lookup_insert_or_ignore_user_is_Some k x s : is_Some (users (insert_or_ignore_user k x s) !! k).
Proof. rewrite insert_or_ignore_user_view. simpl. rewrite lookup_insert_eq. eauto. Qed.

Section Steps.
Context `{Crypto} `{JsonDecoder}.

Lemma review_plan_some e init sid act rsn s w r :
  review_plan e init sid act rsn s = Ok (Some w, r) ->
  exists row, submissions s !! sid = Some row /\ sub_status row = Pending /\
    ((exists amount by_, w = WApprove sid (sub_user row) amount by_ rsn /\ r = ReviewAwarded amount /\
       (tasks_ok s -> 0 <= amount)) \/
     (exists by_, w = WReject sid by_ rsn /\ r = ReviewRejected)).
Proof.
  unfold review_plan. intros Hres.
  case_if_in Hres; [done|]. destruct (session e init) as [[uid u]|err]; [|done]. simpl in Hres.
  case_if_in Hres; [done|]. destruct (submissions s !! sid) as [row|] eqn:Hrow; [|done].
  exists row. split; [done|]. case_bool_decide as Hpend; simpl in Hres; [|done]. split; [done|].
  case_if_in Hres; injection Hres as <- <-; [left|right; eauto].
  do 2 eexists. split_and!; [reflexivity..|]. intros Ht.
  destruct (tasks s !! sub_task row) as [t|] eqn:Et; [|by rewrite Z.mul_0_l, if_same].
  pose proof (Ht _ _ Et) as Hp. simpl in Hp. case_if; lia.
Qed.

Lemma review_plan_awarded e init sid act rsn s o a :
  review_plan e init sid act rsn s = Ok (o, ReviewAwarded a) -> exists w, o = Some w.
Proof.
  intros (uid & u & row & _ & _ & [[_ [= _ Hr]]|[_ (w & a' & st & [= -> _] & _)]])%review_plan_ok; eauto.
Qed.

Lemma inv_review e init sid act rsn s s' r :
  inv s -> review_submission e init sid act rsn s = Ok (s', r) -> inv s'.
Proof.
  intros Hi. rewrite review_submission_spec.
  destruct (review_plan e init sid act rsn s) as [[[w|] r']|] eqn:Hp; [|intros [= <- _]; done|done].
  intros [= <- _]. destruct Hi as [Hu Ht Hsub Hg].
  destruct (review_plan_some _ _ _ _ _ _ _ _ Hp)
    as (row & Hrow & _ & [(amount & by_ & -> & _ & Ha)|(by_ & -> & _)]); cbn [review_apply].
  1: specialize (Ha Ht).
  - destruct Hsub as [Hseq Hsub]. constructor; [|done| |done].
    + apply users_ok_update_user; [done|]. intros x. by apply add_coins_ok.
    + split; [done|]. intros sid' row'. unfold update_submission, update_user; simpl.
      rewrite lookup_alter_Some. intros [(<- & row0 & H1 & ->)|(_ & H1)];
        destruct (Hsub _ _ H1) as [? Hs]; (split; [done|]); simpl;
        by apply (keeps_rows_update_user s (sub_user row) (add_coins amount)).
  - destruct Hsub as [Hseq Hsub]. constructor; [done|done| |done]. split; [done|].
    intros sid' row'. unfold update_submission; simpl.
    rewrite lookup_alter_Some. intros [(<- & row0 & H1 & ->)|(_ & H1)]; apply Hsub in H1; done.
Qed.

Lemma submit_proof_ok_cases e init tid fn content s s' a :
  submit_proof e init tid fn content s = Ok (s', a) ->
  exists uid u, session e init = Ok (uid, u) /\ is_member e uid = true /\
    s' = insert_submission uid tid (path_join (upload_dir e) (upload_name uid (now e) fn))
           (isoformat (now e))
           (insert_or_ignore_user uid (new_user (display_name u uid) 0 None)
              (with_uploads (insert (upload_name uid (now e) fn) content) s)).
Proof.
  intros Hrun. destruct (session e init) as [[uid u]|err] eqn:Hs.
  - destruct (is_member e uid) eqn:Hm.
    + rewrite (submit_proof_spec _ _ _ _ _ _ _ _ Hs Hm) in Hrun. injection Hrun as <- _. eauto.
    + unfold submit_proof in Hrun.
      rewrite (proj2 (String.eqb_neq _ _) (session_nonempty _ _ _ Hs)) in Hrun.
      by rewrite (tbind_tlift_ok _ _ _ _ Hs), Hm in Hrun.
  - unfold submit_proof in Hrun. case_if_in Hrun; [discriminate Hrun|].
    by rewrite (tbind_tlift_err _ _ _ _ Hs) in Hrun.
Qed.

Lemma inv_submit e init tid fn content s s' a :
  inv s -> submit_proof e init tid fn content s = Ok (s', a) -> inv s'.
Proof.
  intros [Hu Ht [Hseq Hsub] Hg] (uid & u & _ & _ & ->)%submit_proof_ok_cases.
  set (s1 := with_uploads _ s). set (row := new_user _ 0 None).
  assert (Hk : keeps_rows s (insert_or_ignore_user uid row s1)).
  { intros k Hk. apply (keeps_rows_insert_or_ignore_user s1 uid row). exact Hk. }
  constructor.
  - apply (users_ok_insert_or_ignore_user uid row s1); [done|by apply new_user_ok].
  - unfold tasks_ok, insert_submission, insert_or_ignore_user; simpl. by case_match.
  - unfold subs_ok, insert_submission; simpl. rewrite submissions_insert_or_ignore_user, sub_seq_insert_or_ignore_user.
    split; [simpl; lia|]. intros sid r'.
    destruct (decide (sid = sub_seq s1 + 1)) as [->|Hne].
    + rewrite lookup_insert_eq. intros [= <-]. simpl. split; [lia|].
      apply lookup_insert_or_ignore_user_is_Some.
    + rewrite lookup_insert_ne by done. intros (? & ?)%Hsub. split; [simpl; lia|]. by apply Hk.
  - intros x y. unfold insert_submission; simpl. rewrite referrals_insert_or_ignore_user. apply Hg.
Qed.

(** The shape of the four administrator handlers: the request guard,
    the session, the administrator check, then one statement. *)
Lemma admin_handler_ok (g : bool) err0 err e init (f : db -> db) s s' a :
  (if g then traise err0 else
     p <- tlift (session e init) ;; if negb (is_admin e (fst p)) then traise err else tmodify f) s
    = Ok (s', a) ->
  g = false /\ exists uid u, session e init = Ok (uid, u) /\ is_admin e uid = true /\ s' = f s.
Proof.
  destruct g; [intros H1; discriminate H1|]. cbv iota.
  destruct (session e init) as [[uid u]|err'] eqn:Hs; [|intros H1; discriminate H1].
  rewrite (tbind_tlift_ok _ _ _ _ eq_refl). cbv beta. change (fst (uid, u)) with uid.
  destruct (is_admin e uid) eqn:Ha; cbv [negb traise tmodify]; [|intros H1; discriminate H1].
  intros [= <- _]. split; [done|]. by exists uid, u.
Qed.

Lemma inv_with_tasks s f seq :
  inv s -> map_Forall (fun _ t => 0 < reward t) (f (tasks s)) -> inv (with_tasks f seq s).
Proof. intros [Hu _ Hsub Hg] Ht. constructor; [exact Hu|exact Ht|exact Hsub|exact Hg]. Qed.

Lemma inv_with_verifiers s f : inv s -> inv (with_verifiers f s).
Proof. intros [Hu Ht Hsub Hg]. constructor; [exact Hu|exact Ht|exact Hsub|exact Hg]. Qed.

Lemma inv_ad_watched e init s s' a : inv s -> ad_watched e init s = Ok (s', a) -> inv s'.
Proof.
  intros Hi [->|(uid & u & _ & ->)]%ad_watched_ok_cases; [done|].
  apply inv_with_users; [done| |apply keeps_rows_with_users_insert].
  apply users_ok_row; [apply Hi|apply new_user_ok; lia|apply ad_effect_ok].
Qed.

Lemma inv_daily_claim e init s s' a : inv s -> daily_claim e init s = Ok (s', a) -> inv s'.
Proof.
  intros Hi [[-> _]|(uid & u & _ & _ & -> & _)]%daily_claim_ok_cases; [done|].
  apply inv_with_users; [done| |apply keeps_rows_with_users_insert].
  apply users_ok_row; [apply Hi|apply new_user_ok; lia|apply daily_effect_ok].
Qed.

Lemma inv_handle e rq s s' r : inv s -> handle e rq s = Ok (s', r) -> inv s'.
Proof.
  intros Hi. destruct rq; cbn [handle]; intros (a & Hrun & _)%tmap_ok.
  - unfold bot_start, tbind, tmodify, tret in Hrun. injection Hrun as <- _. by apply inv_bot_start.
  - by apply (inv_ad_watched e init_data s s' a).
  - by apply (inv_daily_claim e init_data s s' a).
  - by apply (inv_submit e init_data task_id filename content s s' a).
  - by apply (inv_review e init_data sub_id action reason s s' a).
  - unfold add_task in Hrun. apply admin_handler_ok in Hrun as (Hg & _ & _ & _ & _ & ->).
    apply orb_false_elim in Hg as [_ Hr%Z.leb_gt]. unfold insert_task.
    apply inv_with_tasks; [done|]. apply map_Forall_insert_2; [simpl; lia|apply Hi].
  - unfold delete_task in Hrun. apply admin_handler_ok in Hrun as (_ & _ & _ & _ & _ & ->).
    apply inv_with_tasks; [done|]. apply map_Forall_delete, Hi.
  - unfold add_verifier in Hrun. apply admin_handler_ok in Hrun as (_ & _ & _ & _ & _ & ->).
    by apply inv_with_verifiers.
  - unfold remove_verifier in Hrun. apply admin_handler_ok in Hrun as (_ & _ & _ & _ & _ & ->).
    by apply inv_with_verifiers.
  - apply callback_cases in Hrun as [-> | ->]; [done|by apply inv_bot_start].
Qed.

Lemma inv_step e rq s : inv s -> inv (step e rq s).1.
Proof.
  intros Hi. unfold step. destruct (handle e rq s) as [[s' r]|err] eqn:Hh; [|done].
  exact (inv_handle e rq s s' r Hi Hh).
Qed.

Lemma inv_empty : inv empty_db.
Proof.
  constructor; [apply map_Forall_empty|apply map_Forall_empty| |].
  - split; [done|]. intros sid row H1. simpl in H1. by rewrite lookup_empty in H1.
  - intros a b H1. set_solver.
Qed.

(** ** The submission table along a step *)

Lemma keeps_reviewed_refl s : keeps_reviewed s s.
Proof. intros sid row Hrow _. exact Hrow. Qed.

Lemma keeps_reviewed_same s s' : submissions s' = submissions s -> keeps_reviewed s s'.
Proof. intros E sid row Hrow _. by rewrite E. Qed.

Lemma keeps_reviewed_trans s1 s2 s3 :
  keeps_reviewed s1 s2 -> keeps_reviewed s2 s3 -> keeps_reviewed s1 s3.
Proof. intros H12 H23 sid row Hrow Hst. auto. Qed.

(** The [UPDATE]s of a review write reach its own submission only. *)
Lemma review_apply_ne w s sid' :
  match w with WApprove sid _ _ _ _ | WReject sid _ _ => sid end <> sid' ->
  submissions (review_apply w s) !! sid' = submissions s !! sid'.
Proof. destruct w; cbn [review_apply]; intros Hne; by rewrite lookup_update_submission_ne. Qed.

Lemma handle_keeps_reviewed e rq s s' r : inv s -> handle e rq s = Ok (s', r) -> keeps_reviewed s s'.
Proof.
  intros Hi. destruct rq; cbn [handle]; intros (a & Hrun & _)%tmap_ok.
  - unfold bot_start, tbind, tmodify, tret in Hrun. injection Hrun as <- _.
    apply keeps_reviewed_same, bot_start_db_tables.
  - apply ad_watched_ok_cases in Hrun as [->|(uid & u & _ & ->)]; by apply keeps_reviewed_same.
  - apply daily_claim_ok_cases in Hrun as [[-> _]|(uid & u & _ & _ & -> & _)]; by apply keeps_reviewed_same.
  - apply submit_proof_ok_cases in Hrun as (uid & u & _ & _ & ->). intros sid row Hrow _.
    unfold insert_submission. cbn [submissions sub_seq with_submissions].
    rewrite submissions_insert_or_ignore_user, sub_seq_insert_or_ignore_user. cbn.
    destruct (proj2 (inv_subs _ Hi) sid row Hrow) as [? _]. by rewrite lookup_insert_ne by lia.
  - rewrite review_submission_spec in Hrun.
    destruct (review_plan e init_data sub_id action reason s) as [[[w|] r']|] eqn:Hp;
      [|injection Hrun as <- _; apply keeps_reviewed_refl|done].
    injection Hrun as <- _. intros sid0 row0 Hrow0 Hst.
    destruct (review_plan_ok _ _ _ _ _ _ _ Hp) as (uid & u & row & _ & Hrow & [[_ [=]]|[Hpend _]]).
    destruct (review_plan_some _ _ _ _ _ _ _ _ Hp)
      as (row' & _ & _ & [(amount & by_ & -> & _)|(by_ & -> & _)]);
      rewrite review_apply_ne; [done| |done|]; intros ->; congruence.
  - unfold add_task in Hrun. apply admin_handler_ok in Hrun as (_ & _ & _ & _ & _ & ->).
    by apply keeps_reviewed_same.
  - unfold delete_task in Hrun. apply admin_handler_ok in Hrun as (_ & _ & _ & _ & _ & ->).
    by apply keeps_reviewed_same.
  - unfold add_verifier in Hrun. apply admin_handler_ok in Hrun as (_ & _ & _ & _ & _ & ->).
    by apply keeps_reviewed_same.
  - unfold remove_verifier in Hrun. apply admin_handler_ok in Hrun as (_ & _ & _ & _ & _ & ->).
    by apply keeps_reviewed_same.
  - apply callback_cases in Hrun as [-> | ->]; [apply keeps_reviewed_refl|].
    apply keeps_reviewed_same, bot_start_db_tables.
Qed.

Lemma step_keeps_reviewed e rq s : inv s -> keeps_reviewed s (step e rq s).1.
Proof.
  intros Hi. unfold step. destruct (handle e rq s) as [[s' r]|err] eqn:Hh; [|apply keeps_reviewed_refl].
  exact (handle_keeps_reviewed e rq s s' r Hi Hh).
Qed.

Lemma run_cons e rq rest s :
  run ((e, rq) :: rest) s = ((run rest (step e rq s).1).1, (step e rq s).2 :: (run rest (step e rq s).1).2).
Proof. simpl. destruct (step e rq s) as [s1 r]. simpl. by destruct (run rest s1). Qed.

Lemma count_replies_cons P x rest r rs :
  count_replies P (x :: rest) (r :: rs) = ((if P x r then 1 else 0) + count_replies P rest rs)%nat.
Proof.
  unfold count_replies. cbn [zip zip_with]. rewrite filter_cons.
  case_decide as Hd; cbn [fst snd] in Hd; destruct (P x r); done.
Qed.

Lemma inv_run rqs s : inv s -> inv (run rqs s).1.
Proof.
  revert s. induction rqs as [|[e rq] rest IH]; intros s Hi; [done|].
  rewrite run_cons. apply IH, inv_step, Hi.
Qed.

(** *** Events that happen at most once along a run

    An event [P] of a reply that needs the mark [M] absent before its
    step and sets it, in a run whose steps keep [M] and the invariant
    [I], happens at most once. *)
Section AtMostOnce.
Variable Q : env * request -> Prop.
Variables I M : db -> Prop.
Variable P : env * request -> result reply -> bool.
Hypothesis step_I : forall x s, Q x -> I s -> I (step x.1 x.2 s).1.
Hypothesis step_M : forall x s, Q x -> I s -> M s -> M (step x.1 x.2 s).1.
Hypothesis step_P :
  forall x s, Q x -> I s -> P x (step x.1 x.2 s).2 = true -> ~ M s /\ M (step x.1 x.2 s).1.

Lemma count_run_at_most_once rqs s :
  Forall Q rqs -> I s ->
  (count_replies P rqs (run rqs s).2 <= 1)%nat /\ (M s -> count_replies P rqs (run rqs s).2 = 0%nat).
Proof.
  revert s. induction rqs as [|[e rq] rest IH]; intros s HQ Hi;
    [unfold count_replies; simpl; split; [lia|done]|].
  apply Forall_cons in HQ as [Hq HQ]. rewrite run_cons. cbn [snd]. rewrite count_replies_cons.
  destruct (IH (step e rq s).1 HQ (step_I (e, rq) s Hq Hi)) as [IH1 IH2].
  destruct (P (e, rq) (step e rq s).2) eqn:Hp.
  - destruct (step_P (e, rq) s Hq Hi Hp) as [HnM HM]. rewrite (IH2 HM). split; [lia|done].
  - split; [lia|]. intros HM. exact (IH2 (step_M (e, rq) s Hq Hi HM)).
Qed.

End AtMostOnce.

(** *** Reviews *)

(** A request that closes [sid] found it pending and leaves it closed. *)
Lemma step_closes e rq s sid :
  closes sid (e, rq) (step e rq s).2 = true ->
  (exists row, submissions s !! sid = Some row /\ sub_status row = Pending) /\
  (exists row, submissions (step e rq s).1 !! sid = Some row /\ sub_status row <> Pending).
Proof.
  unfold step. destruct (handle e rq s) as [[s' r]|err] eqn:Hh; cbn [fst snd]; [|by destruct rq].
  destruct rq as [| | | |init sid' act rsn| | | | |]; try done.
  cbn [handle] in Hh. apply tmap_ok in Hh as (a & Hrun & ->).
  rewrite review_submission_spec in Hrun.
  destruct (review_plan e init sid' act rsn s) as [res|err] eqn:Hp; [|done].
  destruct (review_plan_ok _ _ _ _ _ _ _ Hp)
    as (uid & u & row & _ & Hrow & [[_ ->]|[Hpend (w & a' & st & -> & Hst & Hlk)]]).
  - injection Hrun as _ <-. done.
  - injection Hrun as <- <-. intros Hc.
    assert (sid' = sid) as <- by (destruct a'; simpl in Hc; try done; by apply Z.eqb_eq).
    split; eexists; split; [exact Hrow|exact Hpend|exact Hlk|exact Hst].
Qed.

(** *** Daily claims *)

Lemma keeps_daily_trans s1 s2 s3 : keeps_daily s1 s2 -> keeps_daily s2 s3 -> keeps_daily s1 s3.
Proof.
  intros H12 H23 k x Hx. destruct (H12 k x Hx) as (y & Hy & Ey).
  destruct (H23 k y Hy) as (z & Hz & Ez). exists z. by rewrite Ez.
Qed.

Lemma keeps_daily_same s s' : users s' = users s -> keeps_daily s s'.
Proof. intros E k x Hx. exists x. by rewrite E. Qed.

Lemma keeps_daily_insert_or_ignore k x s : keeps_daily s (insert_or_ignore_user k x s).
Proof.
  intros k' y Hy. destruct (decide (k = k')) as [->|Hne].
  - exists y. by rewrite (lookup_insert_or_ignore_user_some _ _ _ _ Hy).
  - rewrite lookup_insert_or_ignore_user_ne by done. eauto.
Qed.

Lemma keeps_daily_update_user k f s :
  (forall r, last_daily (f r) = last_daily r) -> keeps_daily s (update_user k f s).
Proof.
  intros Hf k' y Hy. destruct (decide (k = k')) as [->|Hne].
  - rewrite lookup_update_user_eq, Hy. simpl. eauto.
  - rewrite lookup_update_user_ne by done. eauto.
Qed.

Lemma keeps_daily_row uid f r0 s :
  (forall r, last_daily (f r) = last_daily r) ->
  keeps_daily s (with_users (insert uid (f (default r0 (users s !! uid)))) s).
Proof.
  intros Hf k y Hy. simpl. destruct (decide (uid = k)) as [->|Hne].
  - rewrite lookup_insert_eq, Hy. simpl. eauto.
  - rewrite lookup_insert_ne by done. eauto.
Qed.

Lemma daily_mark_keeps d uid s s' : keeps_daily s s' -> daily_mark d uid s -> daily_mark d uid s'.
Proof. intros Hk (r & Hr & Hd). destruct (Hk _ _ Hr) as (y & Hy & E). exists y. by rewrite E. Qed.

Lemma bot_start_keeps_daily t u args s : keeps_daily s (bot_start_db t u args s).
Proof.
  unfold bot_start_db. cbv zeta. eapply keeps_daily_trans; [apply keeps_daily_insert_or_ignore|].
  destruct (start_referrer args) as [r|]; [case_if|]; [|apply keeps_daily_same; done..].
  intros k x Hx. by apply (keeps_daily_update_user r _ (insert_referral r (tg_id u) _)); [|exact Hx].
Qed.

(** Only a daily claim writes [last_daily], and it writes the day of
    its request. *)
Lemma step_daily_mark e rq s d uid :
  isoformat_date (now e) = d -> daily_mark d uid s -> daily_mark d uid (step e rq s).1.
Proof.
  intros Hd Hm. unfold step. destruct (handle e rq s) as [[s' r]|err] eqn:Hh; [|exact Hm]. cbn [fst].
  revert Hm.
  destruct rq; cbn [handle] in Hh; apply tmap_ok in Hh as (a & Hrun & _).
  - unfold bot_start, tbind, tmodify, tret in Hrun. injection Hrun as <- _. apply daily_mark_keeps, bot_start_keeps_daily.
  - apply ad_watched_ok_cases in Hrun as [->|(uid' & u & _ & ->)]; [done|].
    apply daily_mark_keeps, keeps_daily_row. intros r0. unfold ad_effect. by case_if.
  - apply daily_claim_ok_cases in Hrun as [[-> _]|(uid' & u & _ & _ & -> & _)]; [done|].
    intros (r0 & Hr0 & Hd0). unfold daily_mark. destruct (decide (uid' = uid)) as [->|Hne]; simpl.
    + rewrite lookup_insert_eq. eexists. split; [reflexivity|]. by rewrite <- Hd.
    + rewrite lookup_insert_ne by done. eauto.
  - apply submit_proof_ok_cases in Hrun as (uid' & u & _ & _ & ->).
    apply daily_mark_keeps, (keeps_daily_insert_or_ignore uid' _ (with_uploads _ s)).
  - rewrite review_submission_spec in Hrun.
    destruct (review_plan e init_data sub_id action reason s)
      as [[[[sid' target amount by_ rsn'|sid' by_ rsn']|] r']|] eqn:Hp;
      [| |injection Hrun as <- _; done|done]; injection Hrun as <- _; cbn [review_apply];
      apply daily_mark_keeps; [|by apply keeps_daily_same].
    by apply (keeps_daily_update_user target (add_coins amount) s).
  - unfold add_task in Hrun. apply admin_handler_ok in Hrun as (_ & _ & _ & _ & _ & ->).
    by apply daily_mark_keeps, keeps_daily_same.
  - unfold delete_task in Hrun. apply admin_handler_ok in Hrun as (_ & _ & _ & _ & _ & ->).
    by apply daily_mark_keeps, keeps_daily_same.
  - unfold add_verifier in Hrun. apply admin_handler_ok in Hrun as (_ & _ & _ & _ & _ & ->).
    by apply daily_mark_keeps, keeps_daily_same.
  - unfold remove_verifier in Hrun. apply admin_handler_ok in Hrun as (_ & _ & _ & _ & _ & ->).
    by apply daily_mark_keeps, keeps_daily_same.
  - apply callback_cases in Hrun as [-> | ->]; [done|apply daily_mark_keeps, bot_start_keeps_daily].
Qed.

(** A daily claim that pays user [uid] found no claim of the day and
    records one. *)
Lemma step_daily_paid e rq s uid :
  daily_paid uid (e, rq) (step e rq s).2 = true ->
  ~ daily_mark (isoformat_date (now e)) uid s /\ daily_mark (isoformat_date (now e)) uid (step e rq s).1.
Proof.
  unfold step. destruct (handle e rq s) as [[s' r]|err] eqn:Hh; cbn [fst snd]; [|by destruct rq].
  destruct rq as [| |init| | | | | | |]; try done.
  cbn [handle] in Hh. apply tmap_ok in Hh as (a & Hrun & ->).
  unfold daily_paid. cbn [fst snd]. destruct a as [|n]; [done|].
  destruct (request_user e init "init_data required") as [[uid' u']|err] eqn:Hreq; [|done].
  intros ->%Z.eqb_eq.
  apply daily_claim_ok_cases in Hrun as [[_ [=]]|(uid0 & u & Hreq' & Hlast & -> & _)].
  rewrite Hreq in Hreq'. injection Hreq' as <- <-. split.
  - intros (r & Hr & Hd). rewrite Hr in Hlast. simpl in Hlast. congruence.
  - eexists. simpl. rewrite lookup_insert_eq. split; reflexivity.
Qed.

End Steps.

Section Theorems.
Context `{Crypto} `{JsonDecoder}.

(** C1: Every store the service reaches from an empty database, by any
    sequence of requests of any handler, failed ones included, satisfies
    the invariant: balances, ad counts and streaks in range, positive
    task rewards, submission ids below the [AUTOINCREMENT] counter with
    the submitter's row present, and no self-referral. *)
Theorem reachable_inv s : reachable s -> inv s.
Proof. induction 1; [apply inv_empty|by apply inv_step]. Qed.

(** C2: Along any serial run from a store satisfying the invariant, a
    submission is closed (awarded or rejected) by at most one review
    request; every later review gets ["already reviewed"]. *)
Theorem review_closes_once sid rqs s :
  inv s -> (count_replies (closes sid) rqs (run rqs s).2 <= 1)%nat.
Proof.
  intros Hi.
  apply (count_run_at_most_once (fun _ => True) inv
           (fun s => exists row, submissions s !! sid = Some row /\ sub_status row <> Pending) (closes sid));
    [intros x s' _; apply inv_step| | |by apply Forall_forall|done].
  - intros [e rq] s' _ Hi' (row & Hrow & Hst). exists row. split; [by apply step_keeps_reviewed|done].
  - intros [e rq] s' _ _ [(row & Hrow & Hp) Hc]%step_closes. split; [|done].
    intros (row' & Hrow' & Hst). congruence.
Qed.

(** C14: A reviewed submission stays as its review left it, whatever
    requests follow: its status, reviewer and reason never change
    again. *)
Theorem reviewed_final sid row rqs s :
  inv s -> submissions s !! sid = Some row -> sub_status row <> Pending ->
  submissions (run rqs s).1 !! sid = Some row.
Proof.
  revert s. induction rqs as [|[e rq] rest IH]; intros s Hi Hrow Hst; [done|].
  rewrite run_cons. apply IH; [by apply inv_step| |done]. by apply step_keeps_reviewed.
Qed.

(** C3: The daily bonus is paid to a user at most once on a UTC day:
    along any serial run of requests of that day, from any store, at
    most one daily claim of the user replies with the reward. *)
Theorem daily_once_per_day uid d rqs s :
  Forall (fun x => isoformat_date (now x.1) = d) rqs ->
  (count_replies (daily_paid uid) rqs (run rqs s).2 <= 1)%nat.
Proof.
  intros HQ.
  apply (count_run_at_most_once (fun x => isoformat_date (now x.1) = d) (fun _ => True)
           (daily_mark d uid) (daily_paid uid)); [by intros| | |exact HQ|done].
  - intros [e rq] s' Hd _. by apply step_daily_mark.
  - intros [e rq] s' Hd _ Hp. rewrite <- Hd. by apply step_daily_paid.
Qed.

(** C4: Two approvals of one pending submission whose reads both come
    before either's writes ([reviews_interleaved]) both reply with an
    award, and the submitter is credited twice. *)
Theorem review_race e1 e2 init1 init2 sid rsn1 rsn2 s s' a1 a2 row y :
  reviews_interleaved e1 init1 sid "approve" rsn1 e2 init2 sid "approve" rsn2 s =
    Ok (s', (ReviewAwarded a1, ReviewAwarded a2)) ->
  submissions s !! sid = Some row -> users s !! sub_user row = Some y ->
  exists y', users s' !! sub_user row = Some y' /\ coins y' = coins y + a1 + a2.
Proof.
  unfold reviews_interleaved. intros Hrun Hrow Hy.
  destruct (review_plan e1 init1 sid "approve" rsn1 s) as [[o1 r1]|] eqn:Hp1; [|done].
  destruct (review_plan e2 init2 sid "approve" rsn2 s) as [[o2 r2]|] eqn:Hp2; [|done].
  cbn in Hrun. injection Hrun as Hs' -> ->.
  destruct (review_plan_awarded _ _ _ _ _ _ _ _ Hp1) as [w1 ->].
  destruct (review_plan_awarded _ _ _ _ _ _ _ _ Hp2) as [w2 ->]. subst s'.
  destruct (review_plan_some _ _ _ _ _ _ _ _ Hp1) as (q1 & Hq1 & _ & [(b1 & v1 & -> & [= <-] & _)|(v1 & _ & [=])]).
  destruct (review_plan_some _ _ _ _ _ _ _ _ Hp2) as (q2 & Hq2 & _ & [(b2 & v2 & -> & [= <-] & _)|(v2 & _ & [=])]).
  rewrite Hrow in Hq1, Hq2. injection Hq1 as <-. injection Hq2 as <-. cbn [review_apply].
  rewrite users_update_submission, lookup_update_user_eq, users_update_submission, lookup_update_user_eq, Hy.
  eexists. split; [reflexivity|]. unfold add_coins, set_coins; simpl. lia.
Qed.

(** C15: Progress of the review workflow: an approval by an
    administrator or a verifier of a pending submission closes it in one
    step, with the status [approved] and the reviewer recorded. *)
Theorem review_progress e init sid rsn s uid u row :
  init <> "" -> sid <> 0 -> session e init = Ok (uid, u) -> is_staff e s uid = true ->
  submissions s !! sid = Some row -> sub_status row = Pending ->
  closes sid (e, RqReview init sid "approve" rsn) (step e (RqReview init sid "approve" rsn) s).2 = true /\
  exists row', submissions (step e (RqReview init sid "approve" rsn) s).1 !! sid = Some row' /\
    sub_status row' = Approved /\ reviewed_by row' = Some uid.
Proof.
  intros Hi Hs Hu Hst Hrow Hp.
  pose proof (review_plan_approve e init sid rsn s uid u row Hi Hs Hu Hst Hrow Hp) as Hplan. cbv zeta in Hplan.
  unfold step, handle, tmap, tbind, tret. rewrite review_submission_spec, Hplan. cbn [fst snd closes].
  split; [apply Z.eqb_refl|]. eexists. cbn [review_apply].
  rewrite lookup_update_submission_eq, submissions_update_user, Hrow. by split.
Qed.

End Theorems.

Lemma review_progress_witness :
  let s := review_db None {[1 := review_task]} in
  exists row, sample_token <> "" /\ @session toy_crypto toy_json (staff_env sample_now) sample_token = Ok (7, sample_user) /\
    is_staff (staff_env sample_now) s 7 = true /\ submissions s !! 1 = Some row /\ sub_status row = Pending /\
    closes 1 (staff_env sample_now, RqReview sample_token 1 "approve" "ok")
      (@step toy_crypto toy_json (staff_env sample_now) (RqReview sample_token 1 "approve" "ok") s).2 = true.
Proof.
  intros s.
  assert (Hi : sample_token <> "") by (vm_compute; discriminate).
  assert (Hu : @session toy_crypto toy_json (staff_env sample_now) sample_token = Ok (7, sample_user))
    by (vm_compute; reflexivity).
  assert (Hst : is_staff (staff_env sample_now) s 7 = true) by (vm_compute; reflexivity).
  destruct (submissions s !! 1) as [row|] eqn:Er; [|vm_compute in Er; discriminate].
  assert (Hp : sub_status row = Pending) by (vm_compute in Er; injection Er as <-; reflexivity).
  exists row. split_and!; [exact Hi|exact Hu|exact Hst|reflexivity|exact Hp|].
  exact (proj1 (@review_progress toy_crypto toy_json _ _ 1 "ok" s 7 sample_user row Hi ltac:(discriminate)
                  Hu Hst Er Hp)).
Defined.

Lemma reachable_inv_witness :
  @reachable toy_crypto demo_json (@step toy_crypto demo_json (sample_env sample_now true) (RqStart rex []) empty_db).1 /\
  inv (@step toy_crypto demo_json (sample_env sample_now true) (RqStart rex []) empty_db).1.
Proof.
  assert (Hr : @reachable toy_crypto demo_json (@step toy_crypto demo_json (sample_env sample_now true) (RqStart rex []) empty_db).1)
    by (apply reach_step, reach_empty).
  split; [exact Hr|exact (@reachable_inv toy_crypto demo_json _ Hr)].
Defined.

Lemma review_closes_once_witness :
  inv empty_db /\ (count_replies (closes 1) demo_trace (@run toy_crypto demo_json demo_trace empty_db).2 <= 1)%nat.
Proof. split; [exact inv_empty|exact (@review_closes_once toy_crypto demo_json 1 demo_trace empty_db inv_empty)]. Defined.

Lemma reviewed_final_witness :
  let s9 := (@run toy_crypto demo_json (take 9 demo_trace) empty_db).1 in
  exists row, inv s9 /\ submissions s9 !! 1 = Some row /\ sub_status row <> Pending /\
    submissions (@run toy_crypto demo_json (drop 9 demo_trace) s9).1 !! 1 = Some row.
Proof.
  intros s9. assert (Hi : inv s9) by (apply (@inv_run toy_crypto demo_json), inv_empty).
  destruct (submissions s9 !! 1) as [row|] eqn:E; [|vm_compute in E; discriminate].
  assert (Hst : sub_status row <> Pending) by (vm_compute in E; injection E as <-; discriminate).
  exists row. split_and!; [exact Hi|reflexivity|exact Hst|].
  exact (@reviewed_final toy_crypto demo_json 1 row (drop 9 demo_trace) s9 Hi E Hst).
Defined.

Lemma daily_once_per_day_witness :
  let rqs := [(sample_env sample_now true, RqDaily (demo_token "neo"));
              (sample_env (sample_now + 1) true, RqDaily (demo_token "neo"))] in
  Forall (fun x => isoformat_date (now x.1) = isoformat_date sample_now) rqs /\
  (count_replies (@daily_paid toy_crypto demo_json 4) rqs (@run toy_crypto demo_json rqs empty_db).2 <= 1)%nat.
Proof.
  intros rqs.
  assert (HQ : Forall (fun x => isoformat_date (now x.1) = isoformat_date sample_now) rqs)
    by (unfold rqs; repeat (apply List.Forall_cons; [vm_compute; reflexivity|]); apply List.Forall_nil).
  split; [exact HQ|exact (@daily_once_per_day toy_crypto demo_json 4 _ rqs empty_db HQ)].
Defined.

Lemma review_race_witness :
  let s := review_db None {[1 := review_task]} in
  exists s', @reviews_interleaved toy_crypto toy_json (staff_env sample_now) sample_token 1 "approve" "ok"
               (staff_env sample_now) sample_token 1 "approve" "again" s =
             Ok (s', (ReviewAwarded 50, ReviewAwarded 50)) /\
    exists y', users s' !! 9 = Some y' /\ coins y' = 0 + 50 + 50.
Proof.
  intros s.
  destruct (@reviews_interleaved toy_crypto toy_json (staff_env sample_now) sample_token 1 "approve" "ok"
              (staff_env sample_now) sample_token 1 "approve" "again" s) as [[s' [r1 r2]]|err] eqn:E;
    [|vm_compute in E; discriminate].
  assert (Hr : r1 = ReviewAwarded 50 /\ r2 = ReviewAwarded 50) by (vm_compute in E; injection E as _ <- <-; done).
  destruct Hr as [-> ->]. exists s'. split; [reflexivity|].
  destruct (submissions s !! 1) as [row|] eqn:Er; [|vm_compute in Er; discriminate].
  assert (Hu : sub_user row = 9) by (vm_compute in Er; injection Er as <-; reflexivity).
  destruct (@review_race toy_crypto toy_json _ _ _ _ 1 "ok" "again" s s' 50 50 row
              (set_boost_until None (new_user "sub" 0 None)) E Er) as (y' & Hy' & Hc);
    [rewrite Hu; reflexivity|].
  rewrite Hu in Hy'. exists y'. split; [exact Hy'|]. rewrite Hc. reflexivity.
Defined.

End System.
